(** * TraceFinder: a shallow embedding of the artifact collection core

    The development follows the layout of the repository:
    - [Py], [Double], [Text], [Datetime], [Value]
                  the fragment of Python the sources rely on (exceptions,
                  binary64 arithmetic, strings, [datetime], values);
    - [TimeWindow]  core/time_window.py;
    - [Host]      what the collectors read from the machine (registry,
                  files, environment, browser databases);
    - [Collect]   the effect of a collector: findings appended to a list,
                  exceptions raised and handled;
    - [Collectors]  collectors/*.py;
    - [Tracefinder] tracefinder.py (orchestrator and sort stage);
    - [Reporters]   the row construction of reporters/csv_exporter.py;
    - [LocalZone], [CsvExporter], [Console]
                  the zone label, the CSV export and the console report;
    - [Main]      the window size on the command line of tracefinder.py.

    Strings are Rocq strings (one [ascii] per character), byte strings are
    lists of [byte], Python integers are [Z]. *)

From Stdlib Require Import ZArith Lia List Bool Ascii String Sorted Permutation.
From Stdlib Require Strings.Byte.
From stdpp Require Import base gmap strings list.

Local Open Scope string_scope.
Local Open Scope list_scope.
Local Open Scope Z_scope.

(* ===================================================================== *)
(** * Python fragment *)
(* ===================================================================== *)

Module Py.

(** The exception classes that the modelled code can meet.  All of them
    derive from [Exception]; [FileNotFoundError] and [PermissionError]
    derive from [OSError]. *)
Inductive exn : Type :=
| OSError | FileNotFoundError | PermissionError
| ValueError | OverflowError | TypeError | AttributeError
| ZeroDivisionError | KeyError | StructError | DatabaseError.

Definition exn_eqb (a b : exn) : bool :=
  match a, b with
  | OSError, OSError | FileNotFoundError, FileNotFoundError
  | PermissionError, PermissionError | ValueError, ValueError
  | OverflowError, OverflowError | TypeError, TypeError
  | AttributeError, AttributeError | ZeroDivisionError, ZeroDivisionError
  | KeyError, KeyError
  | StructError, StructError | DatabaseError, DatabaseError => true
  | _, _ => false
  end.

(** [isinstance(e, OSError)] *)
Definition is_OSError (e : exn) : bool :=
  match e with
  | OSError | FileNotFoundError | PermissionError => true
  | _ => false
  end.

(** [isinstance(e, (FileNotFoundError, PermissionError))] *)
Definition is_missing_or_denied (e : exn) : bool :=
  match e with
  | FileNotFoundError | PermissionError => true
  | _ => false
  end.

(** Outcome of evaluating an expression: a value or a raised exception. *)
Inductive result (A : Type) : Type :=
| Ok (a : A)
| Raise (e : exn).
Arguments Ok {A} a.
Arguments Raise {A} e.

Definition rbind {A B} (r : result A) (k : A -> result B) : result B :=
  match r with
  | Ok a => k a
  | Raise e => Raise e
  end.

End Py.
Export Py.

Notation "'let*' x ':=' r 'in' k" := (rbind r (fun x => k))
  (at level 10, x pattern, r at level 100, k at level 200).

(* ===================================================================== *)
(** * binary64 arithmetic

    Python's [float] is an IEEE-754 binary64.  A finite double is kept as
    the dyadic number [mant * 2^expo]; every operation below is the exact
    operation followed by rounding to nearest, ties to even, onto 53-bit
    mantissas (gradual underflow below 2^-1022). *)
(* ===================================================================== *)

Module Double.

Record double : Type := mk { mant : Z; expo : Z }.

Definition zero : double := mk 0 0.
Definition of_Z (n : Z) : double := mk n 0.
Definition is_zero (x : double) : bool := mant x =? 0.

(** Nearest integer to [n/d] ([d > 0]), ties to even. *)
Definition rne_quot (n d : Z) : Z :=
  let q := n / d in
  match 2 * (n mod d) ?= d with
  | Lt => q
  | Gt => q + 1
  | Eq => if Z.even q then q else q + 1
  end.

(** [floor (log2 (n/d))] for [n, d > 0]. *)
Definition ilog2_quot (n d : Z) : Z :=
  let k := Z.log2 n - Z.log2 d in
  if 0 <=? k
  then (if d * 2 ^ k <=? n then k else k - 1)
  else (if d <=? n * 2 ^ (- k) then k else k - 1).

(** The double nearest to the rational [n/d] ([d > 0]). *)
Definition round_rat (n d : Z) : double :=
  if n =? 0 then zero else
  let a := Z.abs n in
  let e := Z.max (ilog2_quot a d - 52) (-1074) in
  let m := if 0 <=? e then rne_quot a (d * 2 ^ e)
           else rne_quot (a * 2 ^ (- e)) d in
  mk (Z.sgn n * m) e.

(** The double nearest to the dyadic [m * 2^e]. *)
Definition round_dyadic (m e : Z) : double :=
  if 0 <=? e then round_rat (m * 2 ^ e) 1 else round_rat m (2 ^ (- e)).

(** A rounded result that does not fit below 2^1024. *)
Definition overflows (x : double) : bool :=
  (971 <? expo x) || ((expo x =? 971) && (2 ^ 53 <=? Z.abs (mant x))).

(** [a / b] on Python integers: the correctly rounded quotient. *)
Definition int_truediv (a b : Z) : result double :=
  if b =? 0 then Raise ZeroDivisionError else
  let x := round_rat (a * Z.sgn b) (Z.abs b) in
  if overflows x then Raise OverflowError else Ok x.

(** [x * y] on doubles (no overflow handling: the callers multiply a
    fractional part by a constant). *)
Definition fmul (x y : double) : double :=
  round_dyadic (mant x * mant y) (expo x + expo y).

(** C [modf]: integral part (as an integer) and fractional part, both with
    the sign of the argument. *)
Definition modf (x : double) : Z * double :=
  if 0 <=? expo x then (mant x * 2 ^ expo x, zero)
  else let d := 2 ^ (- expo x) in
       (Z.quot (mant x) d, mk (Z.rem (mant x) d) (expo x)).

(** C [round]: nearest integer, ties away from zero. *)
Definition c_round (x : double) : Z :=
  if 0 <=? expo x then mant x * 2 ^ expo x
  else let d := 2 ^ (- expo x) in
       Z.sgn (mant x) * ((2 * Z.abs (mant x) + d) / (2 * d)).

(** [fabs(x - k) == 0.5] for an integer [k] (the subtraction is exact for
    [k = round(x)]). *)
Definition half_away (x : double) (k : Z) : bool :=
  if 0 <=? expo x then false
  else 2 * Z.abs (mant x - k * 2 ^ (- expo x)) =? 2 ^ (- expo x).

(** [x + k] for an integer [k] and [x * 0.5], both exact on the operands
    they are applied to (a tie [x = +-0.5] and a parity bit). *)
Definition add_int (x : double) (k : Z) : double :=
  if 0 <=? expo x then mk (mant x * 2 ^ expo x + k) 0
  else mk (mant x + k * 2 ^ (- expo x)) (expo x).
Definition halve (x : double) : double := mk (mant x) (expo x - 1).

End Double.
Export Double.

(* ===================================================================== *)
(** * Strings and bytes *)
(* ===================================================================== *)

Module Text.

Definition byte := Init.Byte.byte.
Definition byte_val (b : byte) : Z := Z.of_N (Strings.Byte.to_N b).

Definition chr (n : Z) : ascii := ascii_of_N (Z.to_N n).
Definition ord (c : ascii) : Z := Z.of_N (N_of_ascii c).

Fixpoint chars (s : string) : list ascii :=
  match s with
  | EmptyString => []
  | String c r => c :: chars r
  end.

Fixpoint of_chars (l : list ascii) : string :=
  match l with
  | [] => EmptyString
  | c :: r => String c (of_chars r)
  end.

Definition str_len (s : string) : Z := Z.of_nat (String.length s).

(** [bytes.decode('latin-1')]: one character per byte. *)
Definition decode_latin1 (b : list byte) : string :=
  of_chars (map Ascii.ascii_of_byte b).

Definition digit (n : Z) : ascii := chr (48 + n mod 10).

Fixpoint dec_go (fuel : nat) (n : Z) (acc : string) : string :=
  match fuel with
  | O => acc
  | S f => let acc' := String (digit n) acc in
           if n <? 10 then acc' else dec_go f (n / 10) acc'
  end.

(** [str(n)] for a Python integer. *)
Definition str_of_Z (n : Z) : string :=
  let a := Z.abs n in
  let d := dec_go (S (Z.to_nat (Z.log2 a))) a "" in
  if n <? 0 then "-" +:+ d else d.

(** [n] printed on exactly [w] digits, zero padded (the [%0wd] of C). *)
Fixpoint zero_pad (w : nat) (n : Z) : string :=
  match w with
  | O => ""
  | S w' => zero_pad w' (n / 10) +:+ String (digit n) ""
  end.

Definition hex_digit (n : Z) : ascii :=
  if n <? 10 then chr (48 + n) else chr (87 + n).

Definition has_char (c : ascii) (s : string) : bool :=
  existsb (Ascii.eqb c) (chars s).

(** The escapes of [repr] for the characters of a [str] or [bytes]
    literal delimited by [q]. *)
Definition repr_char (q c : ascii) : string :=
  let n := ord c in
  if Ascii.eqb c "\"%char then "\\"
  else if Ascii.eqb c q then String "\"%char (String q "")
  else if n =? 9 then "\t" else if n =? 10 then "\n"
  else if n =? 13 then "\r"
  else if (n <? 32) || (127 <=? n)
       then String "\"%char (String "x"%char
              (String (hex_digit (n / 16)) (String (hex_digit (n mod 16)) "")))
  else String c "".

Definition DQUOTE : ascii := chr 34.

Definition repr_quote (s : string) : ascii :=
  if has_char "'"%char s && negb (has_char DQUOTE s)
  then DQUOTE else "'"%char.

(** [repr(s)] for a [str]. *)
Definition repr_str (s : string) : string :=
  let q := repr_quote s in
  String q (String.concat "" (map (repr_char q) (chars s)) +:+ String q "").

(** [repr(b)] for a [bytes] object. *)
Definition repr_bytes (b : list byte) : string :=
  "b" +:+ repr_str (decode_latin1 b).

(** [str.upper()].  The letters a to z and the accented letters U+00E0
    to U+00FE (the division sign apart) move down by 32; the sharp s
    becomes SS.  The upper-case forms of the micro sign (U+039C) and of
    y with diaeresis (U+0178) are no characters of these strings:
    [upper_in_alphabet] excludes the two, which [upper_char] leaves as
    they are. *)
Definition upper_in_alphabet (c : ascii) : bool :=
  negb ((ord c =? 181) || (ord c =? 255)).

Definition upper_char (c : ascii) : list ascii :=
  let n := ord c in
  if (97 <=? n) && (n <=? 122) then [chr (n - 32)]
  else if n =? 223 then ["S"%char; "S"%char]
  else if (224 <=? n) && (n <=? 254) && negb (n =? 247) then [chr (n - 32)]
  else [c].

Definition upper (s : string) : string :=
  of_chars (flat_map upper_char (chars s)).

(** [codecs.decode(s, 'rot_13')] *)
Definition rot13_char (c : ascii) : ascii :=
  let n := ord c in
  if (97 <=? n) && (n <=? 122) then chr (97 + (n - 97 + 13) mod 26)
  else if (65 <=? n) && (n <=? 90) then chr (65 + (n - 65 + 13) mod 26)
  else c.
Definition rot13 (s : string) : string := of_chars (map rot13_char (chars s)).

(** [str.isspace] on one character: the ASCII controls 9 to 13 and 28
    to 31, the space, NEL (U+0085) and the no-break space (U+00A0). *)
Definition is_space (c : ascii) : bool :=
  let n := ord c in
  ((9 <=? n) && (n <=? 13)) || ((28 <=? n) && (n <=? 32))
  || (n =? 133) || (n =? 160).

(** [s.rstrip(set)]: drop the longest suffix made of characters of [set]. *)
Fixpoint rstrip_chars (keep : ascii -> bool) (l : list ascii) : list ascii :=
  match l with
  | [] => []
  | c :: r =>
      match rstrip_chars keep r with
      | [] => if keep c then [c] else []
      | r' => c :: r'
      end
  end.

Definition rstrip (s set : string) : string :=
  of_chars (rstrip_chars (fun c => negb (has_char c set)) (chars s)).

(** [s.strip()] is non-empty, i.e. [s] has a non-blank character. *)
Definition non_blank (s : string) : bool :=
  existsb (fun c => negb (is_space c)) (chars s).

(** [s.split(sep)] for a one-character separator. *)
Fixpoint split_on (sep : ascii) (l : list ascii) : list (list ascii) :=
  match l with
  | [] => [[]]
  | c :: r =>
      if Ascii.eqb c sep then [] :: split_on sep r
      else match split_on sep r with
           | [] => [[c]]
           | p :: ps => (c :: p) :: ps
           end
  end.

Definition split (s : string) (sep : ascii) : list string :=
  map of_chars (split_on sep (chars s)).

(** [sep.join(parts)] *)
Definition join (sep : string) (parts : list string) : string :=
  String.concat sep parts.

(** [l[:-1]] and [l[-n:]] *)
Definition drop_last {A} (l : list A) : list A := removelast l.
Definition last_n {A} (n : nat) (l : list A) : list A :=
  skipn (Nat.sub (length l) n) l.

(** [s[:n]] *)
Definition str_take (n : nat) (s : string) : string :=
  of_chars (firstn n (chars s)).

End Text.
Export Text.

(* ===================================================================== *)
(** * The [datetime] module *)
(* ===================================================================== *)

Module Datetime.

(** A [datetime] is its wall-clock reading, counted in microseconds from
    0001-01-01T00:00:00 ([datetime.min]), and its [tzinfo]: [None] for a
    naive value, [Some off] for an aware one with UTC offset [off]
    microseconds.  [timezone.utc] is offset 0. *)
Record datetime : Type := mkdt { us : Z; tzinfo : option Z }.

Definition utc : option Z := Some 0.

Definition US_PER_SECOND : Z := 1000000.
Definition US_PER_DAY : Z := 86400 * US_PER_SECOND.

(** Days from 0001-01-01 to the proleptic Gregorian date [y-m-d]. *)
Definition days_from_civil (y m d : Z) : Z :=
  let y' := if m <=? 2 then y - 1 else y in
  let era := y' / 400 in
  let yoe := y' - era * 400 in
  let mp := if 2 <? m then m - 3 else m + 9 in
  let doy := (153 * mp + 2) / 5 + d - 1 in
  let doe := yoe * 365 + yoe / 4 - yoe / 100 + doy in
  era * 146097 + doe - 306.

(** The date [(y, m, d)] that lies [z] days after 0001-01-01. *)
Definition civil_from_days (z : Z) : Z * Z * Z :=
  let z := z + 306 in
  let era := z / 146097 in
  let doe := z - era * 146097 in
  let yoe := (doe - doe / 1460 + doe / 36524 - doe / 146096) / 365 in
  let doy := doe - (365 * yoe + yoe / 4 - yoe / 100) in
  let mp := (5 * doy + 2) / 153 in
  let d := doy - (153 * mp + 2) / 5 + 1 in
  let m := if mp <? 10 then mp + 3 else mp - 9 in
  let y := yoe + era * 400 in
  (if m <=? 2 then y + 1 else y, m, d).

(** One past [datetime.max] (9999-12-31T23:59:59.999999). *)
Definition MAX_US : Z := 3652059 * US_PER_DAY.

Definition in_range (u : Z) : bool := (0 <=? u) && (u <? MAX_US).

(** [datetime(y, m, d, tzinfo=tz)] for a valid date. *)
Definition datetime_ (y m d : Z) (tz : option Z) : datetime :=
  mkdt (days_from_civil y m d * US_PER_DAY) tz.

(** [datetime.min] *)
Definition datetime_min : datetime := mkdt 0 None.

(** [d.replace(tzinfo=tz)] *)
Definition replace_tzinfo (d : datetime) (tz : option Z) : datetime :=
  mkdt (us d) tz.

(** The instant a datetime denotes, in microseconds from
    0001-01-01T00:00:00Z; a naive reading is taken as UTC. *)
Definition utc_instant (d : datetime) : Z := us d - default 0 (tzinfo d).

(** ** Comparison *)

(** [a <= b]: naive against naive compares the readings, aware against
    aware compares the instants, a mix raises [TypeError]. *)
Definition dt_cmp (op : Z -> Z -> bool) (a b : datetime) : result bool :=
  match tzinfo a, tzinfo b with
  | None, None => Ok (op (us a) (us b))
  | Some oa, Some ob => Ok (op (us a - oa) (us b - ob))
  | _, _ => Raise TypeError
  end.

Definition dt_le : datetime -> datetime -> result bool := dt_cmp Z.leb.
Definition dt_lt : datetime -> datetime -> result bool := dt_cmp Z.ltb.

(** [max(a, b)]: [b] when [b > a], else [a]. *)
Definition dt_max (a b : datetime) : result datetime :=
  let* gt := dt_lt a b in Ok (if gt then b else a).

(** ** [timedelta], normalised to a count of microseconds *)

Definition timedelta_check (u : Z) : result Z :=
  let days := u / US_PER_DAY in
  if (-999999999 <=? days) && (days <=? 999999999) then Ok u
  else Raise OverflowError.

(** [timedelta(microseconds=n)] and [timedelta(minutes=n)] for integers *)
Definition timedelta_microseconds (n : Z) : result Z := timedelta_check n.
Definition timedelta_minutes (n : Z) : result Z :=
  timedelta_check (n * 60 * US_PER_SECOND).

(** Rounding of the fractional microseconds left over, against the parity
    of the whole microseconds [x] already accumulated (half to even). *)
Definition round_leftover (x : Z) (leftover : double) : Z :=
  if is_zero leftover then 0 else
  let whole := c_round leftover in
  if half_away leftover whole
  then let odd := x mod 2 in
       2 * c_round (halve (add_int leftover odd)) - odd
  else whole.

(** [timedelta(seconds=x)] for a float [x]: the integral part is scaled
    exactly, the fractional part goes through one double multiplication. *)
Definition timedelta_seconds (x : double) : result Z :=
  let '(intpart, fracpart) := modf x in
  let sum := intpart * US_PER_SECOND in
  if is_zero fracpart then timedelta_check sum
  else
    let '(intpart2, leftover) := modf (fmul (of_Z US_PER_SECOND) fracpart) in
    let y := sum + intpart2 in
    timedelta_check (y + round_leftover y leftover).

(** [d + delta] *)
Definition dt_add (d : datetime) (delta : Z) : result datetime :=
  let u := us d + delta in
  if in_range u then Ok (mkdt u (tzinfo d)) else Raise OverflowError.

(** [d - delta] *)
Definition dt_sub (d : datetime) (delta : Z) : result datetime :=
  dt_add d (- delta).

(** ** [datetime.fromtimestamp(x, tz=timezone.utc)] *)

(** 1970-01-01 counted in days from 0001-01-01. *)
Definition UNIX_EPOCH_DAYS : Z := days_from_civil 1970 1 1.

(** Rounding half to even of a double to an integer. *)
Definition round_half_even (x : double) : Z :=
  let r := c_round x in
  if half_away x r then 2 * c_round (halve x) else r.

(** Split of a float timestamp into whole seconds and microseconds;
    [OverflowError] outside a 64-bit [time_t]. *)
Definition timestamp_to_timeval (x : double) : result (Z * Z) :=
  let '(intpart, floatpart) := modf x in
  let fp := round_half_even (fmul floatpart (of_Z US_PER_SECOND)) in
  let '(sec, usec) :=
    if US_PER_SECOND <=? fp then (intpart + 1, fp - US_PER_SECOND)
    else if fp <? 0 then (intpart - 1, fp + US_PER_SECOND)
    else (intpart, fp) in
  if (- 2 ^ 63 <=? sec) && (sec <? 2 ^ 63) then Ok (sec, usec)
  else Raise OverflowError.

(** [gmtime_ok] tells which [time_t] values the C library's [gmtime]
    accepts (it fails with an [OSError] on the others); a year outside
    1..9999 is a [ValueError]. *)
Definition fromtimestamp_utc (gmtime_ok : Z -> bool) (x : double)
  : result datetime :=
  let* (sec, usec) := timestamp_to_timeval x in
  if negb (gmtime_ok sec) then Raise OSError else
  let u := (UNIX_EPOCH_DAYS * 86400 + sec) * US_PER_SECOND + usec in
  if in_range u then Ok (mkdt u utc) else Raise ValueError.

(** ** [strftime] *)

Definition year (d : datetime) : Z := fst (fst (civil_from_days (us d / US_PER_DAY))).
Definition month (d : datetime) : Z := snd (fst (civil_from_days (us d / US_PER_DAY))).
Definition day (d : datetime) : Z := snd (civil_from_days (us d / US_PER_DAY)).
Definition hour (d : datetime) : Z := us d mod US_PER_DAY / (3600 * US_PER_SECOND).
Definition minute (d : datetime) : Z := us d / (60 * US_PER_SECOND) mod 60.
Definition second (d : datetime) : Z := us d / US_PER_SECOND mod 60.

(** The directives the sources use; any other character is copied. *)
Fixpoint strftime_go (d : datetime) (fmt : list ascii) : string :=
  match fmt with
  | [] => ""
  | "%"%char :: c :: rest =>
      (if Ascii.eqb c "Y" then zero_pad 4 (year d)
       else if Ascii.eqb c "m" then zero_pad 2 (month d)
       else if Ascii.eqb c "d" then zero_pad 2 (day d)
       else if Ascii.eqb c "H" then zero_pad 2 (hour d)
       else if Ascii.eqb c "M" then zero_pad 2 (minute d)
       else if Ascii.eqb c "S" then zero_pad 2 (second d)
       else String c "") +:+ strftime_go d rest
  | c :: rest => String c (strftime_go d rest)
  end.

Definition strftime (d : datetime) (fmt : string) : string :=
  strftime_go d (chars fmt).

End Datetime.
Export Datetime.

(* ===================================================================== *)
(** * Python values held by registry data, database cells and findings *)
(* ===================================================================== *)

Module Value.

Inductive pyval : Type :=
| VNone
| VInt (n : Z)
| VStr (s : string)
| VBytes (b : list byte)
| VList (l : list string)
| VDatetime (d : datetime).

(** Truth value of an object ([if v:]). *)
Definition truthy (v : pyval) : bool :=
  match v with
  | VNone => false
  | VInt n => negb (n =? 0)
  | VStr s => negb (String.eqb s "")
  | VBytes b => match b with [] => false | _ => true end
  | VList l => match l with [] => false | _ => true end
  | VDatetime _ => true
  end.

(** [str(d)] for a datetime: ISO format with a space separator. *)
Definition str_of_offset (off : Z) : string :=
  let a := Z.abs off / US_PER_SECOND in
  (if off <? 0 then "-" else "+") +:+ zero_pad 2 (a / 3600) +:+ ":"
    +:+ zero_pad 2 (a / 60 mod 60)
    +:+ (if a mod 60 =? 0 then "" else ":" +:+ zero_pad 2 (a mod 60)).

Definition str_of_datetime (d : datetime) : string :=
  strftime d "%Y-%m-%d %H:%M:%S"
    +:+ (if us d mod US_PER_SECOND =? 0 then ""
         else "." +:+ zero_pad 6 (us d mod US_PER_SECOND))
    +:+ match tzinfo d with None => "" | Some off => str_of_offset off end.

(** [str(v)], as used by an f-string field [{v}]. *)
Definition py_str (v : pyval) : string :=
  match v with
  | VNone => "None"
  | VInt n => str_of_Z n
  | VStr s => s
  | VBytes b => repr_bytes b
  | VList l => "[" +:+ join ", " (map repr_str l) +:+ "]"
  | VDatetime d => str_of_datetime d
  end.

(** [len(v)] *)
Definition py_len (v : pyval) : result Z :=
  match v with
  | VStr s => Ok (str_len s)
  | VBytes b => Ok (Z.of_nat (length b))
  | VList l => Ok (Z.of_nat (length l))
  | VNone | VInt _ | VDatetime _ => Raise TypeError
  end.

(** [struct.unpack('<Q', b)[0]] and [struct.unpack('<I', b)[0]]: the
    buffer must be a bytes object of exactly [n] bytes, read little-endian. *)
Definition le_uint (b : list byte) : Z :=
  fold_right (fun x acc => byte_val x + 256 * acc) 0 b.

Definition struct_unpack_le (n : nat) (v : pyval) : result Z :=
  match v with
  | VBytes b => if Nat.eqb (length b) n then Ok (le_uint b)
                else Raise StructError
  | _ => Raise TypeError
  end.

(** [v[i:j]] for a sequence. *)
Definition slice {A} (i j : nat) (l : list A) : list A :=
  firstn (Nat.sub j i) (skipn i l).

Definition py_slice (i j : nat) (v : pyval) : result pyval :=
  match v with
  | VStr s => Ok (VStr (of_chars (slice i j (chars s))))
  | VBytes b => Ok (VBytes (slice i j b))
  | VList l => Ok (VList (slice i j l))
  | VNone | VInt _ | VDatetime _ => Raise TypeError
  end.

End Value.
Export Value.

(* ===================================================================== *)
(** * core/time_window.py *)
(* ===================================================================== *)

Module TimeWindow.

Record TriageWindow : Type := mkTriageWindow {
  window_minutes : Z;
  current_time : datetime;
  cutoff_time : datetime
}.

(** [TriageWindow.__init__]; [now] is the reading of
    [datetime.now(timezone.utc)]. *)
Definition TriageWindow_init (now : Z) (window_minutes : Z)
  : result TriageWindow :=
  let current := mkdt now utc in
  let* delta := timedelta_minutes window_minutes in
  let* cutoff := dt_sub current delta in
  Ok (mkTriageWindow window_minutes current cutoff).

(** [TriageWindow.is_within_window] *)
Definition is_within_window (w : TriageWindow) (timestamp : option datetime)
  : result bool :=
  match timestamp with
  | None => Ok false
  | Some t =>
      let t := match tzinfo t with
               | None => replace_tzinfo t utc
               | Some _ => t
               end in
      let* lo := dt_le (cutoff_time w) t in
      if lo then dt_le t (current_time w) else Ok false
  end.

Definition FILETIME_EPOCH : datetime := datetime_ 1601 1 1 utc.
Definition FILETIME_TICKS_PER_SECOND : Z := 10000000.

(** [filetime / FILETIME_TICKS_PER_SECOND]: defined on integers only. *)
Definition truediv (v : pyval) (b : Z) : result double :=
  match v with
  | VInt a => int_truediv a b
  | _ => Raise TypeError
  end.

Definition is_none_or_zero (v : pyval) : bool :=
  match v with
  | VNone | VInt 0 => true
  | _ => false
  end.

(** The body of the [try] block of [filetime_to_datetime]. *)
Definition filetime_to_datetime_try (filetime : pyval)
  : result (option datetime) :=
  if is_none_or_zero filetime then Ok None else
  let* seconds_since_epoch := truediv filetime FILETIME_TICKS_PER_SECOND in
  let* delta := timedelta_seconds seconds_since_epoch in
  let* timestamp := dt_add FILETIME_EPOCH delta in
  Ok (Some timestamp).

(** [filetime_to_datetime]: [except (ValueError, OverflowError, TypeError)]
    turns the failure into [None]. *)
Definition filetime_to_datetime (filetime : pyval) : result (option datetime) :=
  match filetime_to_datetime_try filetime with
  | Ok r => Ok r
  | Raise e =>
      match e with
      | ValueError | OverflowError | TypeError => Ok None
      | _ => Raise e
      end
  end.

End TimeWindow.
Export TimeWindow.

(* ===================================================================== *)
(** * The host the collectors read from *)
(* ===================================================================== *)

Module Host.

Inductive hive : Type := HKEY_CURRENT_USER | HKEY_LOCAL_MACHINE.

(** An opened registry key: the names [EnumKey] enumerates, the
    [(name, data)] pairs [EnumValue] enumerates (the value type is never
    read by the collectors), and the last-write FILETIME reported by
    [QueryInfoKey]. *)
Record reg_key : Type := mkKey {
  subkey_names : list string;
  reg_values : list (string * pyval);
  last_modified : Z
}.

(** [os.stat_result], the two fields that are read. *)
Record stat_result : Type := mkStat { st_mtime : double; st_ctime : double }.

(** Everything outside the process.  A registry key is opened by its full
    path, as the collectors do; opening, [stat], reading a file and
    querying a database either succeed or raise.  [sqlite_fetchall path q]
    stands for copying the database at [path] to a temporary file, running
    [q] on the copy and fetching all rows (cells are [None], [int], [str]
    or [bytes]; REAL cells are not modelled). *)
Record host : Type := mkHost {
  getenv : string -> option string;
  reg_open : hive -> string -> result reg_key;
  path_exists : string -> result bool;
  path_stat : string -> result stat_result;
  path_glob : string -> string -> list string;
  read_lines : string -> result (list string);
  read_bytes : string -> result (list byte);
  sqlite_fetchall : string -> string -> result (list (list pyval));
  gmtime_ok : Z -> bool
}.

(** [winreg.QueryValueEx(key, name)[0]] *)
Definition query_value (k : reg_key) (name : string) : result pyval :=
  match find (fun p => String.eqb (fst p) name) (reg_values k) with
  | Some p => Ok (snd p)
  | None => Raise FileNotFoundError
  end.

(** [Path(a) / b] *)
Definition path_join (a b : string) : string := a +:+ "\" +:+ b.

(** ** [Path(p).name] on Windows

    [pathlib] turns the slashes into backslashes, splits the drive or the
    share and the root off the path, and names the last component of the
    rest that is neither empty nor ["."]. *)

Definition BACKSLASH : ascii := "\"%char.

Definition is_backslash (c : ascii) : bool := Ascii.eqb c BACKSLASH.

(** [part.replace('/', '\\')] *)
Definition to_backslash (c : ascii) : ascii :=
  if Ascii.eqb c "/"%char then BACKSLASH else c.

Definition is_drive_letter (c : ascii) : bool :=
  ((65 <=? ord c) && (ord c <=? 90)) || ((97 <=? ord c) && (ord c <=? 122)).

(** The characters before the first backslash. *)
Fixpoint until_backslash (l : list ascii) : list ascii :=
  match l with
  | [] => []
  | c :: r => if is_backslash c then [] else c :: until_backslash r
  end.

(** [part.lstrip('\\')] *)
Fixpoint lstrip_backslash (l : list ascii) : list ascii :=
  match l with
  | c :: r => if is_backslash c then lstrip_backslash r else l
  | [] => []
  end.

(** [_split_extended_path]: the path after the prefix [\\?\], where
    [UNC\] stands for the two backslashes of a share. *)
Definition split_extended_path (s : list ascii) : list ascii :=
  match s with
  | b1 :: b2 :: q :: b3 :: s' =>
      if is_backslash b1 && is_backslash b2 && Ascii.eqb q "?"%char
         && is_backslash b3
      then match s' with
           | u :: n :: c :: b4 :: t =>
               if Ascii.eqb u "U"%char && Ascii.eqb n "N"%char
                  && Ascii.eqb c "C"%char && is_backslash b4
               then BACKSLASH :: b4 :: t
               else s'
           | _ => s'
           end
      else s
  | _ => s
  end.

(** The rest that [splitroot] leaves after a share [\\machine\mount],
    if the path starts with one. *)
Definition after_share (part : list ascii) : option (list ascii) :=
  match part with
  | first :: second :: rest =>
      let third_is_sep :=
        match rest with
        | third :: _ => is_backslash third
        | [] => false
        end in
      if is_backslash first && is_backslash second && negb third_is_sep then
        let machine := until_backslash rest in
        match skipn (length machine) rest with
        | _ :: after =>
            match after with
            | c :: _ =>
                if is_backslash c then None
                else Some (skipn (S (length (until_backslash after))) after)
            | [] => Some []
            end
        | [] => None
        end
      else None
  | _ => None
  end.

(** The third component of [splitroot(part)]: the path without its
    drive or share and without its root. *)
Definition splitroot_rel (part : list ascii) : list ascii :=
  let part :=
    match part with
    | first :: second :: _ =>
        if is_backslash first && is_backslash second
        then split_extended_path part else part
    | _ => part
    end in
  match after_share part with
  | Some rel => rel
  | None =>
      let part :=
        match part with
        | first :: second :: rest =>
            if Ascii.eqb second ":"%char && is_drive_letter first
            then rest else part
        | _ => part
        end in
      match part with
      | first :: _ => if is_backslash first then lstrip_backslash part else part
      | [] => []
      end
  end.

(** A component that [parse_parts] keeps. *)
Definition is_component (x : list ascii) : bool :=
  match x with
  | [] => false
  | [c] => negb (Ascii.eqb c "."%char)
  | _ => true
  end.

Definition path_name (p : string) : string :=
  let rel := splitroot_rel (map to_backslash (chars p)) in
  of_chars (List.last (List.filter is_component (split_on BACKSLASH rel)) []).

(** Position of the last ["."] of a name, if any. *)
Fixpoint rfind_dot (l : list ascii) (i : nat) : option nat :=
  match l with
  | [] => None
  | c :: r =>
      match rfind_dot r (S i) with
      | Some j => Some j
      | None => if Ascii.eqb c "."%char then Some i else None
      end
  end.

(** [Path(p).stem]: the name without its last suffix. *)
Definition path_stem (p : string) : string :=
  let n := chars (path_name p) in
  match rfind_dot n O with
  | Some i => if Nat.ltb 0 i && Nat.ltb i (Nat.pred (length n))
              then of_chars (firstn i n) else of_chars n
  | None => of_chars n
  end.

(** [os.getenv(name)] followed by [if not value]. *)
Definition getenv_nonempty (h : host) (name : string) : option string :=
  match getenv h name with
  | Some s => if String.eqb s "" then None else Some s
  | None => None
  end.

End Host.
Export Host.

(* ===================================================================== *)
(** * Collector monad

    A collector builds the local list [findings] by [append] and may be
    interrupted by an exception; the list built so far survives the
    exception, since the handlers of the collectors fall through to
    [return findings]. *)
(* ===================================================================== *)

Module Collect.

(** A finding is a Python dictionary with string keys. *)
Abbreviation finding := (gmap string pyval).

Definition mkdict (l : list (string * pyval)) : finding := list_to_map l.

Definition M (A : Type) : Type := list finding -> result A * list finding.

Definition ret {A} (a : A) : M A := fun st => (Ok a, st).
Definition raise {A} (e : exn) : M A := fun st => (Raise e, st).
Definition lift {A} (r : result A) : M A := fun st => (r, st).

Definition bind {A B} (m : M A) (k : A -> M B) : M B :=
  fun st =>
    match m st with
    | (Ok a, st') => k a st'
    | (Raise e, st') => (Raise e, st')
    end.

(** [findings.append(f)] *)
Definition append (f : finding) : M unit := fun st => (Ok tt, st ++ [f]).

(** [try: m except <classes accepted by handles>: handler] *)
Definition try_except {A} (m : M A) (handles : exn -> bool) (handler : M A)
  : M A :=
  fun st =>
    match m st with
    | (Raise e, st') => if handles e then handler st' else (Raise e, st')
    | r => r
    end.

Definition any_exception (e : exn) : bool := true.
Definition only (c : exn) (e : exn) : bool := exn_eqb c e.
Definition pass : M unit := ret tt.

(** [for x in items: body(x)] *)
Fixpoint for_each {A} (body : A -> M unit) (items : list A) : M unit :=
  match items with
  | [] => ret tt
  | x :: rest => bind (body x) (fun _ => for_each body rest)
  end.

(** [[
    index = 0
    while True:
        try:
            x = winreg.EnumValue(key, index)     (or EnumKey)
            body(x)
            index += 1
        except OSError:
            break
    ]]
    over the entries [items] of the key: enumeration past the last entry
    raises [OSError]; so does any [OSError] of the body, which leaves the
    loop as well. *)
Fixpoint enum_loop {A} (body : A -> M unit) (items : list A) : M unit :=
  match items with
  | [] => ret tt
  | x :: rest =>
      fun st =>
        match body x st with
        | (Ok _, st') => enum_loop body rest st'
        | (Raise e, st') =>
            if is_OSError e then (Ok tt, st') else (Raise e, st')
        end
  end.

(** The collector returns [findings], unless an exception escapes. *)
Definition run (m : M unit) : result (list finding) :=
  match m [] with
  | (Ok _, st) => Ok st
  | (Raise e, _) => Raise e
  end.

(** [emits P m Q]: run from a list of findings that all satisfy [P], [m]
    leaves such a list, and a value it returns satisfies [Q]. *)
Definition emits (P : finding -> Prop) {A} (m : M A) (Q : A -> Prop) : Prop :=
  forall st, Forall P st ->
    Forall P (snd (m st)) /\ (forall a, fst (m st) = Ok a -> Q a).


End Collect.
Export Collect.

Notation "'let!' x ':=' m 'in' k" := (Collect.bind m (fun x => k))
  (at level 10, x pattern, m at level 100, k at level 200).

(* ===================================================================== *)
(** * collectors/*.py *)
(* ===================================================================== *)

Module Collectors.

Definition TS_FORMAT : string := "%Y-%m-%d %H:%M:%S UTC".

(** [if dt and triage_window.is_within_window(dt)] for an optional
    datetime (a datetime object is always true). *)
Definition some_within (w : TriageWindow) (dt : option datetime) : M bool :=
  match dt with
  | None => ret false
  | Some d => lift (is_within_window w (Some d))
  end.

(** ** collectors/execution.py *)

Definition userassist_guids : list string :=
  [ "{CEBFF5CD-ACE2-4F4F-9178-9926F41749EA}";
    "{F4E57C4B-2036-45F0-A9AB-443BCFE33D9F}" ].

Definition userassist_base : string :=
  "Software\Microsoft\Windows\CurrentVersion\Explorer\UserAssist".

Definition userassist_path (guid : string) : string :=
  userassist_base +:+ "\" +:+ guid +:+ "\Count".

(** Body of the value loop of [parse_userassist]. *)
Definition userassist_value (w : TriageWindow) (entry : string * pyval)
  : M unit :=
  let '(val_name, val_data) := entry in
  let decoded_name := rot13 val_name in
  let! n := lift (py_len val_data) in
  if 72 <=? n then
    let! b60 := lift (py_slice 60 68 val_data) in
    let! last_run_filetime := lift (struct_unpack_le 8 b60) in
    let! b4 := lift (py_slice 4 8 val_data) in
    let! run_count := lift (struct_unpack_le 4 b4) in
    let! b8 := lift (py_slice 8 12 val_data) in
    let! focus_time := lift (struct_unpack_le 4 b8) in
    let! last_run_dt := lift (filetime_to_datetime (VInt last_run_filetime)) in
    let! inside := some_within w last_run_dt in
    match last_run_dt, inside with
    | Some last_run_dt, true =>
        append (mkdict
          [ ("timestamp", VStr (strftime last_run_dt TS_FORMAT));
            ("timestamp_dt", VDatetime last_run_dt);
            ("artifact_type", VStr "Execution");
            ("source", VStr "UserAssist");
            ("description", VStr decoded_name);
            ("details", VStr ("Run Count: " +:+ str_of_Z run_count
                              +:+ ", Focus Time: " +:+ str_of_Z focus_time
                              +:+ "ms")) ])
    | _, _ => pass
    end
  else pass.

Definition parse_userassist (h : host) (w : TriageWindow)
  : result (list finding) :=
  run (try_except
         (for_each
            (fun guid =>
               try_except
                 (let! key := lift (reg_open h HKEY_CURRENT_USER
                                      (userassist_path guid)) in
                  enum_loop (userassist_value w) (reg_values key))
                 is_missing_or_denied pass)
            userassist_guids)
         any_exception pass).

Definition prefetch_path : string := "C:\Windows\Prefetch".

(** The executable name recovered from a prefetch file stem. *)
Definition prefetch_executable (file_name : string) : string :=
  if has_char "-"%char file_name
  then upper (join "-" (drop_last (split file_name "-"%char)))
  else upper file_name.

Definition prefetch_file (h : host) (w : TriageWindow) (pf_file : string)
  : M unit :=
  try_except
    (let! st := lift (path_stat h pf_file) in
     let! mod_time := lift (fromtimestamp_utc (gmtime_ok h) (st_mtime st)) in
     let! inside := lift (is_within_window w (Some mod_time)) in
     if inside then
       let file_name := path_stem pf_file in
       let executable_name := prefetch_executable file_name in
       append (mkdict
         [ ("timestamp", VStr (strftime mod_time TS_FORMAT));
           ("timestamp_dt", VDatetime mod_time);
           ("artifact_type", VStr "Execution");
           ("source", VStr "Prefetch");
           ("description", VStr executable_name);
           ("details", VStr ("File: " +:+ pf_file)) ])
     else pass)
    is_OSError pass.

Definition parse_prefetch (h : host) (w : TriageWindow)
  : result (list finding) :=
  run (try_except
         (let! present := lift (path_exists h prefetch_path) in
          if negb present then pass
          else for_each (prefetch_file h w) (path_glob h prefetch_path "*.pf"))
         (only PermissionError) pass).

(** ** collectors/files.py *)

Definition NUL : ascii := Ascii.zero.

Fixpoint take_while {A} (p : A -> bool) (l : list A) : list A :=
  match l with
  | [] => []
  | x :: r => if p x then x :: take_while p r else []
  end.

Definition not_nul (c : ascii) : bool := negb (Ascii.eqb c NUL).
Definition not_backslash (c : ascii) : bool := negb (Ascii.eqb c "\"%char).
Definition is_upper_letter (c : ascii) : bool :=
  (65 <=? ord c) && (ord c <=? 90).

(** A match of [[A-Z]:\\[^\x00]+] anchored at the head of [l]. *)
Definition match_drive_path (l : list ascii) : option (list ascii) :=
  match l with
  | d :: c :: b :: rest =>
      if is_upper_letter d && Ascii.eqb c ":"%char && Ascii.eqb b "\"%char
      then match take_while not_nul rest with
           | [] => None
           | run => Some (d :: c :: b :: run)
           end
      else None
  | _ => None
  end.

(** A match of [\\\\[^\\]+\\[^\x00]+] anchored at the head of [l]: the
    first run is maximal, since it must be followed by a backslash. *)
Definition match_unc_path (l : list ascii) : option (list ascii) :=
  match l with
  | b1 :: b2 :: rest =>
      if Ascii.eqb b1 "\"%char && Ascii.eqb b2 "\"%char
      then match take_while not_backslash rest with
           | [] => None
           | server =>
               match skipn (length server) rest with
               | b3 :: rest' =>
                   match take_while not_nul rest' with
                   | [] => None
                   | share => Some (b1 :: b2 :: server ++ b3 :: share)
                   end
               | [] => None
               end
           end
      else None
  | _ => None
  end.

(** [re.findall]: leftmost matches, scanned without overlap; [skip]
    characters still belong to the previous match. *)
Fixpoint findall (matcher : list ascii -> option (list ascii))
    (l : list ascii) (skip : nat) : list (list ascii) :=
  match l with
  | [] => []
  | _ :: r =>
      match skip with
      | S k => findall matcher r k
      | O => match matcher l with
             | Some m => m :: findall matcher r (Nat.pred (length m))
             | None => findall matcher r O
             end
      end
  end.

(** The first match whose text before a NUL is longer than 3. *)
Definition first_convincing (ms : list (list ascii)) : option string :=
  match find (fun c => Nat.ltb 3 (length c))
             (map (take_while not_nul) ms) with
  | Some c => Some (of_chars c)
  | None => None
  end.

Definition extract_lnk_target (h : host) (lnk_path : string) : string :=
  match read_bytes h lnk_path with
  | Raise _ => "Error parsing .lnk file"
  | Ok content =>
      match content with
      | b0 :: _ =>
          if Nat.ltb (length content) 4 || negb (byte_val b0 =? 76)
          then "Invalid .lnk file"
          else
            let content_str := chars (decode_latin1 content) in
            match first_convincing (findall match_drive_path content_str O) with
            | Some p => p
            | None =>
                match first_convincing
                        (findall match_unc_path content_str O) with
                | Some p => p
                | None => "Unable to parse target path"
                end
            end
      | [] => "Invalid .lnk file"
      end
  end.

Definition recent_file (h : host) (w : TriageWindow) (lnk_file : string)
  : M unit :=
  try_except
    (let! stat_info := lift (path_stat h lnk_file) in
     let! mod_time :=
       lift (fromtimestamp_utc (gmtime_ok h) (st_mtime stat_info)) in
     let! create_time :=
       lift (fromtimestamp_utc (gmtime_ok h) (st_ctime stat_info)) in
     let! last_accessed := lift (dt_max mod_time create_time) in
     let! inside := lift (is_within_window w (Some last_accessed)) in
     if inside then
       let target_path := extract_lnk_target h lnk_file in
       append (mkdict
         [ ("timestamp", VStr (strftime last_accessed TS_FORMAT));
           ("timestamp_dt", VDatetime last_accessed);
           ("artifact_type", VStr "File Access");
           ("source", VStr "Recent Folder");
           ("description", VStr (path_name lnk_file));
           ("details", VStr ("Target: " +:+ target_path)) ])
     else pass)
    is_OSError pass.

Definition recent_path (appdata_path : string) : string :=
  path_join (path_join (path_join appdata_path "Microsoft") "Windows") "Recent".

Definition parse_recent_files (h : host) (w : TriageWindow)
  : result (list finding) :=
  run (match getenv_nonempty h "APPDATA" with
       | None => pass
       | Some appdata_path =>
           try_except
             (let! present :=
                lift (path_exists h (recent_path appdata_path)) in
              if negb present then pass
              else for_each (recent_file h w)
                     (path_glob h (recent_path appdata_path) "*.lnk"))
             any_exception pass
       end).

(** [b.decode('utf-16-le', errors='ignore')]: the bytes are read as
    little-endian 16-bit units, a trailing odd byte is ignored, a high
    surrogate followed by a low one is one character and any other
    surrogate is dropped.  A character above U+00FF, which a string of
    this model cannot hold, is written ["?"]. *)
Fixpoint code_units (b : list byte) : list Z :=
  match b with
  | lo :: hi :: rest => (byte_val lo + 256 * byte_val hi) :: code_units rest
  | _ => []
  end.

Definition is_high_surrogate (u : Z) : bool := (55296 <=? u) && (u <=? 56319).
Definition is_low_surrogate (u : Z) : bool := (56320 <=? u) && (u <=? 57343).

Fixpoint decode_units (units : list Z) : list ascii :=
  match units with
  | [] => []
  | u :: rest =>
      if is_high_surrogate u then
        match rest with
        | v :: rest' =>
            if is_low_surrogate v then "?"%char :: decode_units rest'
            else decode_units rest
        | [] => []
        end
      else if is_low_surrogate u then decode_units rest
      else (if u <? 256 then chr u else "?"%char) :: decode_units rest
  end.

Definition decode_utf16le (b : list byte) : list ascii :=
  decode_units (code_units b).

Definition recentdocs_base : string :=
  "Software\Microsoft\Windows\CurrentVersion\Explorer\RecentDocs".

Definition recentdocs_value (key_modified : datetime) (extension : string)
    (entry : string * pyval) : M unit :=
  let '(val_name, val_data) := entry in
  match val_data with
  | VBytes b =>
      if negb (String.eqb val_name "MRUListEx") then
        let filename :=
          of_chars (rstrip_chars not_nul (decode_utf16le b)) in
        if negb (String.eqb filename "") then
          append (mkdict
            [ ("timestamp", VStr (strftime key_modified TS_FORMAT));
              ("timestamp_dt", VDatetime key_modified);
              ("artifact_type", VStr "File Access");
              ("source", VStr "RecentDocs");
              ("description", VStr filename);
              ("details", VStr ("Extension: ." +:+ extension)) ])
        else pass
      else pass
  | _ => pass
  end.

Definition recentdocs_extension (h : host) (key_modified : datetime)
    (extension : string) : M unit :=
  let ext_path := recentdocs_base +:+ "\" +:+ extension in
  let! ext_key := lift (reg_open h HKEY_CURRENT_USER ext_path) in
  enum_loop (recentdocs_value key_modified extension) (reg_values ext_key).

Definition parse_recentdocs (h : host) (w : TriageWindow)
  : result (list finding) :=
  run (try_except
         (let! key := lift (reg_open h HKEY_CURRENT_USER recentdocs_base) in
          try_except
            (let! key_modified :=
               lift (filetime_to_datetime (VInt (last_modified key))) in
             let! inside := some_within w key_modified in
             match key_modified, inside with
             | Some key_modified, true =>
                 enum_loop (recentdocs_extension h key_modified)
                   (subkey_names key)
             | _, _ => pass
             end)
            any_exception pass)
         any_exception pass).

(** ** collectors/hardware.py *)

Definition usbstor_base : string := "SYSTEM\CurrentControlSet\Enum\USBSTOR".

Definition install_property_path (instance_path : string) : string :=
  instance_path +:+ "\Properties\" +:+ "{83da6326-97a6-4088-9453-a1923f573b29}"
    +:+ "\" +:+ "0065".

Definition get_device_install_time (h : host) (instance_path : string)
  : result (option datetime) :=
  let attempt : result (option datetime) :=
    let* prop_key :=
      reg_open h HKEY_LOCAL_MACHINE (install_property_path instance_path) in
    let* data := query_value prop_key "" in
    match data with
    | VBytes b =>
        if Nat.leb 8 (length b) then
          let* filetime := struct_unpack_le 8 (VBytes (slice 0 8 b)) in
          filetime_to_datetime (VInt filetime)
        else Ok None
    | _ => Ok None
    end in
  match attempt with
  | Ok t => Ok t
  | Raise e => if is_OSError e then Ok None else Raise e
  end.

(** The friendly name: [FriendlyName], else [DeviceDesc], else the
    default; only [FileNotFoundError] is handled. *)
Definition usb_friendly_name (instance_key : reg_key) : result pyval :=
  match query_value instance_key "FriendlyName" with
  | Ok v => Ok v
  | Raise FileNotFoundError =>
      match query_value instance_key "DeviceDesc" with
      | Ok v => Ok v
      | Raise FileNotFoundError => Ok (VStr "Unknown Device")
      | Raise e => Raise e
      end
  | Raise e => Raise e
  end.

Definition usb_instance (h : host) (w : TriageWindow) (device_path : string)
    (instance_id : string) : M unit :=
  let instance_path := device_path +:+ "\" +:+ instance_id in
  let! instance_key := lift (reg_open h HKEY_LOCAL_MACHINE instance_path) in
  let! friendly_name := lift (usb_friendly_name instance_key) in
  let! install_time := lift (get_device_install_time h instance_path) in
  let! inside := some_within w install_time in
  match install_time, inside with
  | Some install_time, true =>
      append (mkdict
        [ ("timestamp", VStr (strftime install_time TS_FORMAT));
          ("timestamp_dt", VDatetime install_time);
          ("artifact_type", VStr "Hardware");
          ("source", VStr "USB Device");
          ("description", friendly_name);
          ("details", VStr ("Instance: " +:+ instance_id)) ])
  | _, _ => pass
  end.

Definition usb_device (h : host) (w : TriageWindow) (device_id : string)
  : M unit :=
  let device_path := usbstor_base +:+ "\" +:+ device_id in
  let! device_key := lift (reg_open h HKEY_LOCAL_MACHINE device_path) in
  enum_loop (usb_instance h w device_path) (subkey_names device_key).

Definition parse_usb_devices (h : host) (w : TriageWindow)
  : result (list finding) :=
  run (try_except
         (let! usbstor_key :=
            lift (reg_open h HKEY_LOCAL_MACHINE usbstor_base) in
          enum_loop (usb_device h w) (subkey_names usbstor_key))
         any_exception pass).

(** ** collectors/commands.py *)

Definition history_path (appdata_path : string) : string :=
  path_join (path_join (path_join (path_join (path_join appdata_path
    "Microsoft") "Windows") "PowerShell") "PSReadLine")
    "ConsoleHost_history.txt".

(** [cmd.rstrip('\n\r')] *)
Definition is_newline (c : ascii) : bool := (ord c =? 10) || (ord c =? 13).
Definition strip_newline (cmd : string) : string :=
  of_chars (rstrip_chars (fun c => negb (is_newline c)) (chars cmd)).

Definition parse_powershell_history (h : host) (w : TriageWindow)
  : result (list finding) :=
  run (match getenv_nonempty h "APPDATA" with
       | None => pass
       | Some appdata_path =>
           let history_path := history_path appdata_path in
           try_except
             (let! present := lift (path_exists h history_path) in
              if negb present then pass else
              let! stat_info := lift (path_stat h history_path) in
              let! mod_time :=
                lift (fromtimestamp_utc (gmtime_ok h) (st_mtime stat_info)) in
              let! inside := lift (is_within_window w (Some mod_time)) in
              if inside then
                try_except
                  (let! lines := lift (read_lines h history_path) in
                   let commands :=
                     map strip_newline (List.filter non_blank lines) in
                   match commands with
                   | [] => pass
                   | _ =>
                     append (mkdict
                       [ ("timestamp", VStr (strftime mod_time TS_FORMAT));
                         ("timestamp_dt", VDatetime mod_time);
                         ("artifact_type", VStr "Command Line");
                         ("source", VStr "PowerShell");
                         ("description",
                          VStr ("History file modified ("
                                +:+ str_of_Z (Z.of_nat (length commands))
                                +:+ " commands)"));
                         ("details",
                          VStr ("Last 5 commands: "
                                +:+ join "; " (last_n 5 commands))) ])
                   end)
                  any_exception pass
              else pass)
             any_exception pass
       end).

Definition runmru_path : string :=
  "Software\Microsoft\Windows\CurrentVersion\Explorer\RunMRU".

(** [val_data.rstrip('\\1')]: a [str] method called with a [str]. *)
Definition py_rstrip (v : pyval) (set : string) : result string :=
  match v with
  | VStr s => Ok (rstrip s set)
  | VBytes _ => Raise TypeError
  | VNone | VInt _ | VList _ | VDatetime _ => Raise AttributeError
  end.

Definition runmru_value (key_modified : datetime) (entry : string * pyval)
  : M unit :=
  let '(val_name, val_data) := entry in
  if negb (String.eqb val_name "MRUList") && truthy val_data then
    let! command := lift (py_rstrip val_data "\1") in
    append (mkdict
      [ ("timestamp", VStr (strftime key_modified TS_FORMAT));
        ("timestamp_dt", VDatetime key_modified);
        ("artifact_type", VStr "Command Line");
        ("source", VStr "RunMRU");
        ("description", VStr command);
        ("details", VStr ("Entry: " +:+ val_name)) ])
  else pass.

Definition parse_runmru (h : host) (w : TriageWindow)
  : result (list finding) :=
  run (try_except
         (let! key := lift (reg_open h HKEY_CURRENT_USER runmru_path) in
          let! key_modified :=
            lift (filetime_to_datetime (VInt (last_modified key))) in
          let! inside := some_within w key_modified in
          match key_modified, inside with
          | Some key_modified, true =>
              enum_loop (runmru_value key_modified) (reg_values key)
          | _, _ => pass
          end)
         any_exception pass).

(** ** collectors/registry.py *)

Definition typed_paths_path : string :=
  "Software\Microsoft\Windows\CurrentVersion\Explorer\TypedPaths".

Definition typed_paths_value (key_modified : datetime)
    (entry : string * pyval) : M unit :=
  let '(val_name, val_data) := entry in
  if truthy val_data then
    append (mkdict
      [ ("timestamp", VStr (strftime key_modified TS_FORMAT));
        ("timestamp_dt", VDatetime key_modified);
        ("artifact_type", VStr "Registry");
        ("source", VStr "TypedPaths");
        ("description", val_data);
        ("details", VStr ("Entry: " +:+ val_name)) ])
  else pass.

Definition parse_typed_paths (h : host) (w : TriageWindow)
  : result (list finding) :=
  run (try_except
         (let! key := lift (reg_open h HKEY_CURRENT_USER typed_paths_path) in
          let! key_modified :=
            lift (filetime_to_datetime (VInt (last_modified key))) in
          let! inside := some_within w key_modified in
          match key_modified, inside with
          | Some key_modified, true =>
              enum_loop (typed_paths_value key_modified) (reg_values key)
          | _, _ => pass
          end)
         any_exception pass).

(** ** collectors/network.py *)

Definition CHROME_HISTORY_QUERY : string :=
  "SELECT urls.url, urls.title, urls.visit_count, visits.visit_time FROM urls INNER JOIN visits ON urls.id = visits.url ORDER BY visits.visit_time DESC".

Definition FIREFOX_HISTORY_QUERY : string :=
  "SELECT moz_places.url, moz_places.title, moz_places.visit_count, moz_historyvisits.visit_date FROM moz_places INNER JOIN moz_historyvisits ON moz_places.id = moz_historyvisits.place_id ORDER BY moz_historyvisits.visit_date DESC".

Definition DOWNLOADS_QUERY : string :=
  "SELECT target_path, tab_url, start_time, total_bytes, mime_type FROM downloads ORDER BY start_time DESC".

(** The [browsers] dictionary, in insertion order. *)
Definition chromium_browsers (localappdata : string) : list (string * string) :=
  [ ("Chrome", path_join (path_join (path_join (path_join (path_join
       localappdata "Google") "Chrome") "User Data") "Default") "History");
    ("Edge", path_join (path_join (path_join (path_join (path_join
       localappdata "Microsoft") "Edge") "User Data") "Default") "History") ].

(** [a, b, c, d = row] *)
Definition unpack4 (row : list pyval)
  : result (pyval * pyval * pyval * pyval) :=
  match row with
  | [a; b; c; d] => Ok (a, b, c, d)
  | _ => Raise ValueError
  end.

Definition unpack5 (row : list pyval)
  : result (pyval * pyval * pyval * pyval * pyval) :=
  match row with
  | [a; b; c; d; e] => Ok (a, b, c, d, e)
  | _ => Raise ValueError
  end.

(** [timedelta(microseconds=v)] *)
Definition timedelta_microseconds_of (v : pyval) : result Z :=
  match v with
  | VInt n => timedelta_microseconds n
  | _ => Raise TypeError
  end.

(** Chrome/Edge style: [datetime(1601, 1, 1, tzinfo=utc) +
    timedelta(microseconds=v)]. *)
Definition chrome_time (v : pyval) : result datetime :=
  let chrome_epoch := datetime_ 1601 1 1 utc in
  let* delta := timedelta_microseconds_of v in
  dt_add chrome_epoch delta.

(** Firefox style: [datetime.fromtimestamp(v / 1000000, tz=utc)]. *)
Definition firefox_time (h : host) (v : pyval) : result datetime :=
  let* seconds := truediv v 1000000 in
  fromtimestamp_utc (gmtime_ok h) seconds.

(** [title[:100] if title else 'No Title'] *)
Definition title_or_placeholder (title : pyval) : result pyval :=
  if truthy title then py_slice 0 100 title else Ok (VStr "No Title").

Definition chromium_history_row (w : TriageWindow) (browser_name : string)
    (row : list pyval) : M unit :=
  let! (url, title, visit_count, visit_time) := lift (unpack4 row) in
  let! visit_dt := lift (chrome_time visit_time) in
  let! inside := lift (is_within_window w (Some visit_dt)) in
  if inside then
    let! description := lift (title_or_placeholder title) in
    append (mkdict
      [ ("timestamp", VStr (strftime visit_dt TS_FORMAT));
        ("timestamp_dt", VDatetime visit_dt);
        ("artifact_type", VStr "Web Activity");
        ("source", VStr (browser_name +:+ " Browser"));
        ("description", description);
        ("details", VStr ("URL: " +:+ py_str url)) ])
  else pass.

Definition chromium_history (h : host) (w : TriageWindow)
    (browser : string * string) : M unit :=
  let '(browser_name, history_path) := browser in
  try_except
    (let! present := lift (path_exists h history_path) in
     if negb present then pass else
     let! rows := lift (sqlite_fetchall h history_path CHROME_HISTORY_QUERY) in
     for_each (chromium_history_row w browser_name) rows)
    any_exception pass.

Definition firefox_history_row (h : host) (w : TriageWindow)
    (row : list pyval) : M unit :=
  let! (url, title, visit_count, visit_date) := lift (unpack4 row) in
  let! visit_dt := lift (firefox_time h visit_date) in
  let! inside := lift (is_within_window w (Some visit_dt)) in
  if inside then
    let! description := lift (title_or_placeholder title) in
    append (mkdict
      [ ("timestamp", VStr (strftime visit_dt TS_FORMAT));
        ("timestamp_dt", VDatetime visit_dt);
        ("artifact_type", VStr "Web Activity");
        ("source", VStr "Firefox Browser");
        ("description", description);
        ("details", VStr ("URL: " +:+ py_str url)) ])
  else pass.

(** The loop over the profile directories: a directory without
    [places.sqlite] is skipped, the first one that has it is read and ends
    the loop. *)
Fixpoint firefox_profiles (h : host) (w : TriageWindow)
    (profile_dirs : list string) : M unit :=
  match profile_dirs with
  | [] => pass
  | profile_dir :: rest =>
      let places_db := path_join profile_dir "places.sqlite" in
      let! present := lift (path_exists h places_db) in
      if negb present then firefox_profiles h w rest
      else
        let! rows := lift (sqlite_fetchall h places_db FIREFOX_HISTORY_QUERY) in
        for_each (firefox_history_row h w) rows
  end.

Definition firefox_profiles_path (appdata : string) : string :=
  path_join (path_join (path_join appdata "Mozilla") "Firefox") "Profiles".

Definition parse_browser_history (h : host) (w : TriageWindow)
  : result (list finding) :=
  run (match getenv_nonempty h "LOCALAPPDATA", getenv_nonempty h "APPDATA" with
       | Some localappdata, Some appdata =>
           let! _ := for_each (chromium_history h w)
                       (chromium_browsers localappdata) in
           try_except
             (let firefox_profiles_dir := firefox_profiles_path appdata in
              let! present := lift (path_exists h firefox_profiles_dir) in
              if present then
                firefox_profiles h w
                  (path_glob h firefox_profiles_dir "*.default*")
              else pass)
             any_exception pass
       | _, _ => pass
       end).

(** [Path(target_path).name] *)
Definition py_path_name (v : pyval) : result string :=
  match v with
  | VStr s => Ok (path_name s)
  | _ => Raise TypeError
  end.

Definition downloads_row (w : TriageWindow) (browser_name : string)
    (row : list pyval) : M unit :=
  let! (target_path, source_url, start_time, file_size, mime_type) :=
    lift (unpack5 row) in
  let! download_dt := lift (chrome_time start_time) in
  let! inside := lift (is_within_window w (Some download_dt)) in
  if inside then
    let! description := lift (py_path_name target_path) in
    append (mkdict
      [ ("timestamp", VStr (strftime download_dt TS_FORMAT));
        ("timestamp_dt", VDatetime download_dt);
        ("artifact_type", VStr "Download");
        ("source", VStr (browser_name +:+ " Browser"));
        ("description", VStr description);
        ("details", VStr ("Size: " +:+ py_str file_size
                          +:+ " bytes, Source: " +:+ py_str source_url)) ])
  else pass.

Definition chromium_downloads (h : host) (w : TriageWindow)
    (browser : string * string) : M unit :=
  let '(browser_name, history_path) := browser in
  try_except
    (let! present := lift (path_exists h history_path) in
     if negb present then pass else
     let! rows := lift (sqlite_fetchall h history_path DOWNLOADS_QUERY) in
     for_each (downloads_row w browser_name) rows)
    any_exception pass.

Definition parse_downloads (h : host) (w : TriageWindow)
  : result (list finding) :=
  run (match getenv_nonempty h "LOCALAPPDATA" with
       | Some localappdata =>
           for_each (chromium_downloads h w) (chromium_browsers localappdata)
       | None => pass
       end).

(** ** Vocabulary of the collectors *)

(** What every emitted finding must look like for the window [w]: a
    datetime under [timestamp_dt], its rendering under [timestamp], and
    that datetime inside the window. *)
Definition well_stamped (w : TriageWindow) (f : finding) : Prop :=
  exists d,
    f !! "timestamp_dt" = Some (VDatetime d) /\
    f !! "timestamp" = Some (VStr (strftime d TS_FORMAT)) /\
    is_within_window w (Some d) = Ok true.

(** The RunMRU values that produce a finding: any name but [MRUList],
    with data that is not empty. *)
Definition runmru_emitted (entry : string * pyval) : bool :=
  negb (String.eqb (fst entry) "MRUList") && truthy (snd entry).

(** The finding built from the RunMRU value [name] with string data [s]. *)
Definition runmru_finding (key_modified : datetime) (name s : string)
  : finding :=
  mkdict
    [ ("timestamp", VStr (strftime key_modified TS_FORMAT));
      ("timestamp_dt", VDatetime key_modified);
      ("artifact_type", VStr "Command Line");
      ("source", VStr "RunMRU");
      ("description", VStr (rstrip s "\1"));
      ("details", VStr ("Entry: " +:+ name)) ].

(** What the value loop of [parse_runmru] appends for one value. *)
Definition runmru_out (key_modified : datetime) (entry : string * pyval)
  : list finding :=
  match snd entry with
  | VStr s => if runmru_emitted entry
              then [runmru_finding key_modified (fst entry) s] else []
  | _ => []
  end.

(** A command that does not end with a backslash or with a [1]. *)
Definition clean_command (c : string) : bool :=
  match rev (chars c) with
  | [] => true
  | x :: _ => negb (has_char x "\1")
  end.

(** The keys the reporting sinks read. *)
Definition FIELDS : list string :=
  [ "timestamp"; "timestamp_dt"; "artifact_type"; "source"; "description";
    "details" ].

(** The invariant of the list [findings] inside every collector. *)
Definition emitted_ok (w : TriageWindow) (f : finding) : Prop :=
  well_stamped w f /\ Forall (fun k => is_Some (f !! k)) FIELDS.

End Collectors.
Export Collectors.

(* ===================================================================== *)
(** * tracefinder.py *)
(* ===================================================================== *)

Module Tracefinder.

Definition collector : Type := TriageWindow -> result (list finding).

(** The lines the orchestrator prints around each call. *)
Inductive log_line : Type :=
| Collecting (name : string)
| Entries (n : nat)
| Error (e : exn)
| Details (e : exn).

(** ["--verbose" in sys.argv] *)
Definition verbose (argv : list string) : bool :=
  existsb (String.eqb "--verbose") argv.

(** The fixed list of collection modules. *)
Definition collectors (h : host) : list (string * collector) :=
  [ ("UserAssist", parse_userassist h);
    ("Prefetch", parse_prefetch h);
    ("Recent Files", parse_recent_files h);
    ("USB Devices", parse_usb_devices h);
    ("PowerShell History", parse_powershell_history h);
    ("Browser History", parse_browser_history h);
    ("Downloads", parse_downloads h);
    ("RecentDocs", parse_recentdocs h);
    ("TypedPaths", parse_typed_paths h);
    ("RunMRU", parse_runmru h) ].

(** One turn of the loop of [collect_all_artifacts], on the pair of
    [all_findings] and the console output; [argv] is [sys.argv]. *)
Definition collect_step (argv : list string) (w : TriageWindow)
    (acc : list finding * list log_line) (c : string * collector)
  : list finding * list log_line :=
  let '(all_findings, out) := acc in
  let '(collector_name, collector_func) := c in
  match collector_func w with
  | Ok results =>
      match results with
      | [] => (all_findings, out ++ [Collecting collector_name; Entries 0])
      | _ => (all_findings ++ results,
              out ++ [Collecting collector_name; Entries (length results)])
      end
  | Raise e =>
      (all_findings,
       out ++ [Collecting collector_name; Error e]
           ++ (if verbose argv then [Details e] else []))
  end.

Definition collect_from (argv : list string) (cs : list (string * collector))
    (w : TriageWindow) : list finding * list log_line :=
  fold_left (collect_step argv w) cs ([], []).

(** [collect_all_artifacts]: the returned list and what was printed. *)
Definition collect_all_artifacts (argv : list string) (h : host)
    (w : TriageWindow) : list finding * list log_line :=
  collect_from argv (collectors h) w.

(** ** Sort stage *)

Fixpoint lex_lt {A} (lt eq : A -> A -> bool) (a b : list A) : bool :=
  match a, b with
  | _, [] => false
  | [], _ :: _ => true
  | x :: a', y :: b' =>
      if lt x y then true else if eq x y then lex_lt lt eq a' b' else false
  end.

(** [a < b] on Python values: defined inside one type, [TypeError] across
    types, for [None], and between naive and aware datetimes. *)
Definition py_lt (a b : pyval) : result bool :=
  match a, b with
  | VInt x, VInt y => Ok (x <? y)
  | VStr x, VStr y => Ok (String.ltb x y)
  | VBytes x, VBytes y =>
      Ok (lex_lt (fun p q => byte_val p <? byte_val q)
                 (fun p q => byte_val p =? byte_val q) x y)
  | VList x, VList y => Ok (lex_lt String.ltb String.eqb x y)
  | VDatetime x, VDatetime y => dt_lt x y
  | _, _ => Raise TypeError
  end.

(** [sorted(l, key=key, reverse=True)]: a stable sort into descending
    order that only uses [<] on the keys; an exception raised by a
    comparison aborts it.  The stable insertion below stands for the
    library routine: [x], which precedes the elements of [sorted] in the
    input, is placed before the first element whose key is not greater. *)
Fixpoint insert_desc {A} (key : A -> pyval) (x : A) (sorted : list A)
  : result (list A) :=
  match sorted with
  | [] => Ok [x]
  | y :: rest =>
      let* lt := py_lt (key x) (key y) in
      if lt then (let* r := insert_desc key x rest in Ok (y :: r))
      else Ok (x :: sorted)
  end.

Fixpoint sorted_desc {A} (key : A -> pyval) (l : list A) : result (list A) :=
  match l with
  | [] => Ok []
  | x :: rest => let* s := sorted_desc key rest in insert_desc key x s
  end.

(** [datetime.min.replace(tzinfo=timezone.utc)] *)
Definition DEFAULT_SORT_KEY : pyval :=
  VDatetime (replace_tzinfo datetime_min utc).

(** [lambda x: x.get('timestamp_dt', datetime.min.replace(tzinfo=utc))] *)
Definition sort_key (x : finding) : pyval :=
  default DEFAULT_SORT_KEY (x !! "timestamp_dt").

Definition sort_findings_by_timestamp (findings : list finding)
  : result (list finding) :=
  match sorted_desc sort_key findings with
  | Ok sorted_findings => Ok sorted_findings
  | Raise _ => Ok findings
  end.

(** ** Vocabulary of the sort stage *)

(** The sort key of a finding is an aware datetime: the finding has no
    [timestamp_dt], or has a timezone-aware one. *)
Definition aware_key (f : finding) : Prop :=
  exists d off, sort_key f = VDatetime d /\ tzinfo d = Some off.

(** A finding of the data model: its [timestamp_dt] is a UTC datetime. *)
Definition normalized (f : finding) : Prop :=
  exists d, f !! "timestamp_dt" = Some (VDatetime d) /\ tzinfo d = utc.

(** The instant a finding is sorted by. *)
Definition timestamp_of (f : finding) : Z :=
  match sort_key f with
  | VDatetime d => utc_instant d
  | _ => 0
  end.

Definition descending : finding -> finding -> Prop :=
  fun a b => timestamp_of b <= timestamp_of a.

Definition at_instant (t : Z) (f : finding) : bool := timestamp_of f =? t.

(** ** Vocabulary of the orchestrator *)

(** What one collector adds to the result, and what is printed for it. *)
Definition contribution (w : TriageWindow) (c : string * collector)
  : list finding :=
  match snd c w with
  | Ok results => results
  | Raise _ => []
  end.

Definition narration (argv : list string) (w : TriageWindow)
    (c : string * collector) : list log_line :=
  match snd c w with
  | Ok results => [Collecting (fst c); Entries (length results)]
  | Raise e =>
      [Collecting (fst c); Error e]
      ++ (if verbose argv then [Details e] else [])
  end.

(** ** Vocabulary of the fail-closed contract *)




End Tracefinder.
Export Tracefinder.

(* ===================================================================== *)
(** * reporters/csv_exporter.py: one row of the report *)
(* ===================================================================== *)

Module Reporters.

(** [finding[k]] *)
Definition getitem (f : finding) (k : string) : result pyval :=
  match f !! k with
  | Some v => Ok v
  | None => Raise KeyError
  end.

(** [d.astimezone()] for a system whose local UTC offset is [local_off]
    microseconds; a naive value is taken as local time. *)
Definition astimezone (local_off : Z) (d : datetime) : result datetime :=
  match tzinfo d with
  | None => Ok (mkdt (us d) (Some local_off))
  | Some off =>
      let u := us d - off + local_off in
      if in_range u then Ok (mkdt u (Some local_off)) else Raise OverflowError
  end.

(** The local timestamp column: any failure becomes a placeholder. *)
Definition local_timestamp (local_off : Z) (f : finding) : string :=
  let attempt :=
    let* v := getitem f "timestamp_dt" in
    match v with
    | VDatetime utc_dt =>
        let* local_dt := astimezone local_off utc_dt in
        Ok (strftime local_dt "%Y-%m-%d %H:%M:%S")
    | _ => Raise AttributeError
    end in
  match attempt with
  | Ok s => s
  | Raise _ => "Conversion Error"
  end.

(** The dictionary handed to [writer.writerow] for one finding, in column
    order. *)
Definition csv_row (local_tz : string) (local_off : Z) (f : finding)
  : result (list (string * pyval)) :=
  let local := local_timestamp local_off f in
  let* ts := getitem f "timestamp" in
  let* artifact_type := getitem f "artifact_type" in
  let* source := getitem f "source" in
  let* description := getitem f "description" in
  let* details := getitem f "details" in
  Ok [ ("Timestamp (UTC)", ts);
       ("Timestamp (" +:+ local_tz +:+ ")", VStr local);
       ("Artifact Type", artifact_type);
       ("Source", source);
       ("Description", description);
       ("Details", details) ].

End Reporters.
Export Reporters.

(* ===================================================================== *)
(** * The system clock and zone, as the reporters read them *)
(* ===================================================================== *)

Module LocalZone.

(** What the [time] module reports about the system zone:
    [time.timezone] (seconds west of UTC), [time.daylight],
    [time.localtime().tm_isdst] and the pair [time.tzname]. *)
Record clock : Type := mkClock {
  timezone : Z;
  daylight : Z;
  tm_isdst : Z;
  tzname : string * string
}.

(** [f"{x:+.0f}"]: the sign, then the integer nearest to [x], ties to
    even. *)
Definition format_plus_0f (x : double) : string :=
  (if mant x <? 0 then "-" else "+")
  +:+ str_of_Z (if 0 <=? expo x then Z.abs (mant x) * 2 ^ expo x
                else rne_quot (Z.abs (mant x)) (2 ^ (- expo x))).

End LocalZone.
Export LocalZone.

(* ===================================================================== *)
(** * reporters/csv_exporter.py: the export *)
(* ===================================================================== *)

Module CsvExporter.

Definition get_timezone_name (c : clock) : result string :=
  let offset_seconds := - timezone c in
  let* offset_hours := int_truediv offset_seconds 3600 in
  let tz_name :=
    if negb (daylight c =? 0) && negb (tm_isdst c =? 0)
    then snd (tzname c) else fst (tzname c) in
  if (String.eqb tz_name "GMT" || String.eqb tz_name "UTC")
     || (5 <? str_len tz_name)
  then Ok ("UTC" +:+ format_plus_0f offset_hours)
  else Ok tz_name.

(** [now] is the reading of [datetime.now()]. *)
Definition generate_unique_filename (now : datetime)
    (base_name extension : string) : string :=
  let timestamp := strftime now "%Y%m%d_%H%M%S" in
  base_name +:+ "_" +:+ timestamp +:+ "." +:+ extension.

(** [Path(p).suffix]: the last suffix of the name, with its dot. *)
Definition path_suffix (p : string) : string :=
  let n := chars (path_name p) in
  match rfind_dot n O with
  | Some i => if Nat.ltb 0 i && Nat.ltb i (Nat.pred (length n))
              then of_chars (skipn i n) else ""
  | None => ""
  end.

(** [s.lstrip('.')] *)
Fixpoint lstrip_dots (l : list ascii) : list ascii :=
  match l with
  | c :: r => if Ascii.eqb c "."%char then lstrip_dots r else l
  | [] => []
  end.

(** What the export needs from the machine: the zone, the reading of
    [datetime.now()], the local UTC offset in microseconds used by
    [astimezone()], [str(Path.cwd() / filename)], [Path.exists] and the
    opening of the file for writing. *)
Record export_env : Type := mkExportEnv {
  env_clock : clock;
  env_now : datetime;
  env_local_offset : Z;
  cwd_join : string -> result string;
  file_exists : string -> result bool;
  open_for_writing : string -> result unit
}.

(** The messages the export prints. *)
Inductive export_event : Type :=
| NoFindingsToExport
| OverwriteWarning (filename : string)
| ExportError (e : exn).

(** The file as the [DictWriter] leaves it: the header and the rows
    written, each row the dictionary handed to [writerow]. *)
Record csv_file : Type := mkCsv {
  csv_path : string;
  csv_fieldnames : list string;
  csv_rows : list (list (string * pyval))
}.

Definition fieldnames (local_tz : string) : list string :=
  [ "Timestamp (UTC)"; "Timestamp (" +:+ local_tz +:+ ")"; "Artifact Type";
    "Source"; "Description"; "Details" ].

(** The loop over the findings: the rows written, and the exception that
    ended it, if any. *)
Fixpoint write_rows (local_tz : string) (local_off : Z)
    (findings : list finding)
  : list (list (string * pyval)) * result unit :=
  match findings with
  | [] => ([], Ok tt)
  | finding :: rest =>
      match csv_row local_tz local_off finding with
      | Ok row =>
          let '(rows, outcome) := write_rows local_tz local_off rest in
          (row :: rows, outcome)
      | Raise e => ([], Raise e)
      end
  end.

Definition export_filename (now : datetime) (output_file : option string)
    (use_timestamp : bool) : string :=
  match output_file with
  | None => generate_unique_filename now "tracefinder_report" "csv"
  | Some output_file =>
      if use_timestamp then
        let base_name := path_stem output_file in
        let extension :=
          of_chars (lstrip_dots (chars (path_suffix output_file))) in
        let extension :=
          if String.eqb extension "" then "csv" else extension in
        generate_unique_filename now base_name extension
      else output_file
  end.

(** [export_to_csv]: the value returned, the messages printed, and the
    file left on disk (if it was opened). *)
Definition export_to_csv (env : export_env) (findings : list finding)
    (output_file : option string) (use_timestamp : bool)
  : option string * list export_event * option csv_file :=
  match findings with
  | [] => (None, [NoFindingsToExport], None)
  | _ =>
      let filename := export_filename (env_now env) output_file use_timestamp in
      match cwd_join env filename with
      | Raise e => (None, [ExportError e], None)
      | Ok path =>
          match file_exists env path with
          | Raise e => (None, [ExportError e], None)
          | Ok present =>
              let warning :=
                if present && negb use_timestamp
                then [OverwriteWarning filename] else [] in
              match get_timezone_name (env_clock env) with
              | Raise e => (None, warning ++ [ExportError e], None)
              | Ok local_tz =>
                  match open_for_writing env path with
                  | Raise e => (None, warning ++ [ExportError e], None)
                  | Ok _ =>
                      let '(rows, outcome) :=
                        write_rows local_tz (env_local_offset env) findings in
                      let file := mkCsv path (fieldnames local_tz) rows in
                      match outcome with
                      | Ok _ => (Some path, warning, Some file)
                      | Raise e =>
                          (None, warning ++ [ExportError e], Some file)
                      end
                  end
              end
          end
      end
  end.

End CsvExporter.
Export CsvExporter.

(* ===================================================================== *)
(** * reporters/console.py *)
(* ===================================================================== *)

Module Console.

Definition get_local_timezone_name (c : clock) : result string :=
  let offset_seconds := - timezone c in
  let* offset_hours := int_truediv offset_seconds 3600 in
  let tz_name :=
    if negb (daylight c =? 0) && negb (tm_isdst c =? 0)
    then snd (tzname c) else fst (tzname c) in
  if (String.eqb tz_name "GMT" || String.eqb tz_name "UTC")
     || (5 <? str_len tz_name)
  then Ok ("UTC" +:+ format_plus_0f offset_hours)
  else Ok tz_name.

(** [c * n] for a one-character string *)
Definition repeat_char (c : ascii) (n : nat) : string :=
  of_chars (repeat c n).

Definition spaces (n : nat) : string := repeat_char " "%char n.

(** [s.ljust(n)], [s.rjust(n)] and [s.center(n)] *)
Definition ljust (n : nat) (s : string) : string :=
  s +:+ spaces (Nat.sub n (String.length s)).

Definition rjust (n : nat) (s : string) : string :=
  spaces (Nat.sub n (String.length s)) +:+ s.

Definition center (n : nat) (s : string) : string :=
  let marg := Nat.sub n (String.length s) in
  let left := Nat.add (Nat.div marg 2)
                (if Nat.odd marg && Nat.odd n then 1 else 0)%nat in
  spaces left +:+ s +:+ spaces (Nat.sub marg left).

(** [f"{v:<n}"]: a [str] and an [int] are padded on the right, a
    [datetime] hands the format to [strftime], the other values reject a
    format. *)
Definition format_ljust (n : nat) (v : pyval) : result string :=
  match v with
  | VStr s => Ok (ljust n s)
  | VInt k => Ok (ljust n (str_of_Z k))
  | VDatetime d => Ok (strftime d ("<" +:+ str_of_Z (Z.of_nat n)))
  | VNone | VBytes _ | VList _ => Raise TypeError
  end.

(** [finding[k][:n]] *)
Definition field_prefix (f : finding) (k : string) (n : nat) : result pyval :=
  let* v := getitem f k in py_slice 0 n v.

(** One line of the table. *)
Definition table_row (local_off : Z) (finding : finding) : result string :=
  let* timestamp_utc := getitem finding "timestamp" in
  let timestamp_local := local_timestamp local_off finding in
  let* artifact_type := field_prefix finding "artifact_type" 15 in
  let* source := field_prefix finding "source" 18 in
  let* description := field_prefix finding "description" 45 in
  let* details := field_prefix finding "details" 50 in
  let* c1 := format_ljust 19 timestamp_utc in
  let c2 := ljust 19 timestamp_local in
  let* c3 := format_ljust 15 artifact_type in
  let* c4 := format_ljust 18 source in
  let* c5 := format_ljust 45 description in
  let* c6 := format_ljust 50 details in
  Ok (c1 +:+ " | " +:+ c2 +:+ " | " +:+ c3 +:+ " | " +:+ c4 +:+ " | "
      +:+ c5 +:+ " | " +:+ c6).

(** The rows printed one after the other, until one raises. *)
Fixpoint print_rows (local_off : Z) (findings : list finding)
  : list string * result unit :=
  match findings with
  | [] => ([], Ok tt)
  | finding :: rest =>
      match table_row local_off finding with
      | Ok row =>
          let '(rows, outcome) := print_rows local_off rest in
          (row :: rows, outcome)
      | Raise e => ([], Raise e)
      end
  end.

Definition table_header (local_tz : string) : string :=
  ljust 19 "TIMESTAMP (UTC)" +:+ " | "
  +:+ ljust 19 ("TIMESTAMP (" +:+ local_tz +:+ ")") +:+ " | "
  +:+ ljust 15 "ARTIFACT TYPE" +:+ " | "
  +:+ ljust 18 "SOURCE" +:+ " | "
  +:+ ljust 45 "DESCRIPTION" +:+ " | "
  +:+ ljust 50 "DETAILS".

(** [print_findings_table]: the lines printed, and how the call ended. *)
Definition print_findings_table (c : clock) (local_off : Z)
    (findings : list finding) : list string * result unit :=
  match findings with
  | [] => (["[!] No findings to display"], Ok tt)
  | _ =>
      match get_local_timezone_name c with
      | Raise e => ([], Raise e)
      | Ok local_tz =>
          let top :=
            [ repeat_char "="%char 180;
              center 180
                "TraceFinder - Forensic Timeline Report (Dual Timezone Display)";
              repeat_char "="%char 180;
              "";
              table_header local_tz;
              repeat_char "-"%char 180 ] in
          let '(rows, outcome) := print_rows local_off findings in
          match outcome with
          | Raise e => (top ++ rows, Raise e)
          | Ok _ =>
              (top ++ rows ++
               [ repeat_char "-"%char 180;
                 "Total Findings: " +:+ str_of_Z (Z.of_nat (length findings));
                 "Timezone: All times shown in UTC and " +:+ local_tz
                   +:+ " (local system time)";
                 repeat_char "="%char 180 ],
               Ok tt)
          end
      end
  end.

(** ** Statistics *)

Fixpoint bytes_eqb (x y : list byte) : bool :=
  match x, y with
  | [], [] => true
  | a :: x', b :: y' => (byte_val a =? byte_val b) && bytes_eqb x' y'
  | _, _ => false
  end.

(** [a == b] on values used as dictionary keys. *)
Definition py_eqb (a b : pyval) : bool :=
  match a, b with
  | VNone, VNone => true
  | VInt x, VInt y => x =? y
  | VStr x, VStr y => String.eqb x y
  | VBytes x, VBytes y => bytes_eqb x y
  | VDatetime x, VDatetime y =>
      match tzinfo x, tzinfo y with
      | None, None => us x =? us y
      | Some ox, Some oy => us x - ox =? us y - oy
      | _, _ => false
      end
  | _, _ => false
  end.

(** A list cannot be a dictionary key. *)
Definition hashable (v : pyval) : bool :=
  match v with
  | VList _ => false
  | _ => true
  end.

(** A counting dictionary, in insertion order. *)
Definition counts : Type := list (pyval * Z).

(** [d[k] = d.get(k, 0) + 1] *)
Fixpoint bump_go (k : pyval) (d : counts) : counts :=
  match d with
  | [] => [(k, 1)]
  | (k', n) :: rest =>
      if py_eqb k' k then (k', n + 1) :: rest else (k', n) :: bump_go k rest
  end.

Definition bump (k : pyval) (d : counts) : result counts :=
  if hashable k then Ok (bump_go k d) else Raise TypeError.

(** The counting loop of [print_statistics], on the two dictionaries. *)
Fixpoint tally (findings : list finding) (type_counts source_counts : counts)
  : result (counts * counts) :=
  match findings with
  | [] => Ok (type_counts, source_counts)
  | finding :: rest =>
      let* artifact_type := getitem finding "artifact_type" in
      let* source := getitem finding "source" in
      let* type_counts := bump artifact_type type_counts in
      let* source_counts := bump source source_counts in
      tally rest type_counts source_counts
  end.

(** [sorted(d.items(), key=lambda x: x[1], reverse=True)] *)
Definition ranked (d : counts) : result counts :=
  sorted_desc (fun item => VInt (snd item)) d.

Definition count_line (item : pyval * Z) : result string :=
  let* name := format_ljust 20 (fst item) in
  Ok ("    " +:+ name +:+ " : " +:+ rjust 5 (str_of_Z (snd item))
      +:+ " entries").

(** The lines of one ranking printed one after the other, until one
    raises. *)
Fixpoint print_counts (items : counts) : list string * result unit :=
  match items with
  | [] => ([], Ok tt)
  | item :: rest =>
      match count_line item with
      | Ok line =>
          let '(lines, outcome) := print_counts rest in
          (line :: lines, outcome)
      | Raise e => ([], Raise e)
      end
  end.

(** [print_statistics]: the lines printed, and how the call ended. *)
Definition print_statistics (findings : list finding)
  : list string * result unit :=
  match findings with
  | [] => ([], Ok tt)
  | _ =>
      match tally findings [] [] with
      | Raise e => ([], Raise e)
      | Ok (type_counts, source_counts) =>
          let top :=
            [ ""; repeat_char "="%char 70; center 70 "Statistical Summary";
              repeat_char "="%char 70; ""; "[*] Artifacts by Type:" ] in
          match ranked type_counts with
          | Raise e => (top, Raise e)
          | Ok by_type =>
              let '(type_lines, outcome) := print_counts by_type in
              match outcome with
              | Raise e => (top ++ type_lines, Raise e)
              | Ok _ =>
                  let middle := [ ""; "[*] Artifacts by Source:" ] in
                  match ranked source_counts with
                  | Raise e => (top ++ type_lines ++ middle, Raise e)
                  | Ok by_source =>
                      let '(source_lines, outcome) := print_counts by_source in
                      match outcome with
                      | Raise e =>
                          (top ++ type_lines ++ middle ++ source_lines, Raise e)
                      | Ok _ =>
                          (top ++ type_lines ++ middle ++ source_lines
                           ++ [ ""; repeat_char "="%char 70 ], Ok tt)
                      end
                  end
              end
          end
      end
  end.

End Console.
Export Console.

(* ===================================================================== *)
(** * tracefinder.py: the window size on the command line *)
(* ===================================================================== *)

Module Main.

(** [str.isdigit] on the characters of this model: the decimal digits and
    the superscripts two, three and one. *)
Definition is_decimal_char (c : ascii) : bool :=
  (48 <=? ord c) && (ord c <=? 57).

Definition isdigit_char (c : ascii) : bool :=
  is_decimal_char c || (ord c =? 178) || (ord c =? 179) || (ord c =? 185).

Definition isdigit (s : string) : bool :=
  negb (String.eqb s "") && forallb isdigit_char (chars s).

(** [int(s)] for a string on which [isdigit] holds: a superscript is not
    a decimal digit, and more than 4300 digits are refused. *)
Definition int_of_digits (s : string) : result Z :=
  if forallb is_decimal_char (chars s) then
    if 4300 <? str_len s then Raise ValueError
    else Ok (fold_left (fun acc c => 10 * acc + (ord c - 48)) (chars s) 0)
  else Raise ValueError.

(** The window size [main] hands to [TriageWindow], from [sys.argv]. *)
Definition window_minutes_of (argv : list string) : result Z :=
  let window_minutes := 180 in
  match argv with
  | _ :: arg :: _ => if isdigit arg then int_of_digits arg else Ok window_minutes
  | _ => Ok window_minutes
  end.

End Main.
Export Main.


(* ===================================================================== *)
(** * Vocabulary of the further properties *)
(* ===================================================================== *)

Module Vocabulary.

(** The collector raises. *)
Definition failed (w : TriageWindow) (c : string * collector) : bool :=
  match snd c w with
  | Ok _ => false
  | Raise _ => true
  end.

(** The number of findings the orchestrator announced. *)
Definition entries_total (out : list log_line) : nat :=
  fold_right (fun l acc => match l with Entries n => (n + acc)%nat | _ => acc end)
             O out.

(** The sort key of a finding is a datetime, and a naive one. *)
Definition datetime_key (f : finding) : Prop :=
  exists d, sort_key f = VDatetime d.

Definition naive_key (f : finding) : Prop :=
  exists d, sort_key f = VDatetime d /\ tzinfo d = None.

(** The finding is stamped with the datetime [d]. *)
Definition stamped_at (d : datetime) (f : finding) : Prop :=
  f !! "timestamp_dt" = Some (VDatetime d).

(** The registry value holds data that Python takes as true. *)
Definition has_data (entry : string * pyval) : bool := truthy (snd entry).

(** The finding [parse_typed_paths] builds from one value. *)
Definition typed_paths_finding (key_modified : datetime)
    (entry : string * pyval) : finding :=
  mkdict
    [ ("timestamp", VStr (strftime key_modified TS_FORMAT));
      ("timestamp_dt", VDatetime key_modified);
      ("artifact_type", VStr "Registry");
      ("source", VStr "TypedPaths");
      ("description", snd entry);
      ("details", VStr ("Entry: " +:+ fst entry)) ].

(** The description is a sequence of at most [n] items. *)
Definition short_text (n : Z) (f : finding) : Prop :=
  exists v len, f !! "description" = Some v /\ py_len v = Ok len /\ len <= n.

(** The three messages [extract_lnk_target] answers with when it has no
    path. *)
Definition lnk_messages : list string :=
  [ "Error parsing .lnk file"; "Invalid .lnk file";
    "Unable to parse target path" ].

(** The keys a report row cannot do without. *)
Definition REPORT_FIELDS : list string :=
  [ "timestamp"; "artifact_type"; "source"; "description"; "details" ].

Definition reportable (f : finding) : Prop :=
  Forall (fun k => is_Some (f !! k)) REPORT_FIELDS.

(** The five fields the table prints are strings. *)
Definition text_finding (f : finding) : Prop :=
  Forall (fun k => exists s, f !! k = Some (VStr s)) REPORT_FIELDS.

(** The number of findings whose field [k] equals [v]. *)
Definition occurrences (k : string) (v : pyval) (findings : list finding)
  : Z :=
  Z.of_nat (length (List.filter
                      (fun f => match f !! k with
                                | Some v' => py_eqb v' v
                                | None => false
                                end) findings)).

(** The count a counting dictionary holds for [v]. *)
Definition count_of (v : pyval) (d : counts) : Z :=
  match find (fun item => py_eqb (fst item) v) d with
  | Some item => snd item
  | None => 0
  end.

Definition counts_total (d : counts) : Z :=
  fold_right (fun item acc => snd item + acc) 0 d.

(** What [==] identifies: equal values, and aware datetimes of one
    instant. *)
Definition same_key (a b : pyval) : Prop :=
  match a, b with
  | VNone, VNone => True
  | VInt x, VInt y => x = y
  | VStr x, VStr y => x = y
  | VBytes x, VBytes y => x = y
  | VDatetime x, VDatetime y =>
      match tzinfo x, tzinfo y with
      | None, None => us x = us y
      | Some ox, Some oy => us x - ox = us y - oy
      | _, _ => False
      end
  | _, _ => False
  end.

(** One more for the count of [v] when the value met is [v']. *)
Definition hit (v' v : pyval) : Z := if py_eqb v' v then 1 else 0.

(** The order of a ranking: larger counts first. *)
Definition by_count (a b : pyval * Z) : Prop := snd b <= snd a.

(** The number a string of decimal digits denotes. *)
Definition digits_value (l : list ascii) : Z :=
  fold_left (fun acc c => 10 * acc + (ord c - 48)) l 0.

(** The key of a counting dictionary entry is a string. *)
Definition text_key (item : pyval * Z) : Prop := exists s, fst item = VStr s.

(** The name [time.tzname] gives for the zone in force, and whether the
    reporters replace it by an offset. *)
Definition zone_name (c : clock) : string :=
  if negb (daylight c =? 0) && negb (tm_isdst c =? 0)
  then snd (tzname c) else fst (tzname c).

Definition generic_zone_name (c : clock) : bool :=
  (String.eqb (zone_name c) "GMT" || String.eqb (zone_name c) "UTC")
  || (5 <? str_len (zone_name c)).

(** [p] holds of the [n] integers from [z] on. *)
Fixpoint all_from (n : nat) (z : Z) (p : Z -> bool) : bool :=
  match n with
  | O => true
  | S k => p z && all_from k (z + 1) p
  end.

(** The date of day [z] has day number [z], a month and a day in range,
    and a year of the 400-year era that starts with March of year 0. *)
Definition era_day_ok (z : Z) : bool :=
  let '(y, m, d) := civil_from_days z in
  (days_from_civil y m d =? z)
  && (1 <=? m) && (m <=? 12) && (1 <=? d) && (d <=? 31)
  && (0 <=? y) && (y <=? 400)
  && ((z <? 0) || (1 <=? y))
  && ((145731 <=? z) || (y <=? 399)).

End Vocabulary.
Export Vocabulary.

(* ===================================================================== *)
(** * Concrete hosts and windows used as test inputs *)
(* ===================================================================== *)

Module Examples.

(** A collection started on 2024-06-01T12:00:00Z with the default window. *)
Definition noon : Z := (days_from_civil 2024 6 1 * 86400 + 12 * 3600) * US_PER_SECOND.

Definition window : TriageWindow :=
  mkTriageWindow 180 (mkdt noon utc) (mkdt (noon - 180 * 60 * US_PER_SECOND) utc).

(** FILETIME of [y-m-d] at [hh] o'clock UTC. *)
Definition filetime_of (y m d hh : Z) : Z :=
  ((days_from_civil y m d - days_from_civil 1601 1 1) * 86400 + hh * 3600)
  * FILETIME_TICKS_PER_SECOND.

(** The C library of Windows: [gmtime] accepts 1970 to 3000. *)
Definition windows_gmtime (t : Z) : bool := (0 <=? t) && (t <=? 32535215999).

(** A machine on which nothing is there. *)
Definition bare_host : host :=
  mkHost (fun _ => None)
         (fun _ _ => Raise FileNotFoundError)
         (fun _ => Ok false)
         (fun _ => Raise FileNotFoundError)
         (fun _ _ => [])
         (fun _ => Raise FileNotFoundError)
         (fun _ => Raise FileNotFoundError)
         (fun _ _ => Raise DatabaseError)
         windows_gmtime.

(** [bare_host] with one registry key under HKEY_CURRENT_USER. *)
Definition with_hkcu_key (path : string) (k : reg_key) (h : host) : host :=
  mkHost (getenv h)
         (fun hv p =>
            match hv with
            | HKEY_CURRENT_USER => if String.eqb p path then Ok k else reg_open h hv p
            | HKEY_LOCAL_MACHINE => reg_open h hv p
            end)
         (path_exists h) (path_stat h) (path_glob h) (read_lines h)
         (read_bytes h) (sqlite_fetchall h) (gmtime_ok h).

(** Findings for the sort stage: three instants and a tie. *)
Definition stamped (label : string) (u : Z) : finding :=
  mkdict [ ("timestamp_dt", VDatetime (mkdt u utc)); ("source", VStr label) ].

Definition keyless : finding := mkdict [ ("source", VStr "no timestamp") ].

(** The RunMRU key of the end-to-end scenario, last written at 11:00. *)
Definition runmru_key : reg_key :=
  mkKey [] [ ("a", VStr "C:\tool.exe\1"); ("MRUList", VStr "a") ]
        (filetime_of 2024 6 1 11).

Definition runmru_host : host := with_hkcu_key runmru_path runmru_key bare_host.

(** A collection module that faults. *)
Definition faulty : collector := fun _ => Raise OSError.

(** RunMRU with an empty value next to the index. *)
Definition runmru_empty_host : host :=
  with_hkcu_key runmru_path
    (mkKey [] [ ("a", VStr ""); ("MRUList", VStr "a") ] (filetime_of 2024 6 1 11))
    bare_host.

(** 2024-06-01T11:00:00Z, the last write of the example keys. *)
Definition eleven : datetime := mkdt (noon - 3600 * US_PER_SECOND) utc.






(** A finding stamped with a naive datetime. *)
Definition naive_stamped (label : string) (u : Z) : finding :=
  mkdict [ ("timestamp_dt", VDatetime (mkdt u None)); ("source", VStr label) ].

(** TypedPaths with a path and a number, last written at 11:00. *)
Definition typed_paths_key : reg_key :=
  mkKey [] [ ("url1", VStr "C:\Users"); ("url2", VInt 7) ]
        (filetime_of 2024 6 1 11).

Definition typed_paths_host : host :=
  with_hkcu_key typed_paths_path typed_paths_key bare_host.

(** The bytes of a string, and a shortcut file: the magic byte, three
    zero bytes, a target path, a zero byte and a trailer. *)
Definition bytes_of (s : string) : list byte :=
  map Ascii.byte_of_ascii (chars s).

Definition lnk_content : list byte :=
  bytes_of ("L" +:+ of_chars [NUL; NUL; NUL] +:+ "C:\Users\a\report.docx"
            +:+ of_chars [NUL] +:+ "x").

Definition lnk_host : host :=
  mkHost (getenv bare_host) (reg_open bare_host) (path_exists bare_host)
         (path_stat bare_host) (path_glob bare_host) (read_lines bare_host)
         (fun _ => Ok lnk_content) (sqlite_fetchall bare_host)
         (gmtime_ok bare_host).

(** Chrome's clock at 2024-06-01T11:00:00Z. *)
Definition chrome_eleven : Z := filetime_of 2024 6 1 11 / 10.

(** A browser history of three visits, in the order of the query: the two
    without a visit time come last.  Every browser of the machine
    answers with it. *)
Definition history_rows : list (list pyval) :=
  [ [ VStr "https://a.example/"; VStr "A"; VInt 1; VInt chrome_eleven ];
    [ VStr "https://b.example/"; VStr "B"; VInt 1; VNone ];
    [ VStr "https://c.example/"; VStr "C"; VInt 1; VNone ] ].

Definition browser_host : host :=
  mkHost (fun _ => Some "C:\Users\a\AppData")
         (reg_open bare_host)
         (fun _ => Ok true)
         (path_stat bare_host) (path_glob bare_host) (read_lines bare_host)
         (read_bytes bare_host)
         (fun _ _ => Ok history_rows)
         (gmtime_ok bare_host).

(** The zone of Lagos (UTC+1, no daylight saving) and of Kolkata
    (UTC+5:30), as Windows names them. *)
Definition lagos : clock :=
  mkClock (-3600) 0 0
    ("W. Central Africa Standard Time", "W. Central Africa Daylight Time").

Definition kolkata : clock :=
  mkClock (-19800) 0 0 ("India Standard Time", "India Daylight Time").

(** An analyst's machine in Lagos, at 13:00 local time. *)
Definition lagos_env : export_env :=
  mkExportEnv lagos (mkdt (noon + 3600 * US_PER_SECOND) None)
    (3600 * US_PER_SECOND)
    (fun filename => Ok ("C:\cases\" +:+ filename))
    (fun _ => Ok false)
    (fun _ => Ok tt).

(** The finding of the RunMRU scenario, and one that lost its details. *)
Definition tool_finding : finding :=
  runmru_finding eleven "a" "C:\tool.exe\1".

Definition torn_finding : finding :=
  mkdict [ ("timestamp", VStr "2024-06-01 11:00:00 UTC");
           ("artifact_type", VStr "Registry"); ("source", VStr "TypedPaths");
           ("description", VStr "C:\Users") ].

End Examples.

(* ===================================================================== *)
(** * Verification *)
(* ===================================================================== *)

(** ** Time window *)

Section TimeWindowFacts.

Lemma init_fields now minutes w :
  TriageWindow_init now minutes = Ok w ->
  current_time w = mkdt now utc /\
  cutoff_time w = mkdt (now - minutes * 60 * US_PER_SECOND) utc /\
  window_minutes w = minutes.
Proof.
  unfold TriageWindow_init, timedelta_minutes, timedelta_check, dt_sub, dt_add.
  destruct (_ && _); simpl; [|discriminate].
  destruct (in_range _); simpl; [|discriminate].
  intros [= <-]. simpl. repeat split.
Qed.

Lemma within_window_eval w t oc on :
  tzinfo (cutoff_time w) = Some oc -> tzinfo (current_time w) = Some on ->
  is_within_window w (Some t) =
  Ok ((utc_instant (cutoff_time w) <=? utc_instant t)
      && (utc_instant t <=? utc_instant (current_time w))).
Proof.
  intros Hc Hn. unfold is_within_window, dt_le, dt_cmp, utc_instant.
  rewrite Hc, Hn. destruct (tzinfo t) as [o|] eqn:Ht; simpl; rewrite ?Ht; simpl.
  - destruct (_ <=? _); reflexivity.
  - rewrite !Z.sub_0_r. destruct (_ <=? _); reflexivity.
Qed.

End TimeWindowFacts.

(** C3.  For a window built by the constructor: an absent timestamp is
    outside; a naive timestamp is judged as the same reading in UTC; a
    timestamp is inside exactly when its instant lies between the cutoff
    and the reference time, both bounds included. *)
Theorem is_within_window_inclusive (now minutes : Z) (w : TriageWindow) :
  TriageWindow_init now minutes = Ok w ->
  is_within_window w None = Ok false /\
  (forall t, tzinfo t = None ->
     is_within_window w (Some t)
     = is_within_window w (Some (replace_tzinfo t utc))) /\
  (forall t, exists b,
     is_within_window w (Some t) = Ok b /\
     (b = true <->
      utc_instant (cutoff_time w) <= utc_instant t
      <= utc_instant (current_time w))) /\
  (0 <= minutes ->
     is_within_window w (Some (cutoff_time w)) = Ok true /\
     is_within_window w (Some (current_time w)) = Ok true).
Proof.
  intros Hw. destruct (init_fields _ _ _ Hw) as (Hcur & Hcut & _).
  assert (He : forall t, is_within_window w (Some t) =
    Ok ((utc_instant (cutoff_time w) <=? utc_instant t)
        && (utc_instant t <=? utc_instant (current_time w)))).
  { intros t. apply within_window_eval with (oc := 0) (on := 0);
      [rewrite Hcut | rewrite Hcur]; reflexivity. }
  split; [reflexivity|]. split; [|split].
  - intros t Ht. rewrite !He. unfold utc_instant, replace_tzinfo. simpl.
    rewrite Ht. reflexivity.
  - intros t. eexists. split; [apply He|].
    rewrite andb_true_iff, !Z.leb_le. tauto.
  - intros Hm. rewrite !He, Hcur, Hcut. unfold utc_instant. simpl.
    split; f_equal; rewrite andb_true_iff, !Z.leb_le; unfold US_PER_SECOND;
      lia.
Qed.

Lemma is_within_window_inclusive_witness :
  TriageWindow_init Examples.noon 180 = Ok Examples.window /\
  is_within_window Examples.window None = Ok false.
Proof.
  assert (H : TriageWindow_init Examples.noon 180 = Ok Examples.window)
    by (vm_compute; reflexivity).
  split; [exact H|].
  exact (proj1 (is_within_window_inclusive _ _ _ H)).
Defined.

(** ** binary64 rounding *)

Section DoubleFacts.

Lemma rne_quot_spec n d : 0 < d -> - d <= 2 * (rne_quot n d * d - n) <= d.
Proof.
  intros Hd. unfold rne_quot.
  pose proof (Z.div_mod n d ltac:(lia)) as E.
  pose proof (Z.mod_pos_bound n d Hd) as B.
  destruct (Z.compare_spec (2 * (n mod d)) d); [destruct (Z.even _)|..]; nia.
Qed.

Lemma rne_quot_exact q d : 0 < d -> rne_quot (q * d) d = q.
Proof.
  intros Hd. unfold rne_quot.
  rewrite Z.div_mul, Z.mod_mul by lia.
  destruct (Z.compare_spec (2 * 0) d); lia.
Qed.

Lemma rne_quot_nonneg n d : 0 < d -> 0 <= n -> 0 <= rne_quot n d.
Proof.
  intros Hd Hn. unfold rne_quot.
  assert (0 <= n / d) by (apply Z.div_pos; lia).
  destruct (_ ?= _); [destruct (Z.even _)|..]; lia.
Qed.

(** The integer the quotient [n/d] is nearest to is unique when the
    distance is below one half. *)
Lemma nearest_unique r z n d :
  0 < d -> - d <= 2 * (r * d - n) <= d -> - d < 2 * (z * d - n) < d -> r = z.
Proof. intros. nia. Qed.

Lemma ilog2_quot_spec n d :
  0 < n -> 0 < d ->
  let k := ilog2_quot n d in
  (0 <= k -> d * 2 ^ k <= n < 2 * (d * 2 ^ k)) /\
  (k < 0 -> d <= n * 2 ^ (- k) < 2 * d).
Proof.
  intros Hn Hd. unfold ilog2_quot.
  destruct (Z.log2_spec n Hn) as [Ln Un].
  destruct (Z.log2_spec d Hd) as [Ld Ud].
  pose proof (Z.log2_nonneg n) as Nn. pose proof (Z.log2_nonneg d) as Nd.
  set (a := Z.log2 n) in *. set (b := Z.log2 d) in *.
  rewrite <- !Z.add_1_r in *. 
  rewrite Z.pow_add_r in Un, Ud by lia. change (2 ^ 1) with 2 in *.
  destruct (Z.leb_spec 0 (a - b)) as [Hk|Hk].
  - assert (Ea : 2 ^ a = 2 ^ b * 2 ^ (a - b)).
    { rewrite <- Z.pow_add_r by lia. f_equal. lia. }
    assert (0 < 2 ^ (a - b)) by (apply Z.pow_pos_nonneg; lia).
    assert (0 < 2 ^ b) by (apply Z.pow_pos_nonneg; lia).
    destruct (Z.leb_spec (d * 2 ^ (a - b)) n) as [Ht|Ht]; cbv zeta.
    + split; [intros _; nia | lia].
    + destruct (Z.eq_dec (a - b) 0) as [E0|E0].
      * replace (a - b - 1) with (-1) by lia. split; [lia|intros _].
        change (2 ^ (- -1)) with 2. rewrite E0 in *. change (2 ^ 0) with 1 in *. nia.
      * split; [intros _|lia].
        assert (E1 : 2 ^ (a - b) = 2 * 2 ^ (a - b - 1)).
        { replace (a - b) with (1 + (a - b - 1)) at 1 by lia.
          rewrite Z.pow_add_r by lia. reflexivity. }
        assert (0 < 2 ^ (a - b - 1)) by (apply Z.pow_pos_nonneg; lia).
        nia.
  - assert (Eb : 2 ^ b = 2 ^ a * 2 ^ (- (a - b))).
    { rewrite <- Z.pow_add_r by lia. f_equal. lia. }
    assert (0 < 2 ^ (- (a - b))) by (apply Z.pow_pos_nonneg; lia).
    assert (0 < 2 ^ a) by (apply Z.pow_pos_nonneg; lia).
    destruct (Z.leb_spec d (n * 2 ^ (- (a - b)))) as [Ht|Ht]; cbv zeta.
    + split; [lia|intros _; nia].
    + split; [lia|intros _].
      assert (E1 : 2 ^ (- (a - b - 1)) = 2 * 2 ^ (- (a - b))).
      { replace (- (a - b - 1)) with (1 + - (a - b)) by lia.
        rewrite Z.pow_add_r by lia. reflexivity. }
      nia.
Qed.


Lemma round_rat_pos n d :
  0 < n -> 0 < d ->
  let e := Z.max (ilog2_quot n d - 52) (-1074) in
  exists m, round_rat n d = mk m e /\ 0 <= m /\
    (0 <= e -> - (d * 2 ^ e) <= 2 * (m * (d * 2 ^ e) - n) <= d * 2 ^ e) /\
    (e < 0 -> - d <= 2 * (m * d - n * 2 ^ (- e)) <= d).
Proof.
  intros Hn Hd e. unfold round_rat.
  destruct (Z.eqb_spec n 0); [lia|].
  rewrite (Z.abs_eq n), (Z.sgn_pos n) by lia. fold e.
  destruct (Z.leb_spec 0 e) as [He|He].
  - assert (0 < d * 2 ^ e) by (apply Z.mul_pos_pos; [lia|apply Z.pow_pos_nonneg; lia]).
    eexists. split; [reflexivity|]. rewrite Z.mul_1_l.
    split; [apply rne_quot_nonneg; lia|]. split; [intros _|lia].
    apply rne_quot_spec; lia.
  - assert (0 < 2 ^ (- e)) by (apply Z.pow_pos_nonneg; lia).
    eexists. split; [reflexivity|]. rewrite Z.mul_1_l.
    split; [apply rne_quot_nonneg; nia|]. split; [lia|intros _].
    apply rne_quot_spec; lia.
Qed.

Lemma modf_neg_expo m e :
  e < 0 -> 0 <= m ->
  modf (mk m e) = (m / 2 ^ (- e), mk (m mod 2 ^ (- e)) e).
Proof.
  intros He Hm. unfold modf. simpl.
  destruct (Z.leb_spec 0 e); [lia|].
  assert (0 < 2 ^ (- e)) by (apply Z.pow_pos_nonneg; lia).
  rewrite Z.quot_div_nonneg, Z.rem_mod_nonneg by lia. reflexivity.
Qed.

Lemma c_round_nonneg m e :
  e < 0 -> 0 <= m ->
  c_round (mk m e) = (2 * m + 2 ^ (- e)) / (2 * 2 ^ (- e)).
Proof.
  intros He Hm. unfold c_round. simpl.
  destruct (Z.leb_spec 0 e); [lia|].
  assert (0 < 2 ^ (- e)) by (apply Z.pow_pos_nonneg; lia).
  destruct (Z.eq_dec m 0) as [->|].
  - simpl. symmetry. apply Z.div_small. lia.
  - rewrite Z.sgn_pos, Z.abs_eq by lia. lia.
Qed.

Lemma c_round_nearest m e :
  e < 0 -> 0 <= m ->
  - 2 ^ (- e) <= 2 * (c_round (mk m e) * 2 ^ (- e) - m) <= 2 ^ (- e).
Proof.
  intros He Hm. rewrite c_round_nonneg by assumption.
  assert (HP : 0 < 2 ^ (- e)) by (apply Z.pow_pos_nonneg; lia).
  set (P := 2 ^ (- e)) in *.
  pose proof (Z.div_mod (2 * m + P) (2 * P) ltac:(lia)).
  pose proof (Z.mod_pos_bound (2 * m + P) (2 * P) ltac:(lia)).
  nia.
Qed.

(** Away from a tie, [round_half_even] is the nearest integer. *)
Lemma round_half_even_near m e z :
  e < 0 -> 0 <= m ->
  - 2 ^ (- e) < 2 * (z * 2 ^ (- e) - m) < 2 ^ (- e) ->
  round_half_even (mk m e) = z.
Proof.
  intros He Hm Hz. unfold round_half_even.
  pose proof (c_round_nearest m e He Hm) as Hc.
  assert (HP : 0 < 2 ^ (- e)) by (apply Z.pow_pos_nonneg; lia).
  assert (E : c_round (mk m e) = z) by (eapply nearest_unique; eauto).
  rewrite E. unfold half_away. simpl.
  destruct (Z.leb_spec 0 e); [lia|].
  destruct (Z.eqb_spec (2 * Z.abs (m - z * 2 ^ (- e))) (2 ^ (- e))); [lia|reflexivity].
Qed.

Lemma round_leftover_nearest x l e :
  e < 0 -> 0 <= l < 2 ^ (- e) ->
  - 2 ^ (- e) <= 2 * (round_leftover x (mk l e) * 2 ^ (- e) - l) <= 2 ^ (- e).
Proof.
  intros He Hl. unfold round_leftover, is_zero. simpl.
  assert (HP : 0 < 2 ^ (- e)) by lia.
  destruct (Z.eqb_spec l 0); [lia|].
  pose proof (c_round_nearest l e He ltac:(lia)) as Hc.
  destruct (half_away _ _) eqn:Hh; [|exact Hc].
  unfold half_away in Hh. simpl in Hh.
  destruct (Z.leb_spec 0 e); [lia|].
  apply Z.eqb_eq in Hh.
  assert (Hodd : x mod 2 = 0 \/ x mod 2 = 1)
    by (pose proof (Z.mod_pos_bound x 2); lia).
  unfold add_int, halve. cbn [mant expo].
  destruct (Z.leb_spec 0 e); [lia|]. cbn [mant expo].
  rewrite c_round_nonneg by (destruct Hodd as [E|E]; try rewrite E; lia).
  replace (- (e - 1)) with (1 + - e) by lia.
  rewrite Z.pow_add_r by lia. change (2 ^ 1) with 2.
  set (P := 2 ^ (- e)) in *.
  assert (El : 2 * l = P).
  { set (c := c_round _) in *. assert (c = 0 \/ c = 1) as [Ec|Ec] by nia;
      rewrite Ec in Hh; lia. }
  clear Hh Hc.
  destruct Hodd as [-> | ->].
  - replace (2 * (l + 0 * P) + 2 * P) with (3 * P + 0 * (2 * (2 * P))) by lia.
    rewrite Z.div_add by lia. rewrite (Z.div_small (3 * P)) by lia. lia.
  - replace (2 * (l + 1 * P) + 2 * P) with (P + 1 * (2 * (2 * P))) by lia.
    rewrite Z.div_add by lia. rewrite (Z.div_small P) by lia. lia.
Qed.


Lemma pow2_le_mono a b : 0 <= a <= b -> 2 ^ a <= 2 ^ b.
Proof. intros. apply Z.pow_le_mono_r; lia. Qed.

(** The product of a fractional part by the scale [b] (below 2^20), as
    rounded by [fmul]. *)
Lemma frac_scaled r e b :
  e < 0 -> 0 < r < 2 ^ (- e) -> 0 < b < 2 ^ 20 ->
  exists m2 e2,
    fmul (mk r e) (of_Z b) = mk m2 e2 /\
    fmul (of_Z b) (mk r e) = mk m2 e2 /\
    e2 <= -33 /\ 0 <= m2 /\
    - 2 ^ (- e) <= 2 * (m2 * 2 ^ (- e) - r * b * 2 ^ (- e2)) <= 2 ^ (- e).
Proof.
  intros He Hr Hb.
  assert (HP : 0 < 2 ^ (- e)) by lia.
  destruct (round_rat_pos (r * b) (2 ^ (- e)) ltac:(nia) HP)
    as (m2 & E & Hm2 & _ & Herr).
  set (e2 := Z.max _ _) in *.
  assert (He2 : e2 <= -33).
  { subst e2. apply Z.max_lub; [|lia].
    destruct (ilog2_quot_spec (r * b) (2 ^ (- e)) ltac:(nia) HP) as [Hk _].
    set (k := ilog2_quot _ _) in *.
    destruct (Z.lt_ge_cases k 0); [lia|].
    specialize (Hk ltac:(lia)).
    assert (2 ^ k < 2 ^ 20) by nia.
    apply Z.pow_lt_mono_r_iff in H0; lia. }
  exists m2, e2. unfold fmul, round_dyadic, of_Z. cbn [mant expo].
  rewrite Z.add_0_r, Z.add_0_l, (Z.mul_comm b r).
  destruct (Z.leb_spec 0 e); [lia|].
  repeat split; try assumption; apply Herr; lia.
Qed.

Lemma div_mod_eq v b q r :
  0 <= r < b -> v = q * b + r -> v / b = q /\ v mod b = r.
Proof.
  intros Hr ->. split.
  - symmetry. apply Z.div_unique_pos with r; lia.
  - symmetry. apply Z.mod_unique_pos with q; lia.
Qed.

Lemma timestamp_of_micros v :
  0 <= v < 2 ^ 33 * 1000000 ->
  exists x, int_truediv v 1000000 = Ok x /\
            timestamp_to_timeval x = Ok (v / 1000000, v mod 1000000).
Proof.
  intros Hv. unfold int_truediv.
  change (1000000 =? 0) with false. cbv iota.
  change (Z.sgn 1000000) with 1. change (Z.abs 1000000) with 1000000.
  rewrite Z.mul_1_r.
  destruct (Z.eq_dec v 0) as [->|Hnz].
  { eexists. split; reflexivity. }
  destruct (round_rat_pos v 1000000 ltac:(lia) ltac:(lia))
    as (m & E & Hm & _ & Herr).
  set (e := Z.max _ _) in *.
  assert (He : e <= -20).
  { subst e. apply Z.max_lub; [|lia].
    destruct (ilog2_quot_spec v 1000000 ltac:(lia) ltac:(lia)) as [Hk _].
    set (k := ilog2_quot _ _) in *.
    destruct (Z.lt_ge_cases k 0); [lia|].
    specialize (Hk ltac:(lia)).
    assert (2 ^ k < 2 ^ 33) by nia.
    apply Z.pow_lt_mono_r_iff in H0; lia. }
  specialize (Herr ltac:(lia)).
  rewrite E. unfold overflows. cbn [mant expo].
  destruct (Z.ltb_spec 971 e); [lia|]. destruct (Z.eqb_spec e 971); [lia|].
  cbn [orb andb]. eexists. split; [reflexivity|].
  assert (HP20 : 2 ^ 20 <= 2 ^ (- e)) by (apply pow2_le_mono; lia).
  change (2 ^ 20) with 1048576 in HP20.
  set (P := 2 ^ (- e)) in *.
  unfold timestamp_to_timeval, US_PER_SECOND. rewrite modf_neg_expo by lia. fold P.
  pose proof (Z.div_mod m P ltac:(lia)) as Edm.
  pose proof (Z.mod_pos_bound m P ltac:(lia)) as Bm.
  set (I := m / P) in *. set (r := m mod P) in *.
  assert (Target : forall fp, fp = v - I * 1000000 ->
    (let '(sec, usec) :=
       if 1000000 <=? fp then (I + 1, fp - 1000000)
       else if fp <? 0 then (I - 1, fp + 1000000) else (I, fp) in
     if (- 2 ^ 63 <=? sec) && (sec <? 2 ^ 63) then Ok (sec, usec)
     else Raise OverflowError) = Ok (v / 1000000, v mod 1000000)).
  { intros fp ->.
    assert (Hz : 0 <= v - I * 1000000 <= 1000000) by nia.
    assert (0 <= I) by (subst I; apply Z.div_pos; lia).
    assert (I < 8589934592) by lia.
    assert (Hrange : forall s, 0 <= s <= I + 1 ->
              (- 2 ^ 63 <=? s) && (s <? 2 ^ 63) = true).
    { intros s Hs. apply andb_true_intro. split;
        [apply Z.leb_le | apply Z.ltb_lt];
        change (2 ^ 63) with 9223372036854775808; lia. }
    destruct (Z.leb_spec 1000000 (v - I * 1000000)).
    - assert (v / 1000000 = I + 1 /\ v mod 1000000 = 0) as [-> ->]
        by (apply div_mod_eq; lia).
      replace (v - I * 1000000 - 1000000) with 0 by lia.
      rewrite Hrange by lia. reflexivity.
    - destruct (Z.ltb_spec (v - I * 1000000) 0); [lia|].
      assert (v / 1000000 = I /\ v mod 1000000 = v - I * 1000000) as [-> ->]
        by (apply div_mod_eq; lia).
      rewrite Hrange by lia. reflexivity. }
  destruct (Z.eq_dec r 0) as [Er|Er].
  - rewrite Er.
    replace (fmul (mk 0 e) (of_Z 1000000)) with zero.
    2:{ unfold fmul, round_dyadic. cbn [mant expo of_Z]. rewrite Z.mul_0_l.
        destruct (_ <=? _); reflexivity. }
    change (round_half_even zero) with 0.
    apply Target. nia.
  - destruct (frac_scaled r e 1000000 ltac:(lia) ltac:(lia) ltac:(lia))
      as (m2 & e2 & E2 & _ & He2 & Hm2 & Herr2).
    fold P in Herr2. rewrite E2.
    assert (HP33 : 2 ^ 33 <= 2 ^ (- e2)) by (apply pow2_le_mono; lia).
    change (2 ^ 33) with 8589934592 in HP33.
    rewrite (round_half_even_near m2 e2 (v - I * 1000000)); try lia.
    + apply Target. reflexivity.
    + set (P2 := 2 ^ (- e2)) in *.
      assert (Hkey : 2 * ((v - I * 1000000) * P2 - m2) * P
                     = - (2 * (m * 1000000 - v * P)) * P2
                       - 2 * (m2 * P - r * 1000000 * P2)) by nia.
      assert (1000000 * P2 + P < P * P2) by nia.
      nia.
Qed.

End DoubleFacts.


Lemma truediv_whole s b :
  0 < s < 2 ^ 53 -> 0 < b ->
  exists x, int_truediv (s * b) b = Ok x /\ exists e, modf x = (s, mk 0 e).
Proof.
  intros Hs Hb. unfold int_truediv.
  destruct (Z.eqb_spec b 0); [lia|].
  rewrite Z.sgn_pos, Z.abs_eq, Z.mul_1_r by lia.
  destruct (ilog2_quot_spec (s * b) b ltac:(nia) Hb) as [Hk Hk'].
  unfold round_rat. destruct (Z.eqb_spec (s * b) 0); [nia|].
  rewrite Z.abs_eq, Z.sgn_pos, Z.mul_1_l by nia.
  set (k := ilog2_quot _ _) in *.
  assert (Hk0 : 0 <= k).
  { destruct (Z.lt_ge_cases k 0) as [Hn|]; [|lia].
    specialize (Hk' Hn).
    assert (2 ^ 1 <= 2 ^ (- k)) by (apply Z.pow_le_mono_r; lia).
    change (2 ^ 1) with 2 in *. nia. }
  specialize (Hk Hk0).
  assert (0 < 2 ^ k) by (apply Z.pow_pos_nonneg; lia).
  assert (Hk52 : k <= 52).
  { assert (2 ^ k < 2 ^ 53) by nia.
    apply Z.pow_lt_mono_r_iff in H0; lia. }
  rewrite Z.max_l by lia.
  destruct (Z.leb_spec 0 (k - 52)) as [He|He].
  - replace (k - 52) with 0 by lia. change (2 ^ 0) with 1.
    rewrite Z.mul_1_r, rne_quot_exact by lia.
    eexists. split; [reflexivity|]. exists 0. unfold modf. simpl.
    f_equal. lia.
  - assert (HP : 0 < 2 ^ (- (k - 52))) by (apply Z.pow_pos_nonneg; lia).
    replace (s * b * 2 ^ (- (k - 52))) with (s * 2 ^ (- (k - 52)) * b) by lia.
    rewrite rne_quot_exact by lia.
    unfold overflows. cbn [mant expo].
    destruct (Z.ltb_spec 971 (k - 52)); [lia|].
    destruct (Z.eqb_spec (k - 52) 971); [lia|]. cbn [orb andb].
    eexists. split; [reflexivity|]. exists (k - 52).
    rewrite modf_neg_expo by nia.
    rewrite Z.div_mul, Z.mod_mul by lia. reflexivity.
Qed.

Lemma timedelta_whole_seconds s b :
  0 < s < 2 ^ 53 -> 0 < b ->
  exists x, int_truediv (s * b) b = Ok x /\
            timedelta_seconds x = timedelta_check (s * US_PER_SECOND).
Proof.
  intros Hs Hb. destruct (truediv_whole s b Hs Hb) as (x & E & e & Em).
  exists x. split; [exact E|]. unfold timedelta_seconds. rewrite Em. reflexivity.
Qed.



(** Accuracy of the FILETIME arithmetic: division by 10^7 in binary64,
    then [timedelta(seconds=...)]. *)
Lemma filetime_delta_bound ticks x delta :
  0 < ticks < 2 ^ 64 ->
  int_truediv ticks 10000000 = Ok x ->
  timedelta_seconds x = Ok delta ->
  delta < 2 ^ 38 * 1000000 ->
  - 160 <= 10 * delta - ticks <= 160.
Proof.
  intros Ht. unfold int_truediv.
  change (10000000 =? 0) with false. cbv iota.
  change (Z.sgn 10000000) with 1. change (Z.abs 10000000) with 10000000.
  rewrite Z.mul_1_r.
  destruct (round_rat_pos ticks 10000000 ltac:(lia) ltac:(lia))
    as (m & E & Hm & _ & Herr).
  destruct (ilog2_quot_spec ticks 10000000 ltac:(lia) ltac:(lia)) as [Hk _].
  set (k := ilog2_quot _ _) in *. set (e := Z.max _ _) in *.
  assert (Hk40 : k <= 40).
  { destruct (Z.lt_ge_cases k 0); [lia|]. specialize (Hk ltac:(lia)).
    change (2 ^ 64) with 18446744073709551616 in Ht.
    assert (2 ^ k < 2 ^ 41) by (change (2 ^ 41) with 2199023255552; nia).
    apply Z.pow_lt_mono_r_iff in H0; lia. }
  assert (He : e < 0) by (subst e; lia).
  specialize (Herr He).
  rewrite E. destruct (overflows _); [discriminate|]. intros [= <-].
  assert (HP : 0 < 2 ^ (- e)) by (apply Z.pow_pos_nonneg; lia).
  unfold timedelta_seconds, US_PER_SECOND. rewrite modf_neg_expo by lia.
  pose proof (Z.div_mod m (2 ^ (- e)) ltac:(lia)) as Edm.
  pose proof (Z.mod_pos_bound m (2 ^ (- e)) ltac:(lia)) as Bm.
  assert (Hbig : forall d, m / 2 ^ (- e) * 1000000 <= d ->
                           d < 2 ^ 38 * 1000000 -> 2 ^ 15 <= 2 ^ (- e)).
  { intros d Hd1 Hd2. apply pow2_le_mono. split; [lia|].
    destruct (Z.le_gt_cases 15 (- e)) as [|Hlt]; [assumption|exfalso].
    assert (Hk38 : 38 <= k) by (subst e; lia).
    specialize (Hk ltac:(lia)).
    assert (2 ^ 38 <= 2 ^ k) by (apply pow2_le_mono; lia).
    set (P := 2 ^ (- e)) in *. set (I := m / P) in *.
    change (2 ^ 38) with 274877906944 in *.
    assert (274877906944 * P <= m) by nia.
    assert (274877906944 <= I) by nia.
    nia. }
  set (P := 2 ^ (- e)) in *. set (I := m / P) in *. set (r := m mod P) in *.
  unfold is_zero. cbn [mant].
  destruct (Z.eqb_spec r 0) as [Er|Er].
  - unfold timedelta_check. destruct (_ && _); [|discriminate].
    intros [= <-] Hd.
    specialize (Hbig _ (Z.le_refl _) Hd). change (2 ^ 15) with 32768 in Hbig.
    nia.
  - destruct (frac_scaled r e 1000000 ltac:(lia) ltac:(lia) ltac:(lia))
      as (m2 & e2 & _ & E2 & He2 & Hm2 & Herr2).
    fold P in Herr2. rewrite E2. rewrite modf_neg_expo by lia.
    assert (HP2 : 0 < 2 ^ (- e2)) by (apply Z.pow_pos_nonneg; lia).
    assert (HP33 : 2 ^ 33 <= 2 ^ (- e2)) by (apply pow2_le_mono; lia).
    change (2 ^ 33) with 8589934592 in HP33.
    pose proof (Z.div_mod m2 (2 ^ (- e2)) ltac:(lia)) as Edm2.
    pose proof (Z.mod_pos_bound m2 (2 ^ (- e2)) ltac:(lia)) as Bm2.
    pose proof (round_leftover_nearest (I * 1000000 + m2 / 2 ^ (- e2))
                  (m2 mod 2 ^ (- e2)) e2 ltac:(lia) Bm2) as Hrl.
    set (P2 := 2 ^ (- e2)) in *. set (I2 := m2 / P2) in *.
    set (l := m2 mod P2) in *. set (rl := round_leftover _ _) in *.
    unfold timedelta_check. destruct (_ && _); [|discriminate].
    intros [= <-] Hd.
    assert (0 <= I2) by (subst I2; apply Z.div_pos; lia).
    assert (0 <= rl) by nia.
    specialize (Hbig (I * 1000000 + I2 + rl) ltac:(lia) Hd).
    change (2 ^ 15) with 32768 in Hbig.
    assert (Hkey : (10 * (I * 1000000 + I2 + rl) - ticks) * (2 * P * P2)
                   = 10 * (2 * (m2 * P - r * 1000000 * P2))
                     + 10 * P * (2 * (rl * P2 - l))
                     + 2 * (m * 10000000 - ticks * P) * P2) by nia.
    set (A := 10 * (I * 1000000 + I2 + rl) - ticks) in *.
    set (X := 2 * (m2 * P - r * 1000000 * P2)) in *.
    set (Y := 2 * (rl * P2 - l)) in *.
    set (W := 2 * (m * 10000000 - ticks * P)) in *.
    set (Q := P * P2).
    assert (0 < Q) by (subst Q; clear - HP HP2; nia).
    assert (32768 * P2 <= Q) by (subst Q; clear - Hbig HP2; nia).
    assert (2 * P <= Q) by (subst Q; clear - HP HP33; nia).
    assert (- Q <= P * Y <= Q) by (subst Q; clear - HP Hrl; nia).
    assert (- (10000000 * P2) <= W * P2 <= 10000000 * P2)
      by (clear - HP2 Herr; nia).
    assert (HA : A * (2 * Q) = 10 * X + 10 * (P * Y) + W * P2)
      by (subst Q; clear - Hkey; lia).
    assert (HQ : - (321 * Q) <= A * (2 * Q) <= 321 * Q) by lia.
    clear - HQ H1. nia.
Qed.

(** The same accuracy for every tick count below 2^38 seconds, with the
    microseconds that [timedelta] is asked for. *)
Lemma filetime_delta_value ticks :
  0 < ticks < 2 ^ 38 * 10000000 ->
  exists x delta,
    int_truediv ticks 10000000 = Ok x /\
    timedelta_seconds x = timedelta_check delta /\
    - 160 <= 10 * delta - ticks <= 160.
Proof.
  intros Ht. unfold int_truediv.
  change (10000000 =? 0) with false. cbv iota.
  change (Z.sgn 10000000) with 1. change (Z.abs 10000000) with 10000000.
  rewrite Z.mul_1_r.
  destruct (round_rat_pos ticks 10000000 ltac:(lia) ltac:(lia))
    as (m & E & Hm & _ & Herr).
  destruct (ilog2_quot_spec ticks 10000000 ltac:(lia) ltac:(lia)) as [Hk _].
  set (k := ilog2_quot _ _) in *. set (e := Z.max _ _) in *.
  assert (Hk37 : k <= 37).
  { destruct (Z.lt_ge_cases k 0); [lia|]. specialize (Hk ltac:(lia)).
    assert (2 ^ k < 2 ^ 38) by nia.
    apply Z.pow_lt_mono_r_iff in H0; lia. }
  assert (He : e <= -15) by (subst e; lia).
  specialize (Herr ltac:(lia)).
  rewrite E. unfold overflows. cbn [expo mant].
  replace (971 <? e) with false by (symmetry; apply Z.ltb_ge; lia).
  replace (e =? 971) with false by (symmetry; apply Z.eqb_neq; lia).
  cbn [orb andb].
  cut (exists delta,
         timedelta_seconds (mk m e) = timedelta_check delta /\
         - 160 <= 10 * delta - ticks <= 160).
  { intros (delta & Hd & Hb). exists (mk m e), delta. auto. }
  assert (HP : 0 < 2 ^ (- e)) by (apply Z.pow_pos_nonneg; lia).
  assert (Hbig : 2 ^ 15 <= 2 ^ (- e)) by (apply pow2_le_mono; lia).
  change (2 ^ 15) with 32768 in Hbig.
  unfold timedelta_seconds, US_PER_SECOND. rewrite modf_neg_expo by lia.
  pose proof (Z.div_mod m (2 ^ (- e)) ltac:(lia)) as Edm.
  pose proof (Z.mod_pos_bound m (2 ^ (- e)) ltac:(lia)) as Bm.
  set (P := 2 ^ (- e)) in *. set (I := m / P) in *. set (r := m mod P) in *.
  unfold is_zero. cbn [mant].
  destruct (Z.eqb_spec r 0) as [Er|Er].
  - exists (I * 1000000). split; [reflexivity|]. nia.
  - destruct (frac_scaled r e 1000000 ltac:(lia) ltac:(lia) ltac:(lia))
      as (m2 & e2 & _ & E2 & He2 & Hm2 & Herr2).
    fold P in Herr2. rewrite E2. rewrite modf_neg_expo by lia.
    assert (HP2 : 0 < 2 ^ (- e2)) by (apply Z.pow_pos_nonneg; lia).
    assert (HP33 : 2 ^ 33 <= 2 ^ (- e2)) by (apply pow2_le_mono; lia).
    change (2 ^ 33) with 8589934592 in HP33.
    pose proof (Z.div_mod m2 (2 ^ (- e2)) ltac:(lia)) as Edm2.
    pose proof (Z.mod_pos_bound m2 (2 ^ (- e2)) ltac:(lia)) as Bm2.
    pose proof (round_leftover_nearest (I * 1000000 + m2 / 2 ^ (- e2))
                  (m2 mod 2 ^ (- e2)) e2 ltac:(lia) Bm2) as Hrl.
    set (P2 := 2 ^ (- e2)) in *. set (I2 := m2 / P2) in *.
    set (l := m2 mod P2) in *. set (rl := round_leftover _ _) in *.
    exists (I * 1000000 + I2 + rl). split; [reflexivity|].
    assert (Hkey : (10 * (I * 1000000 + I2 + rl) - ticks) * (2 * P * P2)
                   = 10 * (2 * (m2 * P - r * 1000000 * P2))
                     + 10 * P * (2 * (rl * P2 - l))
                     + 2 * (m * 10000000 - ticks * P) * P2) by nia.
    set (A := 10 * (I * 1000000 + I2 + rl) - ticks) in *.
    set (X := 2 * (m2 * P - r * 1000000 * P2)) in *.
    set (Y := 2 * (rl * P2 - l)) in *.
    set (W := 2 * (m * 10000000 - ticks * P)) in *.
    set (Q := P * P2).
    assert (0 < Q) by (subst Q; clear - HP HP2; nia).
    assert (32768 * P2 <= Q) by (subst Q; clear - Hbig HP2; nia).
    assert (2 * P <= Q) by (subst Q; clear - HP HP33; nia).
    assert (- Q <= P * Y <= Q) by (subst Q; clear - HP Hrl; nia).
    assert (- (10000000 * P2) <= W * P2 <= 10000000 * P2)
      by (clear - HP2 Herr; nia).
    assert (HA : A * (2 * Q) = 10 * X + 10 * (P * Y) + W * P2)
      by (subst Q; clear - Hkey; lia).
    assert (HQ : - (321 * Q) <= A * (2 * Q) <= 321 * Q) by lia.
    clear - HQ H. nia.
Qed.

(** ** FILETIME conversion *)

Section FiletimeFacts.

Lemma timedelta_check_raises u e :
  timedelta_check u = Raise e -> e = OverflowError.
Proof. unfold timedelta_check. destruct (_ && _); congruence. Qed.

Lemma timedelta_seconds_raises x e :
  timedelta_seconds x = Raise e -> e = OverflowError.
Proof.
  unfold timedelta_seconds. destruct (modf x) as [i f].
  destruct (is_zero f); [apply timedelta_check_raises|].
  destruct (modf _) as [i2 l]. apply timedelta_check_raises.
Qed.

Lemma dt_add_raises d delta e : dt_add d delta = Raise e -> e = OverflowError.
Proof. unfold dt_add. destruct (in_range _); congruence. Qed.

Lemma dt_add_ok d delta r :
  dt_add d delta = Ok r ->
  r = mkdt (us d + delta) (tzinfo d) /\ 0 <= us d + delta < MAX_US.
Proof.
  unfold dt_add, in_range.
  destruct (Z.leb_spec 0 (us d + delta)); cbn [andb]; [|discriminate].
  destruct (Z.ltb_spec (us d + delta) MAX_US); [|discriminate].
  intros [= <-]. split; [reflexivity|lia].
Qed.

Lemma int_truediv_raises a b e :
  b <> 0 -> int_truediv a b = Raise e -> e = OverflowError.
Proof.
  intros Hb. unfold int_truediv. destruct (Z.eqb_spec b 0); [lia|].
  destruct (overflows _); congruence.
Qed.

Lemma filetime_try_raises v e :
  filetime_to_datetime_try v = Raise e -> e = OverflowError \/ e = TypeError.
Proof.
  unfold filetime_to_datetime_try.
  destruct (is_none_or_zero v); [discriminate|].
  destruct (truediv v _) as [x|e1] eqn:E1; cbn [rbind].
  2:{ intros [= <-]. destruct v; cbn [truediv] in E1;
        try (right; congruence).
      left. eapply int_truediv_raises; [|exact E1]. discriminate. }
  destruct (timedelta_seconds x) as [delta|e2] eqn:E2; cbn [rbind].
  2:{ intros [= <-]. left. eapply timedelta_seconds_raises; eauto. }
  destruct (dt_add _ delta) as [t|e3] eqn:E3; cbn [rbind]; [discriminate|].
  intros [= <-]. left. eapply dt_add_raises; eauto.
Qed.

Lemma filetime_never_raises v : exists r, filetime_to_datetime v = Ok r.
Proof.
  unfold filetime_to_datetime.
  destruct (filetime_to_datetime_try v) as [r|e] eqn:E; [eauto|].
  destruct (filetime_try_raises _ _ E) as [-> | ->]; eauto.
Qed.

(** What a successful conversion went through. *)
Lemma filetime_some ticks d :
  ticks <> 0 ->
  filetime_to_datetime (VInt ticks) = Ok (Some d) ->
  exists x delta,
    int_truediv ticks 10000000 = Ok x /\ timedelta_seconds x = Ok delta /\
    d = mkdt (us FILETIME_EPOCH + delta) utc /\
    0 <= us FILETIME_EPOCH + delta < MAX_US.
Proof.
  intros Hnz. unfold filetime_to_datetime, filetime_to_datetime_try.
  replace (is_none_or_zero (VInt ticks)) with false by (destruct ticks; easy).
  cbn [truediv]. unfold FILETIME_TICKS_PER_SECOND.
  destruct (int_truediv ticks 10000000) as [x|e1] eqn:E1; cbn [rbind].
  2:{ destruct e1; discriminate. }
  destruct (timedelta_seconds x) as [delta|e2] eqn:E2; cbn [rbind].
  2:{ destruct e2; discriminate. }
  destruct (dt_add _ delta) as [t|e3] eqn:E3; cbn [rbind].
  2:{ destruct e3; discriminate. }
  intros [= <-]. apply dt_add_ok in E3 as [-> Hr].
  exists x, delta. split; [reflexivity|]. split; [exact E2|].
  split; [reflexivity|exact Hr].
Qed.

(** A tick count that ends at least 16 microseconds before the last
    instant of [datetime] converts to a datetime. *)
Lemma filetime_in_range ticks :
  0 < ticks -> ticks + 160 < 10 * (MAX_US - us FILETIME_EPOCH) ->
  exists d, filetime_to_datetime (VInt ticks) = Ok (Some d).
Proof.
  intros Hp Hr.
  assert (Ht : 0 < ticks < 2 ^ 38 * 10000000).
  { split; [lia|]. revert Hr. unfold MAX_US, US_PER_DAY, US_PER_SECOND.
    change (us FILETIME_EPOCH) with 50491123200000000.
    change (2 ^ 38) with 274877906944. lia. }
  destruct (filetime_delta_value ticks Ht) as (x & delta & E1 & E2 & Hb).
  unfold filetime_to_datetime, filetime_to_datetime_try.
  replace (is_none_or_zero (VInt ticks)) with false
    by (destruct ticks; [lia|easy|easy]).
  cbn [truediv]. unfold FILETIME_TICKS_PER_SECOND. rewrite E1. cbn [rbind].
  rewrite E2. unfold timedelta_check.
  revert Hr Ht. unfold MAX_US, US_PER_DAY, US_PER_SECOND.
  change (us FILETIME_EPOCH) with 50491123200000000.
  change (2 ^ 38) with 274877906944. intros Hr Ht.
  assert (Hd : -1 <= delta / (86400 * 1000000) <= 999999999).
  { split; [apply Z.div_le_lower_bound; lia|apply Z.div_le_upper_bound; lia]. }
  replace ((-999999999 <=? delta / (86400 * 1000000))
           && (delta / (86400 * 1000000) <=? 999999999)) with true
    by (symmetry; apply andb_true_intro; split; apply Z.leb_le; lia).
  cbn [rbind]. unfold dt_add, in_range.
  change (us FILETIME_EPOCH) with 50491123200000000.
  unfold MAX_US, US_PER_DAY, US_PER_SECOND.
  replace (0 <=? 50491123200000000 + delta) with true
    by (symmetry; apply Z.leb_le; lia).
  replace (50491123200000000 + delta <? 3652059 * (86400 * 1000000)) with true
    by (symmetry; apply Z.ltb_lt; lia).
  cbn [andb rbind]. eauto.
Qed.

End FiletimeFacts.

(** C4, as the code has it.  [None] and 0 give [None]; no input makes the
    conversion raise; a result, when there is one, is a UTC datetime within
    16 microseconds (160 ticks) of epoch(1601) + ticks/10^7 s; there is
    one for every positive tick count that ends at least 16 microseconds
    before the end of year 9999, and none for a tick count from 16
    microseconds past it on; a whole number of seconds converts exactly,
    and so does the tick count of 2024-01-01T00:00:00Z. *)
Theorem filetime_to_datetime_spec :
  filetime_to_datetime VNone = Ok None /\
  filetime_to_datetime (VInt 0) = Ok None /\
  (forall v, exists r, filetime_to_datetime v = Ok r) /\
  (forall ticks d,
     0 < ticks < 2 ^ 64 ->
     filetime_to_datetime (VInt ticks) = Ok (Some d) ->
     tzinfo d = utc /\
     - 160 <= 10 * (us d - us FILETIME_EPOCH) - ticks <= 160) /\
  (forall ticks,
     0 < ticks -> ticks + 160 < 10 * (MAX_US - us FILETIME_EPOCH) ->
     exists d, filetime_to_datetime (VInt ticks) = Ok (Some d)) /\
  (forall ticks,
     10 * (MAX_US - us FILETIME_EPOCH) + 160 <= ticks < 2 ^ 64 ->
     filetime_to_datetime (VInt ticks) = Ok None) /\
  (forall s,
     0 < s -> us FILETIME_EPOCH + s * US_PER_SECOND < MAX_US ->
     filetime_to_datetime (VInt (s * FILETIME_TICKS_PER_SECOND))
     = Ok (Some (mkdt (us FILETIME_EPOCH + s * US_PER_SECOND) utc))) /\
  filetime_to_datetime (VInt 133485408000000000)
  = Ok (Some (datetime_ 2024 1 1 utc)).
Proof.
  assert (Hacc : forall ticks d,
     0 < ticks < 2 ^ 64 ->
     filetime_to_datetime (VInt ticks) = Ok (Some d) ->
     tzinfo d = utc /\
     - 160 <= 10 * (us d - us FILETIME_EPOCH) - ticks <= 160).
  { intros ticks d Ht Hd.
    destruct (filetime_some ticks d ltac:(lia) Hd) as (x & delta & E1 & E2 & -> & Hr).
    split; [reflexivity|]. cbn [us].
    replace (us FILETIME_EPOCH + delta - us FILETIME_EPOCH) with delta by lia.
    apply (filetime_delta_bound ticks x delta Ht E1 E2).
    revert Hr. unfold MAX_US, US_PER_DAY, US_PER_SECOND.
    change (us FILETIME_EPOCH) with 50491123200000000.
    change (2 ^ 38) with 274877906944. lia. }
  split; [reflexivity|]. split; [reflexivity|].
  split; [apply filetime_never_raises|]. split; [exact Hacc|].
  split; [exact filetime_in_range|].
  split; [|split; [|vm_compute; reflexivity]].
  - intros ticks Ht.
    destruct (filetime_never_raises (VInt ticks)) as [[d|] E]; [|exact E].
    exfalso.
    assert (Hlt : 0 < ticks < 2 ^ 64).
    { split; [|lia]. revert Ht. unfold MAX_US, US_PER_DAY, US_PER_SECOND.
      change (us FILETIME_EPOCH) with 50491123200000000. lia. }
    destruct (Hacc ticks d Hlt E) as [_ Hb].
    destruct (filetime_some ticks d ltac:(lia) E) as (x & delta & _ & _ & -> & Hr).
    cbn [us] in Hb. lia.
  - intros s Hs Hr. unfold FILETIME_TICKS_PER_SECOND.
    assert (Hs53 : 0 < s < 2 ^ 53).
    { split; [lia|]. revert Hr. unfold MAX_US, US_PER_DAY, US_PER_SECOND.
      change (us FILETIME_EPOCH) with 50491123200000000.
      change (2 ^ 53) with 9007199254740992. lia. }
    destruct (timedelta_whole_seconds s 10000000 Hs53 ltac:(lia)) as (x & E1 & E2).
    unfold filetime_to_datetime, filetime_to_datetime_try.
    replace (is_none_or_zero (VInt (s * 10000000))) with false
      by (destruct (s * 10000000) eqn:?; [lia|easy|easy]).
    cbn [truediv]. unfold FILETIME_TICKS_PER_SECOND. rewrite E1. cbn [rbind].
    rewrite E2. unfold timedelta_check.
    assert (Hd : (- 999999999 <=? s * US_PER_SECOND / US_PER_DAY)
                 && (s * US_PER_SECOND / US_PER_DAY <=? 999999999) = true).
    { revert Hr. unfold MAX_US, US_PER_DAY, US_PER_SECOND.
      change (us FILETIME_EPOCH) with 50491123200000000. intros Hr.
      assert (0 <= s * 1000000 / (86400 * 1000000) <= 999999999).
      { split; [apply Z.div_pos; lia|apply Z.div_le_upper_bound; lia]. }
      apply andb_true_intro. split; apply Z.leb_le; lia. }
    rewrite Hd. cbn [rbind]. unfold dt_add, in_range.
    cbn [us tzinfo FILETIME_EPOCH datetime_].
    change (days_from_civil 1601 1 1 * US_PER_DAY) with (us FILETIME_EPOCH).
    destruct (Z.leb_spec 0 (us FILETIME_EPOCH + s * US_PER_SECOND)) as [|Hneg].
    2:{ revert Hneg. unfold US_PER_SECOND.
        change (us FILETIME_EPOCH) with 50491123200000000. lia. }
    destruct (Z.ltb_spec (us FILETIME_EPOCH + s * US_PER_SECOND) MAX_US); [|lia].
    reflexivity.
Qed.

Lemma filetime_to_datetime_spec_witness :
  filetime_to_datetime (VInt (13348540800 * FILETIME_TICKS_PER_SECOND))
  = Ok (Some (mkdt (us FILETIME_EPOCH + 13348540800 * US_PER_SECOND) utc)).
Proof.
  apply (proj1 (proj2 (proj2 (proj2 (proj2 (proj2
                  (proj2 filetime_to_datetime_spec))))))).
  - lia.
  - vm_compute. reflexivity.
Defined.

(** C4 as stated does not hold: one tick after the 1601 epoch converts to
    the epoch instant itself, so the result is not always exactly
    epoch + ticks/10^7 s. *)
Lemma filetime_exactness_counterexample :
  filetime_to_datetime (VInt 1) = Ok (Some FILETIME_EPOCH) /\
  ~ (forall ticks d,
       0 < ticks < 2 ^ 64 ->
       filetime_to_datetime (VInt ticks) = Ok (Some d) ->
       10 * (us d - us FILETIME_EPOCH) = ticks).
Proof.
  assert (E : filetime_to_datetime (VInt 1) = Ok (Some FILETIME_EPOCH))
    by (vm_compute; reflexivity).
  split; [exact E|]. intros H.
  specialize (H 1 FILETIME_EPOCH ltac:(split; [lia|reflexivity]) E). lia.
Qed.


(** ** Browser epochs *)

Section BrowserEpochFacts.

Lemma chrome_time_exact c :
  0 <= us (datetime_ 1601 1 1 utc) + c < MAX_US ->
  chrome_time (VInt c) = Ok (mkdt (us (datetime_ 1601 1 1 utc) + c) utc).
Proof.
  intros Hr. unfold chrome_time. cbn [timedelta_microseconds_of].
  unfold timedelta_microseconds, timedelta_check.
  assert (Hd : (- 999999999 <=? c / US_PER_DAY)
               && (c / US_PER_DAY <=? 999999999) = true).
  { revert Hr. unfold MAX_US, US_PER_DAY, US_PER_SECOND.
    change (us (datetime_ 1601 1 1 utc)) with 50491123200000000. intros Hr.
    assert (- 999999999 <= c / (86400 * 1000000) <= 999999999).
    { split; [apply Z.div_le_lower_bound; lia|apply Z.div_le_upper_bound; lia]. }
    apply andb_true_intro. split; apply Z.leb_le; lia. }
  rewrite Hd. cbn [rbind]. unfold dt_add, in_range.
  destruct (Z.leb_spec 0 (us (datetime_ 1601 1 1 utc) + c)); [|lia].
  destruct (Z.ltb_spec (us (datetime_ 1601 1 1 utc) + c) MAX_US); [|lia].
  reflexivity.
Qed.

Lemma firefox_time_exact h v :
  0 <= v < 2 ^ 33 * 1000000 ->
  gmtime_ok h (v / 1000000) = true ->
  firefox_time h (VInt v) = Ok (mkdt (us (datetime_ 1970 1 1 utc) + v) utc).
Proof.
  intros Hv Hg. unfold firefox_time. cbn [truediv].
  destruct (timestamp_of_micros v Hv) as (x & E1 & E2).
  rewrite E1. cbn [rbind]. unfold fromtimestamp_utc. rewrite E2. cbn [rbind].
  rewrite Hg. cbn [negb].
  assert (Eu : (UNIX_EPOCH_DAYS * 86400 + v / 1000000) * US_PER_SECOND
               + v mod 1000000 = us (datetime_ 1970 1 1 utc) + v).
  { unfold US_PER_SECOND.
    change (us (datetime_ 1970 1 1 utc)) with (719162 * 86400 * 1000000).
    change UNIX_EPOCH_DAYS with 719162.
    pose proof (Z.div_mod v 1000000 ltac:(lia)). lia. }
  rewrite Eu. unfold in_range.
  change (2 ^ 33) with 8589934592 in Hv.
  change (us (datetime_ 1970 1 1 utc)) with 62135596800000000.
  change MAX_US with 315537897600000000.
  destruct (Z.leb_spec 0 (62135596800000000 + v)); [|lia].
  destruct (Z.ltb_spec (62135596800000000 + v) 315537897600000000); [|lia].
  reflexivity.
Qed.

End BrowserEpochFacts.

(** C5, as the code has it.  The Chrome/Edge conversion is exact on every
    value in range, in particular on 13300000000000000; the Firefox
    conversion maps 1700000000000000 to epoch(1970) plus that many
    microseconds; and a Chrome value and a Firefox value that denote the
    same instant convert to the same datetime as long as the Firefox value
    is below 2^33 seconds (year 2242). *)
Theorem browser_epochs_agree (h : host) :
  chrome_time (VInt 13300000000000000)
  = Ok (mkdt (us (datetime_ 1601 1 1 utc) + 13300000000000000) utc) /\
  (gmtime_ok h 1700000000 = true ->
   firefox_time h (VInt 1700000000000000)
   = Ok (mkdt (us (datetime_ 1970 1 1 utc) + 1700000000000000) utc)) /\
  (forall c v,
     0 <= v < 2 ^ 33 * 1000000 ->
     gmtime_ok h (v / 1000000) = true ->
     us (datetime_ 1601 1 1 utc) + c = us (datetime_ 1970 1 1 utc) + v ->
     exists d, chrome_time (VInt c) = Ok d /\ firefox_time h (VInt v) = Ok d).
Proof.
  split; [vm_compute; reflexivity|]. split.
  - intros Hg. apply firefox_time_exact; [vm_compute; split; congruence|exact Hg].
  - intros c v Hv Hg Hsame. eexists. split.
    + apply chrome_time_exact. rewrite Hsame. revert Hv.
      change (us (datetime_ 1970 1 1 utc)) with 62135596800000000.
      change MAX_US with 315537897600000000.
      change (2 ^ 33) with 8589934592. lia.
    + rewrite Hsame. apply firefox_time_exact; assumption.
Qed.

Lemma browser_epochs_agree_witness :
  firefox_time Examples.bare_host (VInt 1700000000000000)
  = Ok (mkdt (us (datetime_ 1970 1 1 utc) + 1700000000000000) utc).
Proof.
  apply (proj1 (proj2 (browser_epochs_agree Examples.bare_host))).
  reflexivity.
Defined.

(** C5 as stated does not hold for every pair: 2^33 seconds and one
    microsecond after the Unix epoch, the Firefox conversion lands on the
    next microsecond. *)
Lemma browser_epochs_disagree :
  let v := 8589934592000001 in
  let c := v + 11644473600000000 in
  us (datetime_ 1601 1 1 utc) + c = us (datetime_ 1970 1 1 utc) + v /\
  chrome_time (VInt c)
  = Ok (mkdt (us (datetime_ 1970 1 1 utc) + v) utc) /\
  firefox_time Examples.bare_host (VInt v)
  = Ok (mkdt (us (datetime_ 1970 1 1 utc) + v + 1) utc) /\
  chrome_time (VInt c) <> firefox_time Examples.bare_host (VInt v).
Proof. vm_compute. repeat split. discriminate. Qed.


(** ** Sort stage *)

Section SortFacts.

Lemma py_lt_aware x y :
  aware_key x -> aware_key y ->
  py_lt (sort_key x) (sort_key y) = Ok (timestamp_of x <? timestamp_of y).
Proof.
  intros (dx & ox & Ex & Tx) (dy & oy & Ey & Ty).
  unfold timestamp_of. rewrite Ex, Ey. cbn [py_lt].
  unfold dt_lt, dt_cmp, utc_instant. rewrite Tx, Ty. reflexivity.
Qed.

Lemma insert_desc_aware x s :
  aware_key x -> Forall aware_key s ->
  exists r, insert_desc sort_key x s = Ok r /\
            Permutation (x :: s) r /\
            Forall aware_key r /\
            (StronglySorted descending s -> StronglySorted descending r) /\
            (forall t, List.filter (at_instant t) r
                       = List.filter (at_instant t) (x :: s)).
Proof.
  intros Hx Hs. induction Hs as [|y s Hy Hs IH]; cbn [insert_desc].
  - exists [x]. split; [reflexivity|]. split; [reflexivity|].
    split; [repeat constructor; assumption|]. split; [|reflexivity].
    intros _. repeat constructor.
  - rewrite (py_lt_aware x y Hx Hy). cbn [rbind].
    destruct (Z.ltb_spec (timestamp_of x) (timestamp_of y)) as [Hlt|Hge].
    + destruct IH as (r & -> & Hp & Ha & Hsorted & Hf). cbn [rbind].
      exists (y :: r). split; [reflexivity|]. split; [|split; [|split]].
      * rewrite perm_swap. constructor. exact Hp.
      * constructor; assumption.
      * intros Hss. inversion Hss as [|? ? Hs' Hall]; subst.
        constructor; [auto|].
        rewrite <- Hp. constructor; [unfold descending; lia|assumption].
      * intros t. cbn [List.filter]. rewrite Hf. cbn [List.filter].
        destruct (at_instant t y) eqn:Ey, (at_instant t x) eqn:Ex;
          try reflexivity.
        unfold at_instant in Ey, Ex. apply Z.eqb_eq in Ey, Ex. lia.
    + exists (x :: y :: s). split; [reflexivity|]. split; [reflexivity|].
      split; [repeat constructor; assumption|]. split; [|reflexivity].
      intros Hss. constructor; [assumption|].
      inversion Hss as [|? ? Hs' Hall]; subst.
      constructor; [unfold descending; lia|].
      eapply List.Forall_impl; [|exact Hall]. unfold descending. intros; lia.
Qed.

Lemma sorted_desc_aware l :
  Forall aware_key l ->
  exists r, sorted_desc sort_key l = Ok r /\
            Permutation l r /\
            Forall aware_key r /\
            StronglySorted descending r /\
            (forall t, List.filter (at_instant t) r = List.filter (at_instant t) l).
Proof.
  induction 1 as [|x l Hx Hl IH]; cbn [sorted_desc].
  - exists []. repeat split; constructor.
  - destruct IH as (s & -> & Hp & Ha & Hs & Hf). cbn [rbind].
    destruct (insert_desc_aware x s Hx Ha) as (r & -> & Hp' & Ha' & Hs' & Hf').
    exists r. split; [reflexivity|]. split; [|split; [|split]]; auto.
    + rewrite <- Hp'. constructor. exact Hp.
    + intros t. rewrite Hf'. cbn [List.filter]. rewrite Hf. reflexivity.
Qed.

Lemma sort_findings_never_raises findings :
  exists out, sort_findings_by_timestamp findings = Ok out.
Proof.
  unfold sort_findings_by_timestamp. destruct (sorted_desc _ _); eauto.
Qed.

End SortFacts.

Section ExampleFacts.

Lemma stamped_timestamp_dt label u :
  Examples.stamped label u !! "timestamp_dt" = Some (VDatetime (mkdt u utc)).
Proof.
  unfold Examples.stamped, mkdict. cbn [list_to_map foldr uncurry fst snd].
  apply lookup_insert_eq.
Qed.

Lemma keyless_timestamp_dt : Examples.keyless !! "timestamp_dt" = None.
Proof.
  unfold Examples.keyless, mkdict. cbn [list_to_map foldr uncurry fst snd].
  rewrite lookup_insert_ne by discriminate. apply lookup_empty.
Qed.

Lemma stamped_normalized label u : normalized (Examples.stamped label u).
Proof. eexists. split; [apply stamped_timestamp_dt|reflexivity]. Qed.

Lemma stamped_timestamp_of label u : timestamp_of (Examples.stamped label u) = u.
Proof.
  unfold timestamp_of, sort_key. rewrite stamped_timestamp_dt.
  unfold utc_instant. cbn. lia.
Qed.

Lemma stamped_aware label u : aware_key (Examples.stamped label u).
Proof.
  exists (mkdt u utc), 0. unfold sort_key. rewrite stamped_timestamp_dt.
  split; reflexivity.
Qed.

Lemma keyless_aware : aware_key Examples.keyless.
Proof.
  exists (replace_tzinfo datetime_min utc), 0. unfold sort_key.
  rewrite keyless_timestamp_dt. split; reflexivity.
Qed.

End ExampleFacts.


(** C7.  On findings of the data model (a UTC [timestamp_dt] each) the sort
    returns a permutation of its input in descending order of timestamp,
    and the findings of any one timestamp come out in their input order;
    so for timestamps t1 > t2 = t2 > t3 the two t2 entries keep their
    order. *)
Theorem sort_findings_stable_descending (findings : list finding) :
  Forall normalized findings ->
  exists out,
    sort_findings_by_timestamp findings = Ok out /\
    Permutation findings out /\
    StronglySorted descending out /\
    (forall t, List.filter (at_instant t) out
               = List.filter (at_instant t) findings) /\
    (forall f1 f2 f2' f3,
       findings = [f3; f2; f1; f2'] ->
       timestamp_of f3 < timestamp_of f2 -> timestamp_of f2 = timestamp_of f2' ->
       timestamp_of f2 < timestamp_of f1 ->
       out = [f1; f2; f2'; f3]).
Proof.
  intros Hn.
  assert (Ha : Forall aware_key findings).
  { eapply List.Forall_impl; [|exact Hn].
    intros f (d & E & T). exists d, 0. unfold sort_key. rewrite E. auto. }
  destruct (sorted_desc_aware findings Ha) as (out & E & Hp & _ & Hs & Hf).
  exists out. unfold sort_findings_by_timestamp. rewrite E.
  repeat (split; [solve [auto]|]).
  intros f1 f2 f2' f3 -> H32 H22 H21.
  inversion Ha as [|? ? A3 Ha1]; subst. inversion Ha1 as [|? ? A2 Ha2]; subst.
  inversion Ha2 as [|? ? A1 Ha3]; subst. inversion Ha3 as [|? ? A2' _]; subst.
  revert E. cbn [sorted_desc insert_desc rbind].
  rewrite (py_lt_aware f1 f2' A1 A2').
  destruct (Z.ltb_spec (timestamp_of f1) (timestamp_of f2')); [lia|].
  cbn [sorted_desc insert_desc rbind].
  rewrite (py_lt_aware f2 f1 A2 A1).
  destruct (Z.ltb_spec (timestamp_of f2) (timestamp_of f1)); [|lia].
  cbn [sorted_desc insert_desc rbind].
  rewrite (py_lt_aware f2 f2' A2 A2').
  destruct (Z.ltb_spec (timestamp_of f2) (timestamp_of f2')); [lia|].
  cbn [sorted_desc insert_desc rbind].
  rewrite (py_lt_aware f3 f1 A3 A1).
  destruct (Z.ltb_spec (timestamp_of f3) (timestamp_of f1)); [|lia].
  cbn [sorted_desc insert_desc rbind].
  rewrite (py_lt_aware f3 f2 A3 A2).
  destruct (Z.ltb_spec (timestamp_of f3) (timestamp_of f2)); [|lia].
  cbn [sorted_desc insert_desc rbind].
  rewrite (py_lt_aware f3 f2' A3 A2').
  destruct (Z.ltb_spec (timestamp_of f3) (timestamp_of f2')); [|lia].
  cbn [sorted_desc insert_desc rbind]. congruence.
Qed.

Lemma sort_findings_stable_descending_witness :
  let input := [ Examples.stamped "c" 10; Examples.stamped "b1" 20;
                 Examples.stamped "a" 30; Examples.stamped "b2" 20 ] in
  Forall normalized input /\
  sort_findings_by_timestamp input
  = Ok [ Examples.stamped "a" 30; Examples.stamped "b1" 20;
         Examples.stamped "b2" 20; Examples.stamped "c" 10 ].
Proof.
  intros input.
  assert (Hn : Forall normalized input)
    by (repeat constructor; apply stamped_normalized).
  split; [exact Hn|].
  destruct (sort_findings_stable_descending input Hn)
    as (out & E & _ & _ & _ & Hex).
  rewrite E. f_equal.
  apply Hex; first [rewrite !stamped_timestamp_of; lia | reflexivity].
Defined.

Section SortTotalFacts.

Lemma strongly_sorted_lookup (l : list finding) i j a b :
  StronglySorted descending l ->
  l !! i = Some a -> l !! j = Some b -> (i < j)%nat -> descending a b.
Proof.
  intros Hs. revert i j. induction Hs as [|x l Hs IH Hall]; intros i j Hi Hj Hlt.
  - destruct i; discriminate.
  - destruct j as [|j]; [lia|]. destruct i as [|i]; cbn in Hi, Hj.
    + injection Hi as <-. rewrite List.Forall_forall in Hall. apply Hall.
      apply list_elem_of_In. eapply list_elem_of_lookup_2. exact Hj.
    + eapply IH; eauto. lia.
Qed.

End SortTotalFacts.

(** C10, as the code has it.  The sort never raises; a finding without
    [timestamp_dt] is keyed by the minimal UTC datetime; when the library
    sort fails the input list is returned as it is; and when every key is
    an aware datetime the output is in descending order, so that every
    finding whose timestamp is later than that minimal instant comes before
    every finding without [timestamp_dt], and the findings of one instant
    keep their input order: a finding without [timestamp_dt] keeps its
    place among the findings stamped with the minimal instant itself. *)
Theorem sort_findings_total :
  (forall findings, exists out, sort_findings_by_timestamp findings = Ok out) /\
  (forall f, f !! "timestamp_dt" = None ->
             sort_key f = VDatetime (replace_tzinfo datetime_min utc)) /\
  (forall findings e,
     sorted_desc sort_key findings = Raise e ->
     sort_findings_by_timestamp findings = Ok findings) /\
  (forall findings,
     Forall aware_key findings ->
     exists out,
       sort_findings_by_timestamp findings = Ok out /\
       Permutation findings out /\
       StronglySorted descending out /\
       (forall i j f g,
          out !! i = Some f -> out !! j = Some g ->
          f !! "timestamp_dt" = None ->
          utc_instant (replace_tzinfo datetime_min utc) < timestamp_of g ->
          (j < i)%nat) /\
       (forall t, List.filter (at_instant t) out
                  = List.filter (at_instant t) findings) /\
       (forall f, f !! "timestamp_dt" = None ->
                  at_instant (utc_instant (replace_tzinfo datetime_min utc)) f
                  = true)).
Proof.
  split; [apply sort_findings_never_raises|]. split; [|split].
  - intros f Hf. unfold sort_key. rewrite Hf. reflexivity.
  - intros findings e E. unfold sort_findings_by_timestamp. rewrite E.
    reflexivity.
  - intros findings Ha.
    destruct (sorted_desc_aware findings Ha) as (out & E & Hp & _ & Hs & Hst).
    exists out. unfold sort_findings_by_timestamp. rewrite E.
    repeat (split; [solve [auto]|]).
    split; [|split; [exact Hst|]].
    + intros i j f g Hi Hj Hf Hg.
      assert (Tf : timestamp_of f = 0).
      { unfold timestamp_of, sort_key. rewrite Hf. reflexivity. }
      change (utc_instant (replace_tzinfo datetime_min utc)) with 0 in Hg.
      destruct (Nat.lt_trichotomy i j) as [Hlt|[->|Hgt]]; [| |exact Hgt].
      * pose proof (strongly_sorted_lookup out i j f g Hs Hi Hj Hlt) as Hd.
        unfold descending in Hd. lia.
      * rewrite Hi in Hj. injection Hj as ->. lia.
    + intros f Hf. unfold at_instant, timestamp_of, sort_key. rewrite Hf.
      reflexivity.
Qed.

Lemma sort_findings_total_witness :
  exists out,
    sort_findings_by_timestamp [ Examples.keyless; Examples.stamped "a" 30 ]
    = Ok out /\
    Permutation [ Examples.keyless; Examples.stamped "a" 30 ] out.
Proof.
  destruct (proj2 (proj2 (proj2 sort_findings_total))
              [ Examples.keyless; Examples.stamped "a" 30 ])
    as (out & E & Hp & _).
  - repeat constructor; [apply keyless_aware|apply stamped_aware].
  - exists out. split; assumption.
Defined.

(** C10 as stated does not hold: a finding stamped with the minimal UTC
    datetime ties with a finding that has no [timestamp_dt], and the latter
    stays in front of it. *)
Lemma sort_keyless_before_stamped :
  Examples.keyless !! "timestamp_dt" = None /\
  Examples.stamped "min" 0 !! "timestamp_dt"
  = Some (VDatetime (replace_tzinfo datetime_min utc)) /\
  sort_findings_by_timestamp [ Examples.keyless; Examples.stamped "min" 0 ]
  = Ok [ Examples.keyless; Examples.stamped "min" 0 ].
Proof.
  split; [apply keyless_timestamp_dt|]. split; [apply stamped_timestamp_dt|].
  unfold sort_findings_by_timestamp. cbn [sorted_desc insert_desc rbind].
  rewrite (py_lt_aware _ _ keyless_aware (stamped_aware "min" 0)).
  rewrite stamped_timestamp_of. reflexivity.
Qed.


(** ** Reasoning about collectors *)

Section CollectLogic.

Variable P : finding -> Prop.

Lemma emits_ret {A} (a : A) (Q : A -> Prop) : Q a -> emits P (ret a) Q.
Proof. intros Ha st Hst. split; [exact Hst|]. cbn. intros ? [= <-]. exact Ha. Qed.

Lemma emits_pass : emits P pass (fun _ => True).
Proof. apply emits_ret. exact I. Qed.

Lemma emits_lift {A} (r : result A) : emits P (lift r) (fun a => r = Ok a).
Proof. intros st Hst. split; [exact Hst|]. cbn. auto. Qed.

Lemma emits_bind {A B} (m : M A) (k : A -> M B) Q R :
  emits P m Q -> (forall a, Q a -> emits P (k a) R) -> emits P (bind m k) R.
Proof.
  intros Hm Hk st Hst. unfold bind. destruct (Hm st Hst) as [H1 H2].
  destruct (m st) as [[a|e] st']; cbn in *.
  - apply Hk; auto.
  - split; [exact H1|discriminate].
Qed.

Lemma emits_weaken {A} (m : M A) (Q Q' : A -> Prop) :
  emits P m Q -> (forall a, Q a -> Q' a) -> emits P m Q'.
Proof. intros Hm HQ st Hst. destruct (Hm st Hst). split; auto. Qed.

Lemma emits_append f : P f -> emits P (append f) (fun _ => True).
Proof.
  intros Hf st Hst. split; [|auto]. cbn.
  apply Forall_app. split; [exact Hst|]. repeat constructor. exact Hf.
Qed.

Lemma emits_try_except {A} (m : M A) handles handler Q :
  emits P m Q -> emits P handler Q -> emits P (try_except m handles handler) Q.
Proof.
  intros Hm Hh st Hst. unfold try_except. destruct (Hm st Hst) as [H1 H2].
  destruct (m st) as [[a|e] st']; cbn in *.
  - split; auto.
  - destruct (handles e); [apply Hh; exact H1|]. split; [exact H1|discriminate].
Qed.

Lemma emits_for_each {A} (body : A -> M unit) items :
  (forall x, emits P (body x) (fun _ => True)) ->
  emits P (for_each body items) (fun _ => True).
Proof.
  intros Hb. induction items as [|x items IH]; cbn [for_each].
  - apply emits_pass.
  - eapply emits_bind; [apply Hb|]. intros; exact IH.
Qed.

Lemma emits_enum_loop {A} (body : A -> M unit) items :
  (forall x, emits P (body x) (fun _ => True)) ->
  emits P (enum_loop body items) (fun _ => True).
Proof.
  intros Hb. induction items as [|x items IH]; cbn [enum_loop].
  - apply emits_pass.
  - intros st Hst. destruct (Hb x st Hst) as [H1 _].
    destruct (body x st) as [[a|e] st']; cbn in *.
    + apply IH. exact H1.
    + destruct (is_OSError e); split; auto; discriminate.
Qed.

Lemma emits_run (m : M unit) Q fs :
  emits P m Q -> run m = Ok fs -> Forall P fs.
Proof.
  intros Hm. unfold run. destruct (Hm [] (List.Forall_nil _)) as [H1 _].
  destruct (m []) as [[a|e] st]; cbn in *; [|discriminate].
  intros [= <-]. exact H1.
Qed.

End CollectLogic.

Section CollectorInvariant.

Variable w : TriageWindow.

Lemma stamped_dict d a s de dt :
  is_within_window w (Some d) = Ok true ->
  emitted_ok w
    (mkdict [ ("timestamp", VStr (strftime d TS_FORMAT));
              ("timestamp_dt", VDatetime d);
              ("artifact_type", a); ("source", s);
              ("description", de); ("details", dt) ]).
Proof.
  intros Hin. unfold mkdict. cbn [list_to_map foldr uncurry fst snd]. split.
  - exists d. split; [|split; [|exact Hin]].
    + rewrite lookup_insert_ne by discriminate. apply lookup_insert_eq.
    + apply lookup_insert_eq.
  - unfold FIELDS. repeat constructor;
      rewrite ?lookup_insert_ne by discriminate;
      rewrite lookup_insert_eq; eauto.
Qed.

Lemma emits_some_within dt :
  emits (emitted_ok w) (some_within w dt)
    (fun b => b = true ->
              exists d, dt = Some d /\ is_within_window w (Some d) = Ok true).
Proof.
  destruct dt as [d|]; cbn [some_within].
  - eapply emits_weaken; [apply emits_lift|]. intros b E ->. eauto.
  - apply emits_ret. discriminate.
Qed.

End CollectorInvariant.

Ltac emit_step :=
  first
    [ apply emits_pass
    | apply emits_try_except
    | apply emits_for_each; intros ?
    | apply emits_enum_loop; intros ?
    | eapply emits_bind; [apply emits_some_within | intros ? ?]
    | eapply emits_bind; [apply emits_lift | intros ? ?]
    | progress cbv zeta
    | match goal with
      | |- Collect.emits _ (if ?b then _ else _) _ => destruct b eqn:?
      | |- Collect.emits _ (match ?x with _ => _ end) _ => destruct x eqn:?
      end ].

Ltac emit_append :=
  apply emits_append; apply stamped_dict;
  match goal with
  | H : ?x = Ok true |- ?x = Ok true => exact H
  | H : true = true -> exists d, Some ?d0 = Some d /\ _ |- _ =>
      destruct (H eq_refl) as (? & [= <-] & ?); assumption
  | _ => congruence
  end.

Ltac emit := repeat (first [emit_step | emit_append]).

Section CollectorsStamped.

Variables (h : host) (w : TriageWindow).

Lemma parse_userassist_stamped fs :
  parse_userassist h w = Ok fs -> Forall (emitted_ok w) fs.
Proof.
  apply emits_run with (Q := fun _ => True). unfold userassist_value. emit.
Qed.

Lemma parse_prefetch_stamped fs :
  parse_prefetch h w = Ok fs -> Forall (emitted_ok w) fs.
Proof.
  apply emits_run with (Q := fun _ => True). unfold prefetch_file. emit.
Qed.

Lemma parse_recent_files_stamped fs :
  parse_recent_files h w = Ok fs -> Forall (emitted_ok w) fs.
Proof.
  apply emits_run with (Q := fun _ => True). unfold recent_file. emit.
Qed.

Lemma parse_recentdocs_stamped fs :
  parse_recentdocs h w = Ok fs -> Forall (emitted_ok w) fs.
Proof.
  apply emits_run with (Q := fun _ => True).
  unfold recentdocs_extension, recentdocs_value. emit.
Qed.

Lemma parse_usb_devices_stamped fs :
  parse_usb_devices h w = Ok fs -> Forall (emitted_ok w) fs.
Proof.
  apply emits_run with (Q := fun _ => True).
  unfold usb_device, usb_instance. emit.
Qed.

Lemma parse_powershell_history_stamped fs :
  parse_powershell_history h w = Ok fs -> Forall (emitted_ok w) fs.
Proof. apply emits_run with (Q := fun _ => True). emit. Qed.

Lemma parse_runmru_stamped fs :
  parse_runmru h w = Ok fs -> Forall (emitted_ok w) fs.
Proof.
  apply emits_run with (Q := fun _ => True). unfold runmru_value. emit.
Qed.

Lemma parse_typed_paths_stamped fs :
  parse_typed_paths h w = Ok fs -> Forall (emitted_ok w) fs.
Proof.
  apply emits_run with (Q := fun _ => True). unfold typed_paths_value. emit.
Qed.

Lemma firefox_profiles_emits dirs :
  emits (emitted_ok w) (firefox_profiles h w dirs) (fun _ => True).
Proof.
  induction dirs as [|dir dirs IH]; cbn [firefox_profiles]; [apply emits_pass|].
  eapply emits_bind; [apply emits_lift|]. intros present _.
  destruct present; cbn [negb]; [|exact IH].
  unfold firefox_history_row. emit.
Qed.

Lemma parse_browser_history_stamped fs :
  parse_browser_history h w = Ok fs -> Forall (emitted_ok w) fs.
Proof.
  apply emits_run with (Q := fun _ => True).
  destruct (getenv_nonempty h "LOCALAPPDATA"); [|apply emits_pass].
  destruct (getenv_nonempty h "APPDATA"); [|apply emits_pass].
  eapply emits_bind.
  - apply emits_for_each. intros [name path].
    unfold chromium_history, chromium_history_row. emit.
  - intros _ _. apply emits_try_except; [|apply emits_pass].
    eapply emits_bind; [apply emits_lift|]. intros present _.
    destruct present; [apply firefox_profiles_emits|apply emits_pass].
Qed.

Lemma parse_downloads_stamped fs :
  parse_downloads h w = Ok fs -> Forall (emitted_ok w) fs.
Proof.
  apply emits_run with (Q := fun _ => True).
  destruct (getenv_nonempty h "LOCALAPPDATA"); [|apply emits_pass].
  apply emits_for_each. intros [name path].
  unfold chromium_downloads, downloads_row. emit.
Qed.

(** Every collector of the fixed list keeps the invariant. *)
Lemma collectors_stamped name p fs :
  In (name, p) (collectors h) -> p w = Ok fs -> Forall (emitted_ok w) fs.
Proof.
  unfold collectors. cbn [In].
  intros [E|[E|[E|[E|[E|[E|[E|[E|[E|[E|[]]]]]]]]]]]; injection E as _ <-.
  - apply parse_userassist_stamped.
  - apply parse_prefetch_stamped.
  - apply parse_recent_files_stamped.
  - apply parse_usb_devices_stamped.
  - apply parse_powershell_history_stamped.
  - apply parse_browser_history_stamped.
  - apply parse_downloads_stamped.
  - apply parse_recentdocs_stamped.
  - apply parse_typed_paths_stamped.
  - apply parse_runmru_stamped.
Qed.

End CollectorsStamped.


Section NullTimestamp.

Lemma slice_length {A} (l : list A) i j :
  (j <= length l)%nat -> length (slice i j l) = (j - i)%nat.
Proof.
  intros H. unfold slice. rewrite length_firstn, length_skipn. lia.
Qed.

(** A UserAssist value whose last-run FILETIME does not resolve leaves the
    list of findings as it is. *)
Lemma userassist_null_skipped w name b st :
  (72 <= length b)%nat ->
  filetime_to_datetime (VInt (le_uint (slice 60 68 b))) = Ok None ->
  userassist_value w (name, VBytes b) st = (Ok tt, st).
Proof.
  intros Hlen Hnull. unfold userassist_value, bind, lift. cbn [py_len].
  destruct (Z.leb_spec 72 (Z.of_nat (length b))); [|lia].
  cbn [py_slice struct_unpack_le].
  rewrite !slice_length by lia. cbn [Nat.sub Nat.eqb].
  rewrite Hnull. reflexivity.
Qed.

Lemma runmru_null_skipped h w key :
  reg_open h HKEY_CURRENT_USER runmru_path = Ok key ->
  filetime_to_datetime (VInt (last_modified key)) = Ok None ->
  parse_runmru h w = Ok [].
Proof.
  intros Hk Hnull. unfold parse_runmru, run, try_except, bind, lift.
  rewrite Hk, Hnull. reflexivity.
Qed.

End NullTimestamp.

(** C6.  Every finding returned by a collector of the fixed list carries a
    datetime under [timestamp_dt] that satisfies the window predicate; a
    record whose timestamp resolves to [None] adds nothing, whatever its
    other fields (shown on a UserAssist value and on the RunMRU key). *)
Theorem findings_inside_window (h : host) (w : TriageWindow) :
  (forall name p fs,
     In (name, p) (collectors h) -> p w = Ok fs ->
     Forall (fun f => exists d,
               f !! "timestamp_dt" = Some (VDatetime d) /\
               is_within_window w (Some d) = Ok true) fs) /\
  (forall name b st,
     (72 <= length b)%nat ->
     filetime_to_datetime (VInt (le_uint (slice 60 68 b))) = Ok None ->
     userassist_value w (name, VBytes b) st = (Ok tt, st)) /\
  (forall key,
     reg_open h HKEY_CURRENT_USER runmru_path = Ok key ->
     filetime_to_datetime (VInt (last_modified key)) = Ok None ->
     parse_runmru h w = Ok []).
Proof.
  split; [|split].
  - intros name p fs Hin Hp.
    eapply List.Forall_impl; [|exact (collectors_stamped h w name p fs Hin Hp)].
    intros f [(d & Hdt & _ & Hw) _]. eauto.
  - intros. apply userassist_null_skipped; assumption.
  - intros. eapply runmru_null_skipped; eassumption.
Qed.


Section SinkFacts.

(** The CSV sink copies [timestamp] into the UTC column as it is. *)
Lemma csv_row_copies_timestamp tz off f row :
  csv_row tz off f = Ok row ->
  exists v rest, f !! "timestamp" = Some v /\ row = ("Timestamp (UTC)", v) :: rest.
Proof.
  unfold csv_row, getitem.
  destruct (f !! "timestamp") as [v|]; cbn [rbind]; [|discriminate].
  destruct (f !! "artifact_type"); cbn [rbind]; [|discriminate].
  destruct (f !! "source"); cbn [rbind]; [|discriminate].
  destruct (f !! "description"); cbn [rbind]; [|discriminate].
  destruct (f !! "details"); cbn [rbind]; [|discriminate].
  intros [= <-]. eauto.
Qed.

Lemma csv_row_emitted w tz off f :
  emitted_ok w f -> exists row, csv_row tz off f = Ok row.
Proof.
  intros [_ Hk]. unfold FIELDS in Hk.
  repeat match goal with
         | H : Forall _ (_ :: _) |- _ => apply Forall_cons in H as [[? ?] H]
         end.
  unfold csv_row, getitem.
  repeat match goal with H : f !! _ = Some _ |- _ => rewrite H; clear H end.
  cbn [rbind]. eauto.
Qed.

End SinkFacts.

(** C9.  In every finding returned by a collector of the fixed list the
    [timestamp] string is the [timestamp_dt] datetime formatted with
    ['%Y-%m-%d %H:%M:%S UTC']; the CSV sink writes that string into its UTC
    column without looking at [timestamp_dt], for any dictionary. *)
Theorem timestamp_fields_consistent (h : host) (w : TriageWindow) :
  (forall name p fs,
     In (name, p) (collectors h) -> p w = Ok fs ->
     Forall (fun f => exists d,
               f !! "timestamp_dt" = Some (VDatetime d) /\
               f !! "timestamp"
               = Some (VStr (strftime d "%Y-%m-%d %H:%M:%S UTC")) /\
               forall tz off, exists rest,
                 csv_row tz off f
                 = Ok (("Timestamp (UTC)",
                        VStr (strftime d "%Y-%m-%d %H:%M:%S UTC")) :: rest))
            fs) /\
  (forall tz off f row,
     csv_row tz off f = Ok row ->
     exists v rest,
       f !! "timestamp" = Some v /\ row = ("Timestamp (UTC)", v) :: rest).
Proof.
  split; [|intros; eapply csv_row_copies_timestamp; eassumption].
  intros name p fs Hin Hp.
  eapply List.Forall_impl; [|exact (collectors_stamped h w name p fs Hin Hp)].
  intros f Hf. pose proof Hf as [(d & Hdt & Hts & _) _].
  exists d. split; [exact Hdt|]. split; [exact Hts|].
  intros tz off. destruct (csv_row_emitted w tz off f Hf) as [row Hrow].
  destruct (csv_row_copies_timestamp _ _ _ _ Hrow) as (v & rest & Hv & ->).
  exists rest. rewrite Hrow. change TS_FORMAT with "%Y-%m-%d %H:%M:%S UTC" in Hts.
  congruence.
Qed.



(** ** Orchestrator *)

Section OrchestratorFacts.

Variables (argv : list string) (w : TriageWindow).

Lemma collect_step_spec acc c :
  collect_step argv w acc c
  = (fst acc ++ contribution w c, snd acc ++ narration argv w c).
Proof.
  destruct acc as [fs out], c as [name f].
  unfold collect_step, contribution, narration. cbn [fst snd].
  destruct (f w) as [[|r rs]|e]; rewrite ?app_nil_r; reflexivity.
Qed.

Lemma collect_fold cs acc :
  fold_left (collect_step argv w) cs acc
  = (fst acc ++ flat_map (contribution w) cs,
     snd acc ++ flat_map (narration argv w) cs).
Proof.
  revert acc. induction cs as [|c cs IH]; intros acc; cbn [fold_left flat_map].
  - rewrite !app_nil_r. destruct acc; reflexivity.
  - rewrite IH, collect_step_spec. cbn [fst snd]. rewrite <- !app_assoc.
    reflexivity.
Qed.

Lemma collect_from_spec cs :
  collect_from argv cs w
  = (flat_map (contribution w) cs, flat_map (narration argv w) cs).
Proof. unfold collect_from. rewrite collect_fold. reflexivity. Qed.

End OrchestratorFacts.

(** C2.  The orchestrator returns, in list order, the findings of the
    collectors that returned, and prints one [Collecting] line per
    collector: each is called once.  A collector that raises adds nothing
    and stops nothing: the result is that of the list without it, and it
    contains the findings of every other collector; its error is printed,
    followed by its details when [--verbose] is on the command line.  The
    fixed list has ten entries. *)
Theorem collect_all_isolates_faults (argv : list string) (w : TriageWindow) :
  (forall cs,
     collect_from argv cs w
     = (flat_map (contribution w) cs, flat_map (narration argv w) cs)) /\
  (forall before name f after e,
     f w = Raise e ->
     fst (collect_from argv (before ++ (name, f) :: after) w)
     = fst (collect_from argv before w) ++ fst (collect_from argv after w) /\
     snd (collect_from argv (before ++ (name, f) :: after) w)
     = snd (collect_from argv before w)
       ++ ([Collecting name; Error e]
           ++ (if verbose argv then [Details e] else []))
       ++ snd (collect_from argv after w) /\
     (forall n g r,
        In (n, g) (before ++ after) -> g w = Ok r ->
        incl r (fst (collect_from argv (before ++ (name, f) :: after) w)))) /\
  (forall h,
     collect_all_artifacts argv h w = collect_from argv (collectors h) w /\
     map fst (collectors h)
     = [ "UserAssist"; "Prefetch"; "Recent Files"; "USB Devices";
         "PowerShell History"; "Browser History"; "Downloads"; "RecentDocs";
         "TypedPaths"; "RunMRU" ]).
Proof.
  split; [apply collect_from_spec|]. split; [|intros h; split; reflexivity].
  intros before name f after e Hf.
  assert (Hc : contribution w (name, f) = [])
    by (unfold contribution; cbn [snd]; rewrite Hf; reflexivity).
  assert (Hn : narration argv w (name, f)
               = [Collecting name; Error e]
                 ++ (if verbose argv then [Details e] else []))
    by (unfold narration; cbn [fst snd]; rewrite Hf; reflexivity).
  rewrite !collect_from_spec. cbn [fst snd].
  rewrite !flat_map_app. cbn [flat_map]. rewrite Hc, Hn. cbn [app].
  split; [reflexivity|]. split; [reflexivity|].
  intros n g r Hin Hg x Hx.
  rewrite <- flat_map_app. apply in_flat_map. exists (n, g).
  split; [exact Hin|]. unfold contribution. cbn [snd]. rewrite Hg. exact Hx.
Qed.

Lemma collect_all_isolates_faults_witness :
  fst (collect_from ["tracefinder.py"]
         [ ("RunMRU", parse_runmru Examples.runmru_host);
           ("Broken", Examples.faulty);
           ("TypedPaths", parse_typed_paths Examples.runmru_host) ]
         Examples.window)
  = fst (collect_from ["tracefinder.py"]
           [ ("RunMRU", parse_runmru Examples.runmru_host) ]
           Examples.window)
    ++ fst (collect_from ["tracefinder.py"]
              [ ("TypedPaths", parse_typed_paths Examples.runmru_host) ]
              Examples.window).
Proof.
  exact (proj1 (proj1 (proj2 (collect_all_isolates_faults ["tracefinder.py"]
                                Examples.window))
                  [ ("RunMRU", parse_runmru Examples.runmru_host) ]
                  "Broken" Examples.faulty
                  [ ("TypedPaths", parse_typed_paths Examples.runmru_host) ]
                  OSError eq_refl)).
Defined.


(** ** RunMRU *)

Section RunMRUFacts.

Lemma chars_append a b : chars (a +:+ b) = chars a ++ chars b.
Proof. induction a as [|c a IH]; simpl; [reflexivity|]. rewrite IH. reflexivity. Qed.

Lemma of_chars_chars s : of_chars (chars s) = s.
Proof. induction s as [|c s IH]; simpl; [reflexivity|]. rewrite IH. reflexivity. Qed.

Lemma rstrip_chars_drop keep l s :
  forallb (fun c => negb (keep c)) s = true ->
  rstrip_chars keep (l ++ s) = rstrip_chars keep l.
Proof.
  intros Hs. induction l as [|c l IH]; cbn [app rstrip_chars].
  - induction s as [|x s IHs]; [reflexivity|]. cbn in Hs.
    apply andb_true_iff in Hs as [Hx Hs]. cbn [rstrip_chars].
    rewrite (IHs Hs). destruct (keep x); [discriminate|reflexivity].
  - rewrite IH. reflexivity.
Qed.

Lemma rstrip_chars_kept keep l :
  match rev l with [] => true | x :: _ => keep x end = true ->
  rstrip_chars keep l = l.
Proof.
  induction l as [|c l IH]; [reflexivity|]. cbn [rev rstrip_chars]. intros H.
  destruct l as [|d l].
  - cbn in *. rewrite H. reflexivity.
  - rewrite IH.
    + reflexivity.
    + cbn [rev] in *. destruct (rev l ++ [d]) eqn:E; [|exact H].
      destruct (rev l); discriminate.
Qed.

(** Stripping gives back a command that did not end like the marker. *)
Lemma rstrip_marker c :
  clean_command c = true -> rstrip (c +:+ "\1") "\1" = c.
Proof.
  intros Hc. unfold rstrip. rewrite chars_append, rstrip_chars_drop.
  - rewrite rstrip_chars_kept, of_chars_chars; [reflexivity|].
    unfold clean_command in Hc. destruct (rev (chars c)); [reflexivity|].
    rewrite Hc. reflexivity.
  - reflexivity.
Qed.

Variable key_modified : datetime.

Lemma runmru_loop values st :
  Forall (fun entry => exists s, snd entry = VStr s) values ->
  enum_loop (runmru_value key_modified) values st
  = (Ok tt, st ++ flat_map (runmru_out key_modified) values).
Proof.
  intros Hv. revert st.
  induction Hv as [|[name data] values (s & Hs) Hv IH]; intros st;
    cbn [enum_loop flat_map].
  - rewrite app_nil_r. reflexivity.
  - cbn [snd] in Hs. subst data.
    unfold runmru_value at 1, runmru_out at 1, runmru_emitted.
    cbn [fst snd]. destruct (_ && _).
    + unfold bind, lift, append. cbn [py_rstrip]. rewrite IH.
      rewrite <- app_assoc. reflexivity.
    + unfold pass, ret. rewrite IH. reflexivity.
Qed.

Lemma runmru_out_filter values :
  Forall (fun entry => exists s, snd entry = VStr s) values ->
  Forall2 (fun entry f => exists s, snd entry = VStr s /\
                                     f = runmru_finding key_modified (fst entry) s)
    (List.filter runmru_emitted values) (flat_map (runmru_out key_modified) values).
Proof.
  induction 1 as [|[name data] values (s & Hs) Hv IH]; cbn [List.filter flat_map].
  - constructor.
  - cbn [snd] in Hs. subst data. unfold runmru_out at 1. cbn [fst snd].
    destruct (runmru_emitted _); [|exact IH].
    cbn [app]. constructor; [|exact IH]. exists s. split; reflexivity.
Qed.

End RunMRUFacts.


Section RunMRUFindings.

Variables (km : datetime) (name s : string).

Lemma runmru_finding_fields :
  runmru_finding km name s !! "timestamp_dt" = Some (VDatetime km) /\
  runmru_finding km name s !! "artifact_type" = Some (VStr "Command Line") /\
  runmru_finding km name s !! "source" = Some (VStr "RunMRU") /\
  runmru_finding km name s !! "description" = Some (VStr (rstrip s "\1")) /\
  runmru_finding km name s !! "details" = Some (VStr ("Entry: " +:+ name)).
Proof.
  unfold runmru_finding, mkdict. cbn [list_to_map foldr uncurry fst snd].
  repeat split; rewrite ?lookup_insert_ne by discriminate;
    apply lookup_insert_eq.
Qed.

End RunMRUFindings.

Lemma parse_runmru_eval h w key km :
  reg_open h HKEY_CURRENT_USER runmru_path = Ok key ->
  filetime_to_datetime (VInt (last_modified key)) = Ok (Some km) ->
  is_within_window w (Some km) = Ok true ->
  Forall (fun entry => exists s, snd entry = VStr s) (reg_values key) ->
  parse_runmru h w = Ok (flat_map (runmru_out km) (reg_values key)).
Proof.
  intros Hk Hft Hin Hv.
  unfold parse_runmru, some_within, run, try_except, bind, lift.
  rewrite Hk, Hft, Hin. cbv beta iota.
  rewrite (runmru_loop km _ _ Hv). reflexivity.
Qed.

(** C8, as the code has it.  With the RunMRU key open, its last write
    inside the window and string data in every value, the parser returns
    one finding for each value that is not [MRUList] and whose data is
    not empty, in order, labelled RunMRU / Command Line; when the data is a
    command followed by the marker [\1], and the command does not itself
    end with a backslash or a [1], the description is that command.  For
    the values a = C:\tool.exe\1 and MRUList = a this is the single finding
    described by C:\tool.exe. *)
Theorem parse_runmru_spec (h : host) (w : TriageWindow) (key : reg_key)
    (km : datetime) :
  reg_open h HKEY_CURRENT_USER runmru_path = Ok key ->
  filetime_to_datetime (VInt (last_modified key)) = Ok (Some km) ->
  is_within_window w (Some km) = Ok true ->
  Forall (fun entry => exists s, snd entry = VStr s) (reg_values key) ->
  exists fs,
    parse_runmru h w = Ok fs /\
    Forall2
      (fun entry f =>
         fst entry <> "MRUList" /\
         f !! "source" = Some (VStr "RunMRU") /\
         f !! "artifact_type" = Some (VStr "Command Line") /\
         f !! "timestamp_dt" = Some (VDatetime km) /\
         f !! "details" = Some (VStr ("Entry: " +:+ fst entry)) /\
         exists cmd,
           f !! "description" = Some (VStr cmd) /\
           forall c, snd entry = VStr (c +:+ "\1") ->
                     clean_command c = true -> cmd = c)
      (List.filter runmru_emitted (reg_values key)) fs /\
    (reg_values key = [ ("a", VStr "C:\tool.exe\1"); ("MRUList", VStr "a") ] ->
     exists f,
       fs = [f] /\
       f !! "description" = Some (VStr "C:\tool.exe") /\
       f !! "source" = Some (VStr "RunMRU") /\
       f !! "artifact_type" = Some (VStr "Command Line")).
Proof.
  intros Hk Hft Hin Hv.
  exists (flat_map (runmru_out km) (reg_values key)).
  split; [apply parse_runmru_eval; assumption|]. split.
  - pose proof (runmru_out_filter km _ Hv) as HF.
    assert (Hname : Forall (fun entry => fst entry <> "MRUList")
                      (List.filter runmru_emitted (reg_values key))).
    { apply List.Forall_forall. intros entry Hentry.
      apply List.filter_In in Hentry as [_ He]. unfold runmru_emitted in He.
      apply andb_true_iff in He as [He _]. intros E. rewrite E in He.
      discriminate. }
    revert Hname. induction HF as [|entry f es fs' (s & Hs & ->) HF IH];
      intros Hname; [constructor|].
    inversion Hname as [|? ? Hn Hname']; subst.
    constructor; [|apply IH; assumption].
    destruct (runmru_finding_fields km (fst entry) s)
      as (Hdt & Hat & Hsrc & Hdesc & Hdet).
    repeat (split; [assumption|]).
    exists (rstrip s "\1"). split; [exact Hdesc|].
    intros c Hc Hclean. rewrite Hs in Hc. injection Hc as ->.
    apply rstrip_marker. exact Hclean.
  - intros ->. cbn [flat_map]. unfold runmru_out at 1 2. cbn [fst snd].
    change (runmru_emitted ("a", VStr "C:\tool.exe\1")) with true.
    change (runmru_emitted ("MRUList", VStr "a")) with false.
    cbn [app]. eexists. split; [reflexivity|].
    destruct (runmru_finding_fields km "a" "C:\tool.exe\1")
      as (_ & Hat & Hsrc & Hdesc & _).
    repeat split; assumption.
Qed.

Lemma parse_runmru_spec_witness :
  exists f,
    parse_runmru Examples.runmru_host Examples.window = Ok [f] /\
    f !! "description" = Some (VStr "C:\tool.exe").
Proof.
  destruct (parse_runmru_spec Examples.runmru_host Examples.window
              Examples.runmru_key Examples.eleven)
    as (fs & E & _ & Hex).
  - reflexivity.
  - vm_compute. reflexivity.
  - vm_compute. reflexivity.
  - repeat constructor; eexists; reflexivity.
  - destruct (Hex eq_refl) as (f & -> & Hd & _). exists f. split; assumption.
Defined.

(** C8 as stated does not hold: a value with empty data is passed over,
    so a key holding one value beside [MRUList] can yield no finding. *)
Lemma runmru_empty_value_skipped :
  reg_open Examples.runmru_empty_host HKEY_CURRENT_USER runmru_path
  = Ok (mkKey [] [ ("a", VStr ""); ("MRUList", VStr "a") ]
          (Examples.filetime_of 2024 6 1 11)) /\
  filetime_to_datetime (VInt (Examples.filetime_of 2024 6 1 11))
  = Ok (Some Examples.eleven) /\
  is_within_window Examples.window (Some Examples.eleven) = Ok true /\
  parse_runmru Examples.runmru_empty_host Examples.window = Ok [].
Proof. vm_compute. repeat split. Qed.


(** ** Fail-closed contract *)

Section TotalFacts.






End TotalFacts.


Section CollectorsTotal.

Variables (h : host) (w : TriageWindow).






End CollectorsTotal.


(** ** What a parser returns after a failure *)

Section PartialResults.





Variables (h : host) (w : TriageWindow).














End PartialResults.




Lemma findings_inside_window_witness :
  Forall (fun f => exists d,
            f !! "timestamp_dt" = Some (VDatetime d) /\
            is_within_window Examples.window (Some d) = Ok true)
    [ runmru_finding Examples.eleven "a" "C:\tool.exe\1" ].
Proof.
  apply (proj1 (findings_inside_window Examples.runmru_host Examples.window)
           "RunMRU" (parse_runmru Examples.runmru_host)).
  - cbn. tauto.
  - cbv -[mkdict]. reflexivity.
Defined.

Lemma timestamp_fields_consistent_witness :
  Forall (fun f => exists d,
            f !! "timestamp_dt" = Some (VDatetime d) /\
            f !! "timestamp"
            = Some (VStr (strftime d "%Y-%m-%d %H:%M:%S UTC")) /\
            forall tz off, exists rest,
              csv_row tz off f
              = Ok (("Timestamp (UTC)",
                     VStr (strftime d "%Y-%m-%d %H:%M:%S UTC")) :: rest))
    [ runmru_finding Examples.eleven "a" "C:\tool.exe\1" ].
Proof.
  apply (proj1 (timestamp_fields_consistent Examples.runmru_host
                  Examples.window)
           "RunMRU" (parse_runmru Examples.runmru_host)).
  - cbn. tauto.
  - cbv -[mkdict]. reflexivity.
Defined.

(* ===================================================================== *)
(** * Further properties of the collectors and the reporters *)
(* ===================================================================== *)

(** ** The collected findings through the sort *)

Section ZoneFacts.

Lemma filetime_utc v d : filetime_to_datetime v = Ok (Some d) -> tzinfo d = utc.
Proof.
  unfold filetime_to_datetime, filetime_to_datetime_try.
  destruct (is_none_or_zero v); [discriminate|].
  destruct (truediv v _) as [x|e1]; cbn [rbind]; [|destruct e1; discriminate].
  destruct (timedelta_seconds x) as [delta|e2]; cbn [rbind];
    [|destruct e2; discriminate].
  destruct (dt_add _ delta) as [t|e3] eqn:E3; cbn [rbind];
    [|destruct e3; discriminate].
  intros [= <-]. apply dt_add_ok in E3 as [-> _]. reflexivity.
Qed.

Lemma fromtimestamp_utc_zone g x d :
  fromtimestamp_utc g x = Ok d -> tzinfo d = utc.
Proof.
  unfold fromtimestamp_utc.
  destruct (timestamp_to_timeval x) as [[sec usec]|e]; cbn [rbind];
    [|discriminate].
  destruct (g sec); cbn [negb]; [|discriminate].
  destruct (in_range _); [|discriminate]. intros [= <-]. reflexivity.
Qed.

Lemma chrome_time_zone v d : chrome_time v = Ok d -> tzinfo d = utc.
Proof.
  unfold chrome_time.
  destruct (timedelta_microseconds_of v) as [delta|e]; cbn [rbind];
    [|discriminate].
  intros E. apply dt_add_ok in E as [-> _]. reflexivity.
Qed.

Lemma firefox_time_zone h v d : firefox_time h v = Ok d -> tzinfo d = utc.
Proof.
  unfold firefox_time.
  destruct (truediv v 1000000) as [x|e]; cbn [rbind]; [|discriminate].
  apply fromtimestamp_utc_zone.
Qed.

Lemma dt_max_zone a b d :
  tzinfo a = utc -> tzinfo b = utc -> dt_max a b = Ok d -> tzinfo d = utc.
Proof.
  intros Ha Hb. unfold dt_max. destruct (dt_lt a b) as [[|]|e]; cbn [rbind];
    congruence.
Qed.

Lemma get_device_install_time_zone h p d :
  get_device_install_time h p = Ok (Some d) -> tzinfo d = utc.
Proof.
  unfold get_device_install_time.
  destruct (reg_open h _ _) as [k|e]; cbn [rbind].
  2:{ destruct (is_OSError e); discriminate. }
  destruct (query_value k "") as [data|e]; cbn [rbind].
  2:{ destruct (is_OSError e); discriminate. }
  destruct data; try discriminate.
  destruct (Nat.leb 8 (length b)); [|discriminate].
  destruct (struct_unpack_le 8 _) as [ft|e]; cbn [rbind].
  2:{ destruct (is_OSError e); discriminate. }
  destruct (filetime_to_datetime (VInt ft)) as [r|e] eqn:E.
  2:{ destruct (is_OSError e); discriminate. }
  intros [= ->]. eapply filetime_utc; eassumption.
Qed.

Lemma normalized_dict d ts a s de dt :
  tzinfo d = utc ->
  normalized
    (mkdict [ ("timestamp", ts); ("timestamp_dt", VDatetime d);
              ("artifact_type", a); ("source", s);
              ("description", de); ("details", dt) ]).
Proof.
  intros Hz. exists d. split; [|exact Hz].
  unfold mkdict. cbn [list_to_map foldr uncurry fst snd].
  rewrite lookup_insert_ne by discriminate. apply lookup_insert_eq.
Qed.

Lemma emits_some_within_any P w dt :
  emits P (some_within w dt) (fun b => b = true -> exists d, dt = Some d).
Proof.
  destruct dt as [d|]; cbn [some_within].
  - eapply emits_weaken; [apply emits_lift|]. intros b E ->. eauto.
  - apply emits_ret. discriminate.
Qed.

End ZoneFacts.

Create HintDb zone.
#[local] Hint Resolve filetime_utc fromtimestamp_utc_zone chrome_time_zone
  firefox_time_zone dt_max_zone get_device_install_time_zone : zone.

Ltac zone_step :=
  first
    [ apply emits_pass
    | apply emits_try_except
    | apply emits_for_each; intros ?
    | apply emits_enum_loop; intros ?
    | eapply emits_bind; [apply emits_some_within_any | intros ? ?]
    | eapply emits_bind; [apply emits_lift | intros ? ?]
    | progress cbv zeta
    | match goal with
      | |- Collect.emits _ (if ?b then _ else _) _ => destruct b eqn:?
      | |- Collect.emits _ (match ?x with _ => _ end) _ => destruct x eqn:?
      end
    | apply emits_append; apply normalized_dict; cbv beta in *; eauto with zone ].

Ltac zone := repeat zone_step.

Section CollectorsZone.

Variables (h : host) (w : TriageWindow).

Lemma firefox_profiles_zone dirs :
  emits normalized (firefox_profiles h w dirs) (fun _ => True).
Proof.
  induction dirs as [|dir dirs IH]; cbn [firefox_profiles]; [apply emits_pass|].
  eapply emits_bind; [apply emits_lift|]. intros present _.
  destruct present; cbn [negb]; [|exact IH].
  unfold firefox_history_row. zone.
Qed.

Lemma collectors_zone name p fs :
  In (name, p) (collectors h) -> p w = Ok fs -> Forall normalized fs.
Proof.
  unfold collectors. cbn [In].
  intros [E|[E|[E|[E|[E|[E|[E|[E|[E|[E|[]]]]]]]]]]]; injection E as _ <-;
    apply emits_run with (Q := fun _ => True).
  - unfold userassist_value. zone.
  - unfold prefetch_file. zone.
  - unfold recent_file. zone.
  - unfold usb_device, usb_instance. zone.
  - zone.
  - destruct (getenv_nonempty h "LOCALAPPDATA"); [|apply emits_pass].
    destruct (getenv_nonempty h "APPDATA"); [|apply emits_pass].
    eapply emits_bind.
    + apply emits_for_each. intros [bn path].
      unfold chromium_history, chromium_history_row. zone.
    + intros _ _. apply emits_try_except; [|apply emits_pass].
      eapply emits_bind; [apply emits_lift|]. intros present _.
      destruct present; [apply firefox_profiles_zone|apply emits_pass].
  - destruct (getenv_nonempty h "LOCALAPPDATA"); [|apply emits_pass].
    apply emits_for_each. intros [bn path].
    unfold chromium_downloads, downloads_row. zone.
  - unfold recentdocs_extension, recentdocs_value. zone.
  - unfold typed_paths_value. zone.
  - unfold runmru_value. zone.
Qed.

End CollectorsZone.

Section PipelineFacts.

Variables (argv : list string) (h : host) (w : TriageWindow).

Lemma collected_forall (P : finding -> Prop) cs :
  (forall name p fs, In (name, p) cs -> p w = Ok fs -> Forall P fs) ->
  Forall P (fst (collect_from argv cs w)).
Proof.
  intros HP. rewrite collect_from_spec. cbn [fst].
  apply List.Forall_forall. intros f Hf.
  apply in_flat_map in Hf as ([name p] & Hin & Hc).
  unfold contribution in Hc. cbn [snd] in Hc.
  destruct (p w) as [fs|e] eqn:E; [|destruct Hc].
  pose proof (HP name p fs Hin E) as HF.
  rewrite List.Forall_forall in HF. auto.
Qed.

Lemma normalized_aware f : normalized f -> aware_key f.
Proof.
  intros (d & E & T). exists d, 0. unfold sort_key. rewrite E. auto.
Qed.

End PipelineFacts.

(** X1.  On every machine and for every window, the findings that
    collect_all_artifacts returns are sorted by the comparison sort
    itself, sort_findings_by_timestamp never takes its fallback on them:
    the result is a permutation of the findings, newest first, and
    findings of one instant keep their collection order. *)
Theorem collected_findings_sort (argv : list string) (h : host)
    (w : TriageWindow) :
  exists out,
    sorted_desc sort_key (fst (collect_all_artifacts argv h w)) = Ok out /\
    sort_findings_by_timestamp (fst (collect_all_artifacts argv h w))
    = Ok out /\
    Permutation (fst (collect_all_artifacts argv h w)) out /\
    StronglySorted descending out /\
    forall t, List.filter (at_instant t) out
              = List.filter (at_instant t)
                  (fst (collect_all_artifacts argv h w)).
Proof.
  assert (Ha : Forall aware_key (fst (collect_all_artifacts argv h w))).
  { eapply List.Forall_impl; [exact normalized_aware|].
    apply (collected_forall argv w normalized (collectors h)).
    apply collectors_zone. }
  destruct (sorted_desc_aware _ Ha) as (out & E & Hp & _ & Hs & Hf).
  exists out. unfold sort_findings_by_timestamp. rewrite E. auto.
Qed.

Lemma entries_total_app a b :
  entries_total (a ++ b) = (entries_total a + entries_total b)%nat.
Proof.
  induction a as [|l a IH]; cbn [app entries_total fold_right]; [reflexivity|].
  fold (entries_total (a ++ b)). fold (entries_total a).
  rewrite IH. destruct l; lia.
Qed.

(** X2.  For any list of collectors, the entry counts the orchestrator
    prints add up to the number of findings it returns.  It prints two
    messages per collector, the announcement and then a count or an
    error, and with --verbose on the command line one more, the details,
    for each collector that raised. *)
Theorem collect_counts_add_up (argv : list string) (w : TriageWindow)
    (cs : list (string * collector)) :
  length (fst (collect_from argv cs w))
  = entries_total (snd (collect_from argv cs w)) /\
  length (snd (collect_from argv cs w))
  = (2 * length cs
     + (if verbose argv then length (List.filter (failed w) cs) else 0))%nat.
Proof.
  rewrite collect_from_spec. cbn [fst snd].
  induction cs as [|[name p] cs [IH1 IH2]]; cbn [flat_map List.filter];
    [split; [reflexivity|destruct (verbose argv); reflexivity]|].
  rewrite !length_app, entries_total_app, IH1, IH2.
  unfold contribution, narration, failed. cbn [fst snd].
  destruct (p w) as [fs|e]; destruct (verbose argv); cbn; split; lia.
Qed.

Section SortMore.

Lemma insert_desc_perm {A} (key : A -> pyval) x s r :
  insert_desc key x s = Ok r -> Permutation (x :: s) r.
Proof.
  revert r. induction s as [|y s IH]; cbn [insert_desc]; intros r.
  - intros [= <-]. reflexivity.
  - destruct (py_lt (key x) (key y)) as [[|]|e]; cbn [rbind];
      [|intros [= <-]; reflexivity|discriminate].
    destruct (insert_desc key x s) as [r'|e]; cbn [rbind]; [|discriminate].
    intros [= <-]. rewrite perm_swap. constructor. apply IH. reflexivity.
Qed.

Lemma sorted_desc_perm {A} (key : A -> pyval) l r :
  sorted_desc key l = Ok r -> Permutation l r.
Proof.
  revert r. induction l as [|x l IH]; cbn [sorted_desc]; intros r.
  - intros [= <-]. constructor.
  - destruct (sorted_desc key l) as [s|e]; cbn [rbind]; [|discriminate].
    intros E. apply insert_desc_perm in E. rewrite <- E. constructor.
    apply IH. reflexivity.
Qed.

Lemma sorted_desc_fixed l :
  Forall aware_key l -> StronglySorted descending l ->
  sorted_desc sort_key l = Ok l.
Proof.
  intros Ha Hs. induction Hs as [|x l Hs IH Hx]; [reflexivity|].
  inversion Ha as [|? ? Ax Al]; subst.
  cbn [sorted_desc]. rewrite (IH Al). cbn [rbind].
  destruct l as [|y l]; [reflexivity|]. cbn [insert_desc].
  inversion Al as [|? ? Ay _]; subst.
  rewrite (py_lt_aware x y Ax Ay). cbn [rbind].
  inversion Hx as [|? ? Hxy _]; subst. unfold descending in Hxy.
  destruct (Z.ltb_spec (timestamp_of x) (timestamp_of y)); [lia|reflexivity].
Qed.

Lemma py_lt_raises a b e : py_lt a b = Raise e -> e = TypeError.
Proof.
  destruct a, b; cbn [py_lt]; try congruence.
  unfold dt_lt, dt_cmp. destruct (tzinfo d), (tzinfo d0); congruence.
Qed.

Lemma insert_desc_raises {A} (key : A -> pyval) x s e :
  insert_desc key x s = Raise e -> e = TypeError.
Proof.
  induction s as [|y s IH]; cbn [insert_desc]; [discriminate|].
  destruct (py_lt (key x) (key y)) as [[|]|e'] eqn:E; cbn [rbind].
  - destruct (insert_desc key x s) as [r|e']; cbn [rbind]; [discriminate|].
    intros [= <-]. apply IH. reflexivity.
  - discriminate.
  - intros [= <-]. eapply py_lt_raises. exact E.
Qed.

Lemma sorted_desc_raises {A} (key : A -> pyval) l e :
  sorted_desc key l = Raise e -> e = TypeError.
Proof.
  induction l as [|x l IH]; cbn [sorted_desc]; [discriminate|].
  destruct (sorted_desc key l) as [s|e']; cbn [rbind].
  - apply insert_desc_raises.
  - intros [= <-]. apply IH. reflexivity.
Qed.

(** A successful sort of datetime keys saw keys of one kind only. *)
Lemma sorted_desc_one_kind l r :
  Forall datetime_key l -> sorted_desc sort_key l = Ok r ->
  Forall aware_key l \/ Forall naive_key l.
Proof.
  intros Hd. revert r. induction Hd as [|x l Hx Hd IH]; intros r;
    [left; constructor|].
  cbn [sorted_desc].
  destruct (sorted_desc sort_key l) as [s|e] eqn:Es; cbn [rbind];
    [|discriminate].
  intros Ei. pose proof (sorted_desc_perm _ _ _ Es) as Hp.
  destruct s as [|y s].
  - apply Permutation_sym, Permutation_nil in Hp. subst l.
    destruct Hx as [d Ed]. destruct (tzinfo d) as [off|] eqn:T.
    + left. repeat constructor. exists d, off. auto.
    + right. repeat constructor. exists d. auto.
  - cbn [insert_desc] in Ei.
    destruct (py_lt (sort_key x) (sort_key y)) as [b|e] eqn:El;
      [|discriminate].
    assert (Hy : In y l).
    { eapply Permutation_in; [symmetry; exact Hp|]. left. reflexivity. }
    destruct Hx as [dx Ex].
    destruct (IH _ eq_refl) as [Ha|Hn].
    + left. constructor; [|exact Ha].
      rewrite List.Forall_forall in Ha. destruct (Ha y Hy) as (dy & oy & Ey & Ty).
      rewrite Ex, Ey in El. cbn [py_lt] in El. unfold dt_lt, dt_cmp in El.
      rewrite Ty in El. destruct (tzinfo dx) as [ox|] eqn:Tx; [|discriminate].
      exists dx, ox. auto.
    + right. constructor; [|exact Hn].
      rewrite List.Forall_forall in Hn. destruct (Hn y Hy) as (dy & Ey & Ty).
      rewrite Ex, Ey in El. cbn [py_lt] in El. unfold dt_lt, dt_cmp in El.
      rewrite Ty in El. destruct (tzinfo dx) as [ox|] eqn:Tx; [discriminate|].
      exists dx. auto.
Qed.

Lemma aware_not_naive f : aware_key f -> naive_key f -> False.
Proof. intros (d & o & E & T) (d' & E' & T'). congruence. Qed.

End SortMore.

(** X3.  On findings whose sort keys are timezone-aware datetimes, sorting
    is idempotent: sort_findings_by_timestamp applied to its own result
    returns it unchanged. *)
Theorem sort_findings_idempotent (findings : list finding) :
  Forall aware_key findings ->
  exists out,
    sort_findings_by_timestamp findings = Ok out /\
    sort_findings_by_timestamp out = Ok out.
Proof.
  intros Ha. destruct (sorted_desc_aware findings Ha) as (out & E & _ & Ha' & Hs & _).
  exists out. unfold sort_findings_by_timestamp. rewrite E.
  rewrite (sorted_desc_fixed out Ha' Hs). auto.
Qed.

(** X4.  sort_findings_by_timestamp never drops or duplicates a finding:
    whatever the keys are, and also when the sort fails and the input is
    returned, the result is a permutation of the input. *)
Theorem sort_findings_keeps_all (findings : list finding) :
  exists out,
    sort_findings_by_timestamp findings = Ok out /\
    Permutation findings out /\ length out = length findings.
Proof.
  unfold sort_findings_by_timestamp.
  destruct (sorted_desc sort_key findings) as [out|e] eqn:E.
  - exists out. apply sorted_desc_perm in E. split; [reflexivity|].
    split; [exact E|]. symmetry. apply Permutation_length. exact E.
  - exists findings. auto.
Qed.

(** X5.  If every finding carries a datetime and both naive and
    timezone-aware ones occur, the comparison raises TypeError and
    sort_findings_by_timestamp returns the findings in their original
    order. *)
Theorem sort_findings_mixed_unsorted (findings : list finding) :
  Forall datetime_key findings ->
  Exists naive_key findings -> Exists aware_key findings ->
  sorted_desc sort_key findings = Raise TypeError /\
  sort_findings_by_timestamp findings = Ok findings.
Proof.
  intros Hd Hn Ha. unfold sort_findings_by_timestamp.
  destruct (sorted_desc sort_key findings) as [r|e] eqn:E.
  - exfalso. apply List.Exists_exists in Hn as (fn & Hfn & Nn).
    apply List.Exists_exists in Ha as (fa & Hfa & Aa).
    destruct (sorted_desc_one_kind _ _ Hd E) as [H|H];
      rewrite List.Forall_forall in H.
    + exact (aware_not_naive fn (H fn Hfn) Nn).
    + exact (aware_not_naive fa Aa (H fa Hfa)).
  - rewrite (sorted_desc_raises _ _ _ E). auto.
Qed.

(** ** The size of the window *)

Section WindowMore.

Lemma init_within now minutes w t :
  TriageWindow_init now minutes = Ok w ->
  is_within_window w (Some t)
  = Ok ((now - minutes * 60 * US_PER_SECOND <=? utc_instant t)
        && (utc_instant t <=? now)).
Proof.
  intros Hw. destruct (init_fields _ _ _ Hw) as (Hcur & Hcut & _).
  rewrite (within_window_eval w t 0 0) by (rewrite ?Hcut, ?Hcur; reflexivity).
  rewrite Hcur, Hcut. unfold utc_instant. cbn [us tzinfo default].
  rewrite !Z.sub_0_r. reflexivity.
Qed.

End WindowMore.

(** X6.  For one reading of the clock, a window of more minutes accepts
    every timestamp that a window of fewer minutes accepts. *)
Theorem window_widening (now m1 m2 : Z) (w1 w2 : TriageWindow)
    (t : option datetime) :
  TriageWindow_init now m1 = Ok w1 -> TriageWindow_init now m2 = Ok w2 ->
  m1 <= m2 ->
  is_within_window w1 t = Ok true -> is_within_window w2 t = Ok true.
Proof.
  intros H1 H2 Hm. destruct t as [t|]; [|cbn; congruence].
  rewrite (init_within _ _ _ t H1), (init_within _ _ _ t H2).
  intros [= E]. f_equal. apply andb_true_iff in E as [Ea Eb].
  apply Z.leb_le in Ea. apply andb_true_iff. split; [|exact Eb].
  apply Z.leb_le. unfold US_PER_SECOND in *. lia.
Qed.

(** X7.  A window size that would put the cutoff before year 1 makes the
    TriageWindow constructor raise OverflowError instead of building a
    window. *)
Theorem window_before_year_one (now minutes : Z) :
  0 <= now < MAX_US -> now < minutes * 60 * US_PER_SECOND ->
  TriageWindow_init now minutes = Raise OverflowError.
Proof.
  intros Hn Hm. unfold TriageWindow_init, timedelta_minutes, timedelta_check.
  destruct (_ && _); cbn [rbind]; [|reflexivity].
  unfold dt_sub, dt_add, in_range. cbn [us].
  destruct (Z.leb_spec 0 (now + - (minutes * 60 * US_PER_SECOND))); [lia|].
  reflexivity.
Qed.

Lemma window_widening_witness :
  is_within_window Examples.window (Some Examples.eleven) = Ok true.
Proof.
  apply (window_widening Examples.noon 60 180
           (mkTriageWindow 60 (mkdt Examples.noon utc)
              (mkdt (Examples.noon - 60 * 60 * US_PER_SECOND) utc))
           Examples.window (Some Examples.eleven));
    [vm_compute; reflexivity | vm_compute; reflexivity | lia
    | vm_compute; reflexivity].
Defined.

Lemma window_before_year_one_witness :
  TriageWindow_init Examples.noon 2000000000 = Raise OverflowError.
Proof.
  apply window_before_year_one; [vm_compute; split; [discriminate|reflexivity]|].
  vm_compute. reflexivity.
Defined.

(** ** Registry values as findings *)

Section DictFacts.

(** The six fields of a finding built by a collector. *)
Lemma dict_fields ts dt a s de det :
  let f := mkdict [ ("timestamp", ts); ("timestamp_dt", dt);
                    ("artifact_type", a); ("source", s);
                    ("description", de); ("details", det) ] in
  f !! "timestamp" = Some ts /\ f !! "timestamp_dt" = Some dt /\
  f !! "artifact_type" = Some a /\ f !! "source" = Some s /\
  f !! "description" = Some de /\ f !! "details" = Some det.
Proof.
  unfold mkdict. cbn [list_to_map foldr uncurry fst snd].
  repeat split;
    rewrite ?lookup_insert_ne by discriminate; apply lookup_insert_eq.
Qed.

End DictFacts.

Section TypedPathsFacts.

Lemma typed_paths_loop km values st :
  enum_loop (typed_paths_value km) values st
  = (Ok tt, st ++ map (typed_paths_finding km) (List.filter has_data values)).
Proof.
  revert st. induction values as [|[name data] values IH]; intros st;
    cbn [enum_loop List.filter map].
  - rewrite app_nil_r. reflexivity.
  - unfold typed_paths_value at 1, has_data at 1. cbn [snd].
    destruct (truthy data); cbn [append pass ret map].
    + rewrite IH, <- app_assoc. reflexivity.
    + apply IH.
Qed.

End TypedPathsFacts.

(** X8.  When the TypedPaths key opens and its last-write time converts and
    lies in the window, parse_typed_paths returns exactly one finding
    per value with truthy data, in enumeration order: the description is
    the data of the value unchanged, whatever its type, the details name
    the value, and every finding carries the last-write time of the key. *)
Theorem parse_typed_paths_spec (h : host) (w : TriageWindow) (key : reg_key)
    (km : datetime) :
  reg_open h HKEY_CURRENT_USER typed_paths_path = Ok key ->
  filetime_to_datetime (VInt (last_modified key)) = Ok (Some km) ->
  is_within_window w (Some km) = Ok true ->
  exists fs,
    parse_typed_paths h w = Ok fs /\
    Forall2
      (fun entry f =>
         f !! "description" = Some (snd entry) /\
         f !! "details" = Some (VStr ("Entry: " +:+ fst entry)) /\
         f !! "source" = Some (VStr "TypedPaths") /\
         f !! "artifact_type" = Some (VStr "Registry") /\
         f !! "timestamp_dt" = Some (VDatetime km))
      (List.filter has_data (reg_values key)) fs.
Proof.
  intros Hk Hft Hin.
  exists (map (typed_paths_finding km) (List.filter has_data (reg_values key))).
  split.
  - unfold parse_typed_paths, some_within, run, try_except, bind, lift.
    rewrite Hk, Hft, Hin. cbv beta iota. rewrite typed_paths_loop. reflexivity.
  - induction (List.filter has_data (reg_values key)) as [|entry es IH];
      cbn [map]; constructor; [|exact IH].
    destruct (dict_fields (VStr (strftime km TS_FORMAT)) (VDatetime km)
                (VStr "Registry") (VStr "TypedPaths") (snd entry)
                (VStr ("Entry: " +:+ fst entry)))
      as (_ & Hdt & Ha & Hs & Hde & Hdet).
    unfold typed_paths_finding. auto.
Qed.

Section KeyTime.

Variables (h : host) (w : TriageWindow).

Lemma stamped_at_dict km ts a s de det :
  stamped_at km
    (mkdict [ ("timestamp", ts); ("timestamp_dt", VDatetime km);
              ("artifact_type", a); ("source", s);
              ("description", de); ("details", det) ]).
Proof. apply dict_fields. Qed.

Lemma runmru_loop_key_time km values :
  emits (stamped_at km) (enum_loop (runmru_value km) values) (fun _ => True).
Proof.
  apply emits_enum_loop. intros [name data]. unfold runmru_value.
  destruct (_ && _); [|apply emits_pass].
  eapply emits_bind; [apply emits_lift|]. intros command _.
  apply emits_append, stamped_at_dict.
Qed.

Lemma typed_paths_loop_key_time km values :
  emits (stamped_at km) (enum_loop (typed_paths_value km) values)
    (fun _ => True).
Proof.
  apply emits_enum_loop. intros [name data]. unfold typed_paths_value.
  destruct (truthy data); [|apply emits_pass].
  apply emits_append, stamped_at_dict.
Qed.

Lemma recentdocs_loop_key_time km extensions :
  emits (stamped_at km) (enum_loop (recentdocs_extension h km) extensions)
    (fun _ => True).
Proof.
  apply emits_enum_loop. intros extension. unfold recentdocs_extension.
  eapply emits_bind; [apply emits_lift|]. intros ext_key _.
  apply emits_enum_loop. intros [name data]. unfold recentdocs_value.
  destruct data; try apply emits_pass.
  destruct (negb _); [|apply emits_pass].
  destruct (negb _); [|apply emits_pass].
  apply emits_append, stamped_at_dict.
Qed.

End KeyTime.

(** X9.  Every finding of parse_runmru, parse_typed_paths and
    parse_recentdocs is stamped with the last-write time of the one
    registry key the parser opens first (for RecentDocs the base key,
    also for the values of its extension subkeys): the entries have no
    time of their own. *)
Theorem registry_findings_carry_key_time (h : host) (w : TriageWindow) :
  (forall key km fs,
     reg_open h HKEY_CURRENT_USER runmru_path = Ok key ->
     filetime_to_datetime (VInt (last_modified key)) = Ok (Some km) ->
     parse_runmru h w = Ok fs -> Forall (stamped_at km) fs) /\
  (forall key km fs,
     reg_open h HKEY_CURRENT_USER typed_paths_path = Ok key ->
     filetime_to_datetime (VInt (last_modified key)) = Ok (Some km) ->
     parse_typed_paths h w = Ok fs -> Forall (stamped_at km) fs) /\
  (forall key km fs,
     reg_open h HKEY_CURRENT_USER recentdocs_base = Ok key ->
     filetime_to_datetime (VInt (last_modified key)) = Ok (Some km) ->
     parse_recentdocs h w = Ok fs -> Forall (stamped_at km) fs).
Proof.
  split; [|split]; intros key km fs Hk Hft;
    apply emits_run with (Q := fun _ => True);
    repeat apply emits_try_except; try apply emits_pass;
    (eapply emits_bind; [apply emits_lift|]); intros key' Hk';
    cbv beta in Hk'; rewrite Hk in Hk'; injection Hk' as <-;
    repeat apply emits_try_except; try apply emits_pass;
    (eapply emits_bind; [apply emits_lift|]); intros km' Hft';
    cbv beta in Hft'; rewrite Hft in Hft'; injection Hft' as <-;
    (eapply emits_bind; [apply emits_some_within_any|]); intros inside _;
    destruct inside; try apply emits_pass.
  - apply runmru_loop_key_time.
  - apply typed_paths_loop_key_time.
  - apply recentdocs_loop_key_time.
Qed.

(** ** PowerShell history *)

(** X10.  parse_powershell_history never raises and returns at most one
    finding. That finding is stamped with the modification time of the
    history file, its description counts the non-blank lines, and its
    details list the last five of them, stripped of their line ends and
    joined by a semicolon and a space. *)
Theorem powershell_history_single (h : host) (w : TriageWindow) :
  exists fs,
    parse_powershell_history h w = Ok fs /\
    (length fs <= 1)%nat /\
    forall f, In f fs ->
      exists appdata st mod_time lines,
        getenv_nonempty h "APPDATA" = Some appdata /\
        path_stat h (history_path appdata) = Ok st /\
        fromtimestamp_utc (gmtime_ok h) (st_mtime st) = Ok mod_time /\
        read_lines h (history_path appdata) = Ok lines /\
        List.filter non_blank lines <> [] /\
        f !! "timestamp_dt" = Some (VDatetime mod_time) /\
        f !! "description"
        = Some (VStr ("History file modified ("
                      +:+ str_of_Z (Z.of_nat (length (List.filter non_blank lines)))
                      +:+ " commands)")) /\
        f !! "details"
        = Some (VStr ("Last 5 commands: "
                      +:+ join "; " (last_n 5 (map strip_newline
                                                 (List.filter non_blank lines))))).
Proof.
  unfold parse_powershell_history.
  destruct (getenv_nonempty h "APPDATA") as [appdata|] eqn:Eenv.
  2:{ exists []. split; [reflexivity|]. split; [cbn; lia|intros f []]. }
  unfold run, try_except, bind, lift, pass, ret, any_exception.
  destruct (path_exists h (history_path appdata)) as [[|]|e];
    cbn [negb];
    try (exists []; split; [reflexivity|]; split; [cbn; lia|intros f []]).
  destruct (path_stat h (history_path appdata)) as [st|e] eqn:Est;
    try (exists []; split; [reflexivity|]; split; [cbn; lia|intros f []]).
  destruct (fromtimestamp_utc (gmtime_ok h) (st_mtime st)) as [mod_time|e]
    eqn:Emt;
    try (exists []; split; [reflexivity|]; split; [cbn; lia|intros f []]).
  destruct (is_within_window w (Some mod_time)) as [[|]|e];
    try (exists []; split; [reflexivity|]; split; [cbn; lia|intros f []]).
  destruct (read_lines h (history_path appdata)) as [lines|e] eqn:Erd;
    try (exists []; split; [reflexivity|]; split; [cbn; lia|intros f []]).
  destruct (List.filter non_blank lines) as [|c cs] eqn:Ef; cbn [map].
  { exists []. split; [reflexivity|]. split; [cbn; lia|intros f []]. }
  eexists. split; [reflexivity|]. split; [cbn; lia|].
  intros f [<-|[]]. exists appdata, st, mod_time, lines.
  rewrite Ef. repeat (split; [first [reflexivity | assumption | discriminate]|]).
  cbn [append app].
  change (strip_newline c :: map strip_newline cs)
    with (map strip_newline (c :: cs)).
  rewrite !length_map.
  match goal with
  | |- mkdict [ (_, ?ts); (_, ?dt); (_, ?a); (_, ?s); (_, ?de); (_, ?det) ] !! _ = _ /\ _ =>
      destruct (dict_fields ts dt a s de det) as (_ & Hdt & _ & _ & Hde & Hdet)
  end.
  auto.
Qed.

(** ** Prefetch names *)

Section SplitFacts.

Lemma chars_of_chars l : chars (of_chars l) = l.
Proof. induction l as [|c l IH]; cbn; [reflexivity|]. rewrite IH. reflexivity. Qed.

Lemma split_on_nonempty sep l : split_on sep l <> [].
Proof.
  destruct l as [|c l]; cbn [split_on]; [discriminate|].
  destruct (Ascii.eqb c sep); [discriminate|].
  destruct (split_on sep l); discriminate.
Qed.

Lemma split_on_app sep a b :
  split_on sep (a ++ sep :: b) = split_on sep a ++ split_on sep b.
Proof.
  induction a as [|c a IH]; cbn [app split_on].
  - rewrite Ascii.eqb_refl. reflexivity.
  - rewrite IH. destruct (Ascii.eqb c sep); [reflexivity|].
    pose proof (split_on_nonempty sep a) as Hne.
    destruct (split_on sep a) as [|p ps]; [congruence|]. reflexivity.
Qed.

Lemma split_on_none sep l :
  existsb (Ascii.eqb sep) l = false -> split_on sep l = [l].
Proof.
  induction l as [|c l IH]; cbn [existsb split_on]; [reflexivity|].
  intros H. apply orb_false_iff in H as [Hc Hl].
  rewrite Ascii.eqb_sym, Hc, (IH Hl). reflexivity.
Qed.

Lemma concat_cons sep x y ys :
  String.concat sep (x :: y :: ys) = x +:+ sep +:+ String.concat sep (y :: ys).
Proof. reflexivity. Qed.

Lemma join_split sep l :
  String.concat (String sep "") (map of_chars (split_on sep l)) = of_chars l.
Proof.
  induction l as [|c l IH]; cbn [split_on]; [reflexivity|].
  pose proof (split_on_nonempty sep l) as Hne.
  destruct (Ascii.eqb_spec c sep) as [->|Hc].
  - destruct (split_on sep l) as [|p ps]; [congruence|].
    cbn [map] in *. rewrite concat_cons, IH. reflexivity.
  - destruct (split_on sep l) as [|p ps]; [congruence|].
    cbn [map] in *. destruct ps as [|q qs]; cbn [map] in *.
    + cbn [String.concat] in *. cbn [of_chars]. rewrite IH. reflexivity.
    + rewrite concat_cons in *. cbn [of_chars]. rewrite <- IH. reflexivity.
Qed.

End SplitFacts.

(** X11.  For a prefetch file stem of the form NAME-HASH where HASH has no
    hyphen, the executable name reported is NAME in upper case: hyphens
    inside NAME are kept.  NAME is any text whose upper case can be
    written in these strings, that is, without the micro sign and y with
    diaeresis; accented letters are raised with the others and a sharp s
    becomes SS. *)
Theorem prefetch_executable_drops_hash (name hash : string) :
  has_char "-"%char hash = false ->
  forallb upper_in_alphabet (chars name) = true ->
  prefetch_executable (name +:+ "-" +:+ hash) = upper name.
Proof.
  intros Hh _. unfold prefetch_executable, has_char, split, join, drop_last.
  rewrite chars_append. cbn [chars append]. change (chars ("-" +:+ hash)) with ("-"%char :: chars hash).
  rewrite existsb_app. cbn [existsb]. rewrite Ascii.eqb_refl, orb_true_r.
  rewrite split_on_app, (split_on_none _ _ Hh), map_app. cbn [map].
  rewrite removelast_last, join_split, of_chars_chars. reflexivity.
Qed.

Lemma prefetch_executable_drops_hash_witness :
  prefetch_executable ("7z-caf" +:+ String (chr 233) ".exe-1A2B3C4D")
  = "7Z-CAF" +:+ String (chr 201) ".EXE".
Proof.
  exact (prefetch_executable_drops_hash
           ("7z-caf" +:+ String (chr 233) ".exe") "1A2B3C4D" eq_refl eq_refl).
Defined.

(** ** Shortcut targets *)

Section LnkFacts.

Lemma take_while_all {A} (p : A -> bool) l rest :
  Forall (fun x => p x = true) l ->
  match rest with [] => True | x :: _ => p x = false end ->
  take_while p (l ++ rest) = l.
Proof.
  intros Hl Hr. induction Hl as [|x l Hx Hl IH]; cbn [app take_while].
  - destruct rest as [|y rest]; [reflexivity|]. cbn [take_while]. rewrite Hr.
    reflexivity.
  - rewrite Hx, IH. reflexivity.
Qed.

Lemma match_drive_path_colon x c l :
  c <> ":"%char -> match_drive_path (x :: c :: l) = None.
Proof.
  intros Hc. cbn [match_drive_path]. destruct l as [|b l]; [reflexivity|].
  destruct (Ascii.eqb_spec c ":"%char); [congruence|].
  rewrite andb_false_r. reflexivity.
Qed.

(** No match can start in a stretch without colon. *)
Lemma findall_drive_skips pre x rest :
  Forall (fun c => c <> ":"%char) pre ->
  match rest with [] => True | c :: _ => c <> ":"%char end ->
  findall match_drive_path (x :: pre ++ rest) O
  = findall match_drive_path rest O.
Proof.
  intros Hp Hr. revert x. induction Hp as [|c pre Hc Hp IH]; intros x;
    cbn [app].
  - cbn [findall]. destruct rest as [|c rest]; [reflexivity|].
    rewrite (match_drive_path_colon x c rest Hr). reflexivity.
  - cbn [findall]. rewrite (match_drive_path_colon x c (pre ++ rest) Hc).
    apply IH.
Qed.

Lemma byte_of_L b : Ascii.ascii_of_byte b = "L"%char -> byte_val b = 76.
Proof. destruct b; cbn; intros H; first [discriminate H | reflexivity]. Qed.

End LnkFacts.

(** X12.  If the content of a shortcut file starts with the byte L and its
    first colon is that of a drive path (an upper-case letter, a colon,
    a backslash and at least one non-zero byte, up to a zero byte or the
    end of the file), extract_lnk_target returns exactly that path. *)
Theorem extract_lnk_target_recovers (h : host) (lnk_path : string)
    (content : list byte) (pre : list ascii) (d : ascii) (run tail : list ascii) :
  read_bytes h lnk_path = Ok content ->
  map Ascii.ascii_of_byte content
  = "L"%char :: pre ++ d :: ":"%char :: "\"%char :: run ++ tail ->
  Forall (fun c => c <> ":"%char) pre ->
  is_upper_letter d = true ->
  run <> [] -> Forall (fun c => not_nul c = true) run ->
  match tail with [] => True | c :: _ => c = NUL end ->
  extract_lnk_target h lnk_path
  = of_chars (d :: ":"%char :: "\"%char :: run).
Proof.
  intros Hrd Hc Hpre Hd Hne Hrun Htail. unfold extract_lnk_target.
  rewrite Hrd. destruct content as [|b0 content']; [discriminate Hc|].
  assert (Hlen : (4 <= length (b0 :: content'))%nat).
  { rewrite <- (length_map Ascii.ascii_of_byte), Hc. cbn [length].
    rewrite length_app. cbn [length]. lia. }
  destruct (Nat.ltb_spec (length (b0 :: content')) 4); [lia|].
  cbn [map] in Hc. injection Hc as Hb0 Hrest.
  rewrite (byte_of_L b0 Hb0). cbn [Z.eqb Pos.eqb negb orb].
  unfold decode_latin1. rewrite chars_of_chars. cbn [map].
  rewrite Hb0, Hrest.
  rewrite findall_drive_skips; [|exact Hpre|].
  2:{ intros E. rewrite E in Hd. discriminate Hd. }
  assert (Hm : match_drive_path (d :: ":"%char :: "\"%char :: run ++ tail)
               = Some (d :: ":"%char :: "\"%char :: run)).
  { cbn [match_drive_path]. rewrite Hd. cbn [Ascii.eqb Bool.eqb andb].
    rewrite (take_while_all not_nul run tail Hrun).
    2:{ destruct tail as [|c tail]; [exact I|]. rewrite Htail. reflexivity. }
    destruct run; [congruence|reflexivity]. }
  cbn [findall]. rewrite Hm. unfold first_convincing. cbn [map List.find].
  assert (Ht : take_while not_nul (d :: ":"%char :: "\"%char :: run)
               = d :: ":"%char :: "\"%char :: run).
  { assert (Hall : Forall (fun c => not_nul c = true)
                      (d :: ":"%char :: "\"%char :: run)).
    { repeat constructor; [|exact Hrun]. unfold not_nul.
      destruct (Ascii.eqb_spec d NUL) as [->|]; [discriminate Hd|reflexivity]. }
    pose proof (take_while_all not_nul _ [] Hall I) as E.
    rewrite app_nil_r in E. exact E. }
  rewrite Ht. destruct run as [|r0 run]; [congruence|]. reflexivity.
Qed.

Section LnkShape.

Lemma findall_matches matcher l skip :
  Forall (fun m => exists s, matcher s = Some m) (findall matcher l skip).
Proof.
  revert skip. induction l as [|c l IH]; intros skip; cbn [findall];
    [constructor|].
  destruct skip as [|k]; [|apply IH].
  destruct (matcher (c :: l)) as [m|] eqn:E; [|apply IH].
  constructor; [eauto|apply IH].
Qed.

Lemma take_while_sound {A} (p : A -> bool) l :
  Forall (fun x => p x = true) (take_while p l).
Proof.
  induction l as [|x l IH]; cbn [take_while]; [constructor|].
  destruct (p x) eqn:E; constructor; assumption.
Qed.

Lemma take_while_prefix {A} (p : A -> bool) a b c l :
  (3 < length (take_while p (a :: b :: c :: l)))%nat ->
  exists rest, take_while p (a :: b :: c :: l) = a :: b :: c :: rest.
Proof.
  cbn [take_while]. destruct (p a); [|cbn; lia].
  destruct (p b); [|cbn; lia]. destruct (p c); [|cbn; lia]. eauto.
Qed.

Lemma first_convincing_shape ms r :
  first_convincing ms = Some r ->
  exists m, In m ms /\ r = of_chars (take_while not_nul m) /\
            (3 < length (take_while not_nul m))%nat.
Proof.
  unfold first_convincing.
  destruct (find _ _) as [c|] eqn:E; [|discriminate]. intros [= <-].
  apply find_some in E as [Hin Hlen]. apply in_map_iff in Hin as (m & <- & Hm).
  exists m. split; [exact Hm|]. split; [reflexivity|].
  apply Nat.ltb_lt. exact Hlen.
Qed.

End LnkShape.

(** X13.  extract_lnk_target always answers with a text: one of its three
    messages, or a text of more than three characters without a zero
    byte that starts with an upper-case drive letter, a colon and a
    backslash, or with two backslashes. *)
Theorem extract_lnk_target_shape (h : host) (lnk_path : string) :
  let r := extract_lnk_target h lnk_path in
  In r lnk_messages \/
  ((3 < length (chars r))%nat /\
   Forall (fun c => c <> NUL) (chars r) /\
   ((exists d rest, chars r = d :: ":"%char :: "\"%char :: rest
                    /\ is_upper_letter d = true)
    \/ exists rest, chars r = "\"%char :: "\"%char :: rest)).
Proof.
  cbv zeta. unfold extract_lnk_target, lnk_messages.
  destruct (read_bytes h lnk_path) as [content|e]; [|cbn; tauto].
  destruct content as [|b0 content]; [cbn; tauto|].
  destruct (_ || _); [cbn; tauto|].
  set (s := chars (decode_latin1 (b0 :: content))).
  assert (Hnul : forall m, Forall (fun c => c <> NUL) (take_while not_nul m)).
  { intros m. eapply List.Forall_impl; [|apply take_while_sound].
    intros c Hc ->. discriminate Hc. }
  destruct (first_convincing (findall match_drive_path s O)) as [r|] eqn:E1.
  { right. apply first_convincing_shape in E1 as (m & Hin & -> & Hlen).
    rewrite chars_of_chars. split; [exact Hlen|]. split; [apply Hnul|]. left.
    pose proof (findall_matches match_drive_path s O) as HF.
    rewrite List.Forall_forall in HF. destruct (HF m Hin) as [l Hl].
    unfold match_drive_path in Hl.
    destruct l as [|d [|c [|b rest]]]; try discriminate Hl.
    destruct (is_upper_letter d) eqn:Hd; [|discriminate Hl].
    destruct (Ascii.eqb_spec c ":"%char) as [->|]; [|discriminate Hl].
    destruct (Ascii.eqb_spec b "\"%char) as [->|]; [|discriminate Hl].
    cbn [andb] in Hl. destruct (take_while not_nul rest); [discriminate Hl|].
    injection Hl as <-.
    destruct (take_while_prefix not_nul _ _ _ _ Hlen) as [rest' ->]. eauto. }
  destruct (first_convincing (findall match_unc_path s O)) as [r|] eqn:E2;
    [|cbn; tauto].
  right. apply first_convincing_shape in E2 as (m & Hin & -> & Hlen).
  rewrite chars_of_chars. split; [exact Hlen|]. split; [apply Hnul|]. right.
  pose proof (findall_matches match_unc_path s O) as HF.
  rewrite List.Forall_forall in HF. destruct (HF m Hin) as [l Hl].
  unfold match_unc_path in Hl.
  destruct l as [|b1 [|b2 rest]]; try discriminate Hl.
  destruct (Ascii.eqb_spec b1 "\"%char) as [->|]; [|discriminate Hl].
  destruct (Ascii.eqb_spec b2 "\"%char) as [->|]; [|discriminate Hl].
  cbn [andb] in Hl.
  destruct (take_while not_backslash rest) as [|s0 server]; [discriminate Hl|].
  destruct (skipn _ rest) as [|b3 rest']; [discriminate Hl|].
  destruct (take_while not_nul rest'); [discriminate Hl|].
  injection Hl as <-. cbn [app] in *.
  destruct (take_while_prefix not_nul _ _ _ _ Hlen) as [rest'' ->]. eauto.
Qed.

(** ** UserAssist records *)

Section UserAssistFacts.

Lemma rot13_char_involutive c : rot13_char (rot13_char c) = c.
Proof.
  destruct c as [[|] [|] [|] [|] [|] [|] [|] [|]]; vm_compute; reflexivity.
Qed.

Lemma rot13_involutive s : rot13 (rot13 s) = s.
Proof.
  unfold rot13. rewrite chars_of_chars, map_map.
  rewrite <- (of_chars_chars s) at 2. f_equal.
  induction (chars s) as [|c l IH]; cbn [map]; [reflexivity|].
  rewrite rot13_char_involutive, IH. reflexivity.
Qed.

Lemma byte_val_range b : 0 <= byte_val b < 256.
Proof. destruct b; vm_compute; split; congruence. Qed.

Lemma le_uint_range b : 0 <= le_uint b < 256 ^ Z.of_nat (length b).
Proof.
  induction b as [|x b IH]; cbn [le_uint fold_right length].
  - cbn. lia.
  - fold (le_uint b). rewrite Nat2Z.inj_succ, Z.pow_succ_r by lia.
    pose proof (byte_val_range x). lia.
Qed.

End UserAssistFacts.

(** X14.  For a UserAssist value with binary data the parser adds at most
    one finding, and only for data of at least 72 bytes whose FILETIME
    at offset 60 converts to a time in the window. The finding carries
    that time, its description is the ROT13 decoding of the value name
    (decoding twice gives the name back), and its details print the run
    count and the focus time read as unsigned 32-bit little-endian
    integers at offsets 4 and 8. *)
Theorem userassist_value_spec (w : TriageWindow) (name : string)
    (b : list byte) (st : list finding) :
  exists fs,
    snd (userassist_value w (name, VBytes b) st) = st ++ fs /\
    (fs = [] \/
     exists f d,
       fs = [f] /\ (72 <= length b)%nat /\
       filetime_to_datetime (VInt (le_uint (slice 60 68 b))) = Ok (Some d) /\
       is_within_window w (Some d) = Ok true /\
       f !! "timestamp_dt" = Some (VDatetime d) /\
       f !! "description" = Some (VStr (rot13 name)) /\
       rot13 (rot13 name) = name /\
       f !! "details"
       = Some (VStr ("Run Count: " +:+ str_of_Z (le_uint (slice 4 8 b))
                     +:+ ", Focus Time: " +:+ str_of_Z (le_uint (slice 8 12 b))
                     +:+ "ms")) /\
       0 <= le_uint (slice 4 8 b) < 2 ^ 32 /\
       0 <= le_uint (slice 8 12 b) < 2 ^ 32).
Proof.
  unfold userassist_value, bind, lift. cbn [py_len].
  destruct (Z.leb_spec 72 (Z.of_nat (length b))) as [Hlen|Hlen].
  2:{ exists []. rewrite app_nil_r. auto. }
  cbn [py_slice struct_unpack_le].
  rewrite !slice_length by lia. cbn [Nat.sub Nat.eqb].
  destruct (filetime_to_datetime _) as [[d|]|e] eqn:Eft;
    try (exists []; rewrite app_nil_r; cbn; auto; fail).
  cbn [some_within]. unfold lift.
  destruct (is_within_window w (Some d)) as [[|]|e] eqn:Ew;
    try (exists []; rewrite app_nil_r; cbn; auto; fail).
  cbn [append snd]. eexists. split; [reflexivity|]. right.
  match goal with
  | |- context [mkdict [ (_, ?ts); (_, ?dt); (_, ?a); (_, ?s); (_, ?de); (_, ?det) ]] =>
      destruct (dict_fields ts dt a s de det) as (_ & Hdt & _ & _ & Hde & Hdet)
  end.
  eexists _, d. split; [reflexivity|]. split; [lia|].
  repeat (split; [first [reflexivity | assumption | apply rot13_involutive]|]).
  pose proof (le_uint_range (slice 4 8 b)) as H1.
  pose proof (le_uint_range (slice 8 12 b)) as H2.
  rewrite slice_length in H1, H2 by lia.
  change (256 ^ Z.of_nat (8 - 4)) with (2 ^ 32) in H1.
  change (256 ^ Z.of_nat (12 - 8)) with (2 ^ 32) in H2. auto.
Qed.

(** ** Browser history *)

Section RowFacts.

Lemma for_each_app {A} (body : A -> M unit) xs ys st :
  for_each body (xs ++ ys) st
  = match for_each body xs st with
    | (Ok _, st') => for_each body ys st'
    | (Raise e, st') => (Raise e, st')
    end.
Proof.
  revert st. induction xs as [|x xs IH]; intros st; cbn [app for_each];
    [reflexivity|].
  unfold bind. destruct (body x st) as [[[]|e] st']; [apply IH|reflexivity].
Qed.

(** A history row that raises has appended nothing. *)
Lemma chromium_history_row_raises w name row st e st' :
  chromium_history_row w name row st = (Raise e, st') -> st' = st.
Proof.
  unfold chromium_history_row, bind, lift.
  destruct (unpack4 row) as [[[[url title] visit_count] visit_time]|e1];
    [|intros [= _ <-]; reflexivity].
  destruct (chrome_time visit_time) as [visit_dt|e2];
    [|intros [= _ <-]; reflexivity].
  destruct (is_within_window w (Some visit_dt)) as [[|]|e3];
    [|discriminate|intros [= _ <-]; reflexivity].
  destruct (title_or_placeholder title) as [description|e4];
    [discriminate|intros [= _ <-]; reflexivity].
Qed.

End RowFacts.

(** X15.  If a row of a Chromium history query makes its handling raise (a
    visit time that is not a number, for instance), the findings of the
    rows before it are kept, the rows after it are not read, and the
    browser is left without an error. *)
Theorem history_stops_at_bad_row (h : host) (w : TriageWindow)
    (browser_name history_path : string) (good : list (list pyval))
    (bad : list pyval) (rest : list (list pyval)) (e : exn)
    (st st1 : list finding) :
  path_exists h history_path = Ok true ->
  sqlite_fetchall h history_path CHROME_HISTORY_QUERY
  = Ok (good ++ bad :: rest) ->
  for_each (chromium_history_row w browser_name) good st = (Ok tt, st1) ->
  fst (chromium_history_row w browser_name bad st1) = Raise e ->
  chromium_history h w (browser_name, history_path) st = (Ok tt, st1).
Proof.
  intros Hex Hrows Hgood Hbad.
  unfold chromium_history, try_except, bind, lift. rewrite Hex, Hrows.
  cbn [negb]. rewrite for_each_app, Hgood. cbn [for_each]. unfold bind.
  destruct (chromium_history_row w browser_name bad st1) as [[[]|e'] st2] eqn:E;
    cbn [fst] in Hbad; [discriminate|].
  apply chromium_history_row_raises in E as ->. reflexivity.
Qed.

Section TitleFacts.

Lemma length_firstn_le {A} (n : nat) (l : list A) : (length (firstn n l) <= n)%nat.
Proof. rewrite length_firstn. lia. Qed.

Lemma length_of_chars l : String.length (of_chars l) = length l.
Proof. induction l as [|c l IH]; cbn; [reflexivity|]. rewrite IH. reflexivity. Qed.

Lemma title_or_placeholder_short title v :
  title_or_placeholder title = Ok v ->
  exists len, py_len v = Ok len /\ len <= 100.
Proof.
  unfold title_or_placeholder. destruct (truthy title).
  2:{ intros [= <-]. exists 8. split; [reflexivity|lia]. }
  destruct title; cbn [py_slice]; try discriminate; intros [= <-];
    cbn [py_len]; eexists; (split; [reflexivity|]); unfold str_len, slice;
    rewrite ?length_of_chars; cbn [Nat.sub skipn];
    match goal with |- Z.of_nat (length (firstn 100 ?l)) <= _ =>
      pose proof (length_firstn_le 100 l) end; lia.
Qed.

Lemma short_text_dict n ts dt a s de det len :
  py_len de = Ok len -> len <= n ->
  short_text n
    (mkdict [ ("timestamp", ts); ("timestamp_dt", dt);
              ("artifact_type", a); ("source", s);
              ("description", de); ("details", det) ]).
Proof. intros H1 H2. exists de, len. split; [apply dict_fields|]. auto. Qed.

End TitleFacts.

Ltac title_step :=
  first
    [ apply emits_pass
    | apply emits_try_except
    | apply emits_for_each; intros ?
    | eapply emits_bind; [apply emits_lift | intros ? ?]
    | progress cbv zeta
    | match goal with
      | |- Collect.emits _ (if ?b then _ else _) _ => destruct b eqn:?
      | |- Collect.emits _ (match ?x with _ => _ end) _ => destruct x eqn:?
      end
    | match goal with
      | H : (fun a => title_or_placeholder _ = Ok a) ?v |- _ =>
          cbv beta in H; destruct (title_or_placeholder_short _ _ H) as (? & ? & ?);
          apply emits_append; eapply short_text_dict; eassumption
      end ].

(** X16.  Every finding of parse_browser_history has a description of at
    most 100 characters. *)
Theorem web_activity_titles_truncated (h : host) (w : TriageWindow)
    (fs : list finding) :
  parse_browser_history h w = Ok fs -> Forall (short_text 100) fs.
Proof.
  apply emits_run with (Q := fun _ => True).
  destruct (getenv_nonempty h "LOCALAPPDATA"); [|apply emits_pass].
  destruct (getenv_nonempty h "APPDATA"); [|apply emits_pass].
  eapply emits_bind.
  - apply emits_for_each. intros [bn path].
    unfold chromium_history, chromium_history_row. repeat title_step.
  - intros _ _. apply emits_try_except; [|apply emits_pass].
    eapply emits_bind; [apply emits_lift|]. intros present _.
    destruct present; [|apply emits_pass].
    induction (path_glob h _ _) as [|dir dirs IH]; cbn [firefox_profiles];
      [apply emits_pass|].
    eapply emits_bind; [apply emits_lift|]. intros present _.
    destruct present; cbn [negb]; [|exact IH].
    unfold firefox_history_row. repeat title_step.
Qed.

(** X17.  On a registry whose failures to open a key are OSErrors,
    get_device_install_time never raises; it returns a time only when
    the install-date property holds at least 8 bytes, and then the time
    converted from the first 8 bytes read as a little-endian FILETIME. *)
Theorem get_device_install_time_safe (h : host) (instance_path : string) :
  (forall hv path e, reg_open h hv path = Raise e -> is_OSError e = true) ->
  exists r,
    get_device_install_time h instance_path = Ok r /\
    forall d, r = Some d ->
      exists key b,
        reg_open h HKEY_LOCAL_MACHINE (install_property_path instance_path)
        = Ok key /\
        query_value key "" = Ok (VBytes b) /\ (8 <= length b)%nat /\
        filetime_to_datetime (VInt (le_uint (firstn 8 b))) = Ok (Some d).
Proof.
  intros Hos. unfold get_device_install_time.
  destruct (reg_open h _ _) as [key|e] eqn:Ek; cbn [rbind].
  2:{ rewrite (Hos _ _ _ Ek). exists None. split; [reflexivity|discriminate]. }
  unfold query_value at 1.
  destruct (find _ (reg_values key)) as [p|] eqn:Ef; cbn [rbind is_OSError].
  2:{ exists None. split; [reflexivity|discriminate]. }
  destruct (snd p) as [| | |b| |] eqn:Ep;
    try (exists None; split; [reflexivity|discriminate]).
  destruct (Nat.leb_spec 8 (length b)) as [Hlen|Hlen];
    [|exists None; split; [reflexivity|discriminate]].
  cbn [struct_unpack_le]. rewrite slice_length by lia. cbn [Nat.sub Nat.eqb rbind].
  destruct (filetime_never_raises (VInt (le_uint (slice 0 8 b)))) as [r Er].
  rewrite Er. exists r. split; [reflexivity|]. intros d ->.
  exists key, b. split; [reflexivity|]. unfold query_value. rewrite Ef, Ep.
  auto.
Qed.

(** ** The CSV export *)

Section ExportFacts.

Variables (local_tz : string) (local_off : Z).

Lemma reportable_row f :
  reportable f -> exists row, csv_row local_tz local_off f = Ok row.
Proof.
  unfold reportable, REPORT_FIELDS. intros H.
  inversion H as [|? ? [ts E1] H1]; subst.
  inversion H1 as [|? ? [a E2] H2]; subst.
  inversion H2 as [|? ? [s E3] H3]; subst.
  inversion H3 as [|? ? [de E4] H4]; subst.
  inversion H4 as [|? ? [det E5] _]; subst.
  unfold csv_row, getitem. rewrite E1, E2, E3, E4, E5. cbn [rbind]. eauto.
Qed.


Lemma csv_row_raises f e :
  csv_row local_tz local_off f = Raise e -> e = KeyError /\ ~ reportable f.
Proof.
  unfold csv_row, getitem, reportable, REPORT_FIELDS.
  destruct (f !! "timestamp") eqn:E1; cbn [rbind].
  2:{ intros [= <-]. split; [reflexivity|]. intros H.
      inversion H as [|? ? [x Hx] _]; subst. congruence. }
  destruct (f !! "artifact_type") eqn:E2; cbn [rbind].
  2:{ intros [= <-]. split; [reflexivity|]. intros H.
      inversion H as [|? ? _ H1]; subst.
      inversion H1 as [|? ? [x Hx] _]; subst. congruence. }
  destruct (f !! "source") eqn:E3; cbn [rbind].
  2:{ intros [= <-]. split; [reflexivity|]. intros H.
      inversion H as [|? ? _ H1]; subst. inversion H1 as [|? ? _ H2]; subst.
      inversion H2 as [|? ? [x Hx] _]; subst. congruence. }
  destruct (f !! "description") eqn:E4; cbn [rbind].
  2:{ intros [= <-]. split; [reflexivity|]. intros H.
      inversion H as [|? ? _ H1]; subst. inversion H1 as [|? ? _ H2]; subst.
      inversion H2 as [|? ? _ H3]; subst.
      inversion H3 as [|? ? [x Hx] _]; subst. congruence. }
  destruct (f !! "details") eqn:E5; cbn [rbind]; [discriminate|].
  intros [= <-]. split; [reflexivity|]. intros H.
  inversion H as [|? ? _ H1]; subst. inversion H1 as [|? ? _ H2]; subst.
  inversion H2 as [|? ? _ H3]; subst. inversion H3 as [|? ? _ H4]; subst.
  inversion H4 as [|? ? [x Hx] _]; subst. congruence.
Qed.

Lemma csv_row_columns f row :
  csv_row local_tz local_off f = Ok row ->
  map fst row
  = [ "Timestamp (UTC)"; "Timestamp (" +:+ local_tz +:+ ")"; "Artifact Type";
      "Source"; "Description"; "Details" ] /\
  row !! 1%nat
  = Some ("Timestamp (" +:+ local_tz +:+ ")",
          VStr (local_timestamp local_off f)).
Proof.
  unfold csv_row.
  destruct (getitem f "timestamp"); cbn [rbind]; [|discriminate].
  destruct (getitem f "artifact_type"); cbn [rbind]; [|discriminate].
  destruct (getitem f "source"); cbn [rbind]; [|discriminate].
  destruct (getitem f "description"); cbn [rbind]; [|discriminate].
  destruct (getitem f "details"); cbn [rbind]; [|discriminate].
  intros [= <-]. split; reflexivity.
Qed.

Lemma row_reportable f row :
  csv_row local_tz local_off f = Ok row -> reportable f.
Proof.
  unfold csv_row, getitem, reportable, REPORT_FIELDS.
  destruct (f !! "timestamp") eqn:E1; cbn [rbind]; [|discriminate].
  destruct (f !! "artifact_type") eqn:E2; cbn [rbind]; [|discriminate].
  destruct (f !! "source") eqn:E3; cbn [rbind]; [|discriminate].
  destruct (f !! "description") eqn:E4; cbn [rbind]; [|discriminate].
  destruct (f !! "details") eqn:E5; cbn [rbind]; [|discriminate].
  intros _. repeat constructor; eauto.
Qed.

Lemma unreportable_row f :
  ~ reportable f -> csv_row local_tz local_off f = Raise KeyError.
Proof.
  intros Hn. destruct (csv_row local_tz local_off f) as [row|e] eqn:E.
  - exfalso. apply Hn. eapply row_reportable. exact E.
  - apply csv_row_raises in E as [-> _]. reflexivity.
Qed.

Lemma write_rows_all findings :
  Forall reportable findings ->
  exists rows,
    write_rows local_tz local_off findings = (rows, Ok tt) /\
    Forall2 (fun f row => csv_row local_tz local_off f = Ok row) findings rows.
Proof.
  induction 1 as [|f fs Hf Hfs (rows & E & HF)]; cbn [write_rows].
  - exists []. split; [reflexivity|constructor].
  - destruct (reportable_row f Hf) as [row Hrow]. rewrite Hrow, E.
    exists (row :: rows). split; [reflexivity|]. constructor; assumption.
Qed.

Lemma write_rows_stop good bad rest e :
  Forall reportable good ->
  csv_row local_tz local_off bad = Raise e ->
  exists rows,
    write_rows local_tz local_off (good ++ bad :: rest) = (rows, Raise e) /\
    Forall2 (fun f row => csv_row local_tz local_off f = Ok row) good rows.
Proof.
  intros Hg Hb. induction Hg as [|f fs Hf Hfs (rows & E & HF)];
    cbn [app write_rows].
  - rewrite Hb. exists []. split; [reflexivity|constructor].
  - destruct (reportable_row f Hf) as [row Hrow]. rewrite Hrow, E.
    exists (row :: rows). split; [reflexivity|]. constructor; assumption.
Qed.

End ExportFacts.

(** X18.  When the findings are not empty, each has the five report fields,
    and the path, the zone label and the opening of the file succeed,
    export_to_csv returns the path and writes exactly one row per
    finding, in order, each with the six header columns. *)
Theorem export_writes_every_finding (env : export_env)
    (findings : list finding) (output_file : option string)
    (use_timestamp present : bool) (path local_tz : string) :
  findings <> [] ->
  Forall reportable findings ->
  cwd_join env (export_filename (env_now env) output_file use_timestamp)
  = Ok path ->
  file_exists env path = Ok present ->
  get_timezone_name (env_clock env) = Ok local_tz ->
  open_for_writing env path = Ok tt ->
  exists warning rows,
    export_to_csv env findings output_file use_timestamp
    = (Some path, warning, Some (mkCsv path (fieldnames local_tz) rows)) /\
    Forall2 (fun f row => csv_row local_tz (env_local_offset env) f = Ok row)
      findings rows /\
    Forall (fun row => map fst row = fieldnames local_tz) rows.
Proof.
  intros Hne Hall Hp Hx Htz Hopen. unfold export_to_csv.
  destruct findings as [|f0 fs0] eqn:Ef; [congruence|]. rewrite <- Ef in *.
  rewrite Hp, Hx, Htz, Hopen.
  destruct (write_rows_all local_tz (env_local_offset env) findings Hall)
    as (rows & E & HF).
  rewrite E. eexists _, rows. split; [reflexivity|]. split; [exact HF|].
  eapply Forall2_Forall_r; [exact HF|].
  apply List.Forall_forall. intros f _ row Hrow.
  exact (proj1 (csv_row_columns local_tz (env_local_offset env) f row Hrow)).
Qed.

(** X19.  If a finding lacks one of the five report fields, export_to_csv
    returns None and reports a KeyError, but the file has already been
    created: it keeps the header and the rows of the findings before the
    faulty one. *)
Theorem export_failure_leaves_partial_file (env : export_env)
    (good : list finding) (bad : finding) (rest : list finding)
    (output_file : option string) (use_timestamp present : bool)
    (path local_tz : string) :
  Forall reportable good ->
  ~ reportable bad ->
  cwd_join env (export_filename (env_now env) output_file use_timestamp)
  = Ok path ->
  file_exists env path = Ok present ->
  get_timezone_name (env_clock env) = Ok local_tz ->
  open_for_writing env path = Ok tt ->
  exists warning rows,
    export_to_csv env (good ++ bad :: rest) output_file use_timestamp
    = (None, warning ++ [ExportError KeyError],
       Some (mkCsv path (fieldnames local_tz) rows)) /\
    Forall2 (fun f row => csv_row local_tz (env_local_offset env) f = Ok row)
      good rows.
Proof.
  intros Hg Hb Hp Hx Htz Hopen. unfold export_to_csv.
  destruct (good ++ bad :: rest) as [|f0 fs0] eqn:Ef;
    [destruct good; discriminate|]. rewrite <- Ef.
  rewrite Hp, Hx, Htz, Hopen.
  pose proof (unreportable_row local_tz (env_local_offset env) bad Hb) as Hbad.
  destruct (write_rows_stop local_tz (env_local_offset env) good bad rest
              KeyError Hg Hbad) as (rows & E & HF).
  rewrite E. eexists _, rows. split; [reflexivity|exact HF].
Qed.

(** X20.  A report row can be built exactly when the finding has the keys
    timestamp, artifact_type, source, description and details, and the
    only error is KeyError; a row has the six columns in header order,
    and a finding without timestamp_dt gets the text Conversion Error as
    its local timestamp. *)
Theorem csv_row_needs_five_fields (local_tz : string) (local_off : Z)
    (f : finding) :
  ((exists row, csv_row local_tz local_off f = Ok row) <-> reportable f) /\
  (forall e, csv_row local_tz local_off f = Raise e -> e = KeyError) /\
  (forall row, csv_row local_tz local_off f = Ok row ->
     map fst row
     = [ "Timestamp (UTC)"; "Timestamp (" +:+ local_tz +:+ ")";
         "Artifact Type"; "Source"; "Description"; "Details" ] /\
     (f !! "timestamp_dt" = None ->
      row !! 1%nat
      = Some ("Timestamp (" +:+ local_tz +:+ ")", VStr "Conversion Error"))).
Proof.
  split; [split|split].
  - intros [row Hrow]. exact (row_reportable local_tz local_off f row Hrow).
  - apply reportable_row.
  - intros e E. exact (proj1 (csv_row_raises local_tz local_off f e E)).
  - intros row Hrow.
    destruct (csv_row_columns local_tz local_off f row Hrow) as [Hc Hl].
    split; [exact Hc|]. intros Hdt. rewrite Hl.
    unfold local_timestamp, getitem. rewrite Hdt. reflexivity.
Qed.

(** ** From the collection to the report *)

Section ReportFacts.

Lemma emitted_reportable w f : emitted_ok w f -> reportable f.
Proof.
  intros Hf. destruct (csv_row_emitted w "" 0 f Hf) as [row Hrow].
  exact (row_reportable "" 0 f row Hrow).
Qed.

End ReportFacts.

(** X21.  End to end, for the functions main chains: whenever the collection
    finds anything and the report file can be named and opened,
    export_to_csv applied with the arguments main gives it to the sorted
    collected findings writes a file with exactly one row per collected
    finding, in sorted order, and prints no overwrite warning. *)
Theorem collected_findings_reach_report (argv : list string) (h : host)
    (w : TriageWindow) (env : export_env) (path local_tz : string) (present : bool) :
  fst (collect_all_artifacts argv h w) <> [] ->
  cwd_join env (export_filename (env_now env) None true) = Ok path ->
  file_exists env path = Ok present ->
  get_timezone_name (env_clock env) = Ok local_tz ->
  open_for_writing env path = Ok tt ->
  exists sorted_findings rows,
    sort_findings_by_timestamp (fst (collect_all_artifacts argv h w))
    = Ok sorted_findings /\
    export_to_csv env sorted_findings None true
    = (Some path, [], Some (mkCsv path (fieldnames local_tz) rows)) /\
    Forall2 (fun f row => csv_row local_tz (env_local_offset env) f = Ok row)
      sorted_findings rows /\
    length rows = length (fst (collect_all_artifacts argv h w)).
Proof.
  intros Hne Hp Hx Htz Hopen.
  set (findings := fst (collect_all_artifacts argv h w)) in *.
  assert (He : Forall (emitted_ok w) findings).
  { apply (collected_forall argv w (emitted_ok w) (collectors h)).
    apply collectors_stamped. }
  assert (Ha : Forall aware_key findings).
  { eapply List.Forall_impl; [exact normalized_aware|].
    apply (collected_forall argv w normalized (collectors h)).
    apply collectors_zone. }
  destruct (sorted_desc_aware _ Ha) as (out & E & Hperm & _).
  assert (Hr : Forall reportable out).
  { eapply Permutation_Forall; [exact Hperm|].
    eapply List.Forall_impl; [exact (emitted_reportable w)|exact He]. }
  destruct (write_rows_all local_tz (env_local_offset env) out Hr)
    as (rows & Ew & HF).
  exists out, rows. unfold sort_findings_by_timestamp. rewrite E.
  split; [reflexivity|].
  assert (Hlen : length out = length findings)
    by (symmetry; apply Permutation_length; exact Hperm).
  split; [|split; [exact HF|]].
  - unfold export_to_csv. destruct out as [|f0 out'] eqn:Eo.
    { destruct findings; [congruence|discriminate Hlen]. }
    rewrite <- Eo in *. rewrite Hp, Hx, Htz, Hopen, Ew.
    rewrite andb_false_r. reflexivity.
  - rewrite <- (Forall2_length _ _ _ HF). exact Hlen.
Qed.

Lemma collected_findings_reach_report_witness :
  exists sorted_findings rows,
    sort_findings_by_timestamp
      (fst (collect_all_artifacts ["tracefinder.py"] Examples.runmru_host
              Examples.window))
    = Ok sorted_findings /\
    export_to_csv Examples.lagos_env sorted_findings None true
    = (Some "C:\cases\tracefinder_report_20240601_130000.csv", [],
       Some (mkCsv "C:\cases\tracefinder_report_20240601_130000.csv"
               (fieldnames "UTC+1") rows)) /\
    length rows = 1%nat.
Proof.
  destruct (collected_findings_reach_report ["tracefinder.py"]
              Examples.runmru_host Examples.window Examples.lagos_env
              "C:\cases\tracefinder_report_20240601_130000.csv" "UTC+1" false)
    as (sorted_findings & rows & Es & Ee & _ & L).
  - cbv -[mkdict]. discriminate.
  - reflexivity.
  - reflexivity.
  - reflexivity.
  - reflexivity.
  - exists sorted_findings, rows. split; [exact Es|]. split; [exact Ee|].
    rewrite L. cbv -[mkdict]. reflexivity.
Defined.

(** ** The zone label *)

Section ZoneLabelFacts.

Lemma length_append a b :
  String.length (a +:+ b) = (String.length a + String.length b)%nat.
Proof.
  induction a as [|c a IH]; simpl; [reflexivity|]. rewrite IH. reflexivity.
Qed.

Lemma append_paren tz : tz +:+ ")" = "UTC)" -> tz = "UTC".
Proof.
  destruct tz as [|a [|b [|c [|d r]]]]; cbn; intros [= ]; subst;
    try reflexivity.
  destruct r; discriminate.
Qed.

Lemma fieldnames_nodup tz : tz <> "UTC" -> List.NoDup (fieldnames tz).
Proof.
  intros Hne. unfold fieldnames.
  constructor.
  { cbn [In]. intros [E|[E|[E|[E|[E|[]]]]]]; try discriminate E.
    cbn in E. injection E as E. apply Hne, append_paren.
    exact E. }
  constructor.
  { cbn [In]. intros [E|[E|[E|[E|[]]]]]; cbn in E; discriminate E. }
  repeat (constructor; [cbn [In]; intros H; repeat destruct H as [H|H];
                        try discriminate H; try exact H|]).
  constructor.
Qed.

Lemma format_plus_0f_signed x :
  exists d, format_plus_0f x = String "+"%char d
            \/ format_plus_0f x = String "-"%char d.
Proof. unfold format_plus_0f. destruct (mant x <? 0); cbn; eauto. Qed.

Lemma rne_quot_scale n d c :
  0 < d -> 0 < c -> rne_quot (n * c) (d * c) = rne_quot n d.
Proof.
  intros Hd Hc. unfold rne_quot.
  rewrite Z.div_mul_cancel_r, Z.mul_mod_distr_r by lia.
  replace (2 * (n mod d * c)) with (2 * (n mod d) * c) by lia.
  destruct (Z.compare_spec (2 * (n mod d) * c) (d * c)),
    (Z.compare_spec (2 * (n mod d)) d); try reflexivity; nia.
Qed.

(** The double [j/2] and its rendering, for a count [j] of half hours. *)
Lemma halves_rendered j :
  Z.abs j < 2 ^ 53 ->
  exists x,
    int_truediv (1800 * j) 3600 = Ok x /\
    format_plus_0f x
    = (if j <? 0 then "-" else "+") +:+ str_of_Z (rne_quot (Z.abs j) 2).
Proof.
  intros Hj. unfold int_truediv.
  change (3600 =? 0) with false. change (Z.sgn 3600) with 1.
  change (Z.abs 3600) with 3600. cbv iota.
  rewrite Z.mul_1_r. unfold round_rat.
  destruct (Z.eqb_spec (1800 * j) 0) as [E0|Hn0].
  { assert (j = 0) by lia. subst j. eexists. split; [reflexivity|]. reflexivity. }
  assert (Ha : 0 < Z.abs j) by lia.
  replace (Z.abs (1800 * j)) with (1800 * Z.abs j) by lia.
  destruct (ilog2_quot_spec (1800 * Z.abs j) 3600 ltac:(lia) ltac:(lia))
    as [Hk Hk'].
  set (k := ilog2_quot (1800 * Z.abs j) 3600) in *.
  assert (Hlo : -1 <= k).
  { destruct (Z.lt_ge_cases k (-1)) as [Hlt|]; [|lia].
    specialize (Hk' ltac:(lia)).
    assert (H4 : 2 ^ 2 <= 2 ^ (- k)) by (apply Z.pow_le_mono_r; lia).
    change (2 ^ 2) with 4 in H4.
    assert (1 * 4 <= Z.abs j * 2 ^ (- k))
      by (apply Z.mul_le_mono_nonneg; lia).
    lia. }
  assert (Hhi : k <= 51).
  { destruct (Z.lt_ge_cases 51 k) as [Hgt|]; [|lia].
    specialize (Hk ltac:(lia)).
    assert (H52 : 2 ^ 52 <= 2 ^ k) by (apply Z.pow_le_mono_r; lia).
    change (2 ^ 53) with (2 * 2 ^ 52) in Hj. lia. }
  rewrite Z.max_l by lia.
  destruct (Z.leb_spec 0 (k - 52)); [lia|].
  assert (Hc : 0 < 2 ^ (51 - k)) by (apply Z.pow_pos_nonneg; lia).
  assert (Ep : 2 ^ (- (k - 52)) = 2 * 2 ^ (51 - k)).
  { replace (- (k - 52)) with (1 + (51 - k)) by lia.
    rewrite Z.pow_add_r by lia. reflexivity. }
  rewrite Ep.
  replace (1800 * Z.abs j * (2 * 2 ^ (51 - k)))
    with (Z.abs j * 2 ^ (51 - k) * 3600) by lia.
  rewrite rne_quot_exact by lia.
  unfold overflows. cbn [mant expo].
  destruct (Z.ltb_spec 971 (k - 52)); [lia|].
  destruct (Z.eqb_spec (k - 52) 971); [lia|]. cbn [orb andb].
  eexists. split; [reflexivity|]. unfold format_plus_0f. cbn [mant expo].
  destruct (Z.leb_spec 0 (k - 52)); [lia|]. rewrite Ep.
  assert (Es : Z.abs (Z.sgn (1800 * j) * (Z.abs j * 2 ^ (51 - k)))
               = Z.abs j * 2 ^ (51 - k)).
  { destruct (Z.lt_ge_cases j 0).
    - rewrite Z.sgn_neg by lia. lia.
    - rewrite Z.sgn_pos by lia. lia. }
  rewrite Es, (rne_quot_scale (Z.abs j) 2 (2 ^ (51 - k))) by lia.
  f_equal. f_equal.
  destruct (Z.ltb_spec j 0); destruct (Z.ltb_spec (Z.sgn (1800 * j) * (Z.abs j * 2 ^ (51 - k))) 0);
    try reflexivity; exfalso.
  - rewrite Z.sgn_neg in * by lia. nia.
  - rewrite Z.sgn_pos in * by lia. nia.
Qed.

End ZoneLabelFacts.

(** X22.  The zone label is never the text UTC, so the six CSV column names
    are pairwise distinct; and the console computes the same label as
    the CSV export. *)
Theorem csv_header_columns_distinct (c : clock) (local_tz : string) :
  get_timezone_name c = Ok local_tz ->
  local_tz <> "UTC" /\ List.NoDup (fieldnames local_tz) /\
  get_local_timezone_name c = Ok local_tz.
Proof.
  intros H. assert (Hne : local_tz <> "UTC").
  { revert H. unfold get_timezone_name.
    destruct (int_truediv _ 3600) as [x|e]; cbn [rbind]; [|discriminate].
    destruct (_ || _) eqn:Eg.
    - intros [= <-]. destruct (format_plus_0f_signed x) as [d [-> | ->]];
        discriminate.
    - intros [= <-]. apply orb_false_iff in Eg as [Eg _].
      apply orb_false_iff in Eg as [_ Eg]. intros E. rewrite E in Eg.
      discriminate Eg. }
  split; [exact Hne|]. split; [apply fieldnames_nodup; exact Hne|exact H].
Qed.

(** X23.  When the system zone name is generic (GMT, UTC or longer than five
    characters), the label is UTC followed by the signed offset in hours
    rounded to an integer, ties to even: whole hours are printed
    exactly, while an offset of 5 hours 30 minutes is labelled UTC+6 and
    one of 4 hours 30 minutes UTC+4. *)
Theorem zone_label_rounds_half_hours (c : clock) (j : Z) :
  generic_zone_name c = true ->
  timezone c = - (1800 * j) -> Z.abs j < 2 ^ 53 ->
  get_timezone_name c
  = Ok ("UTC" +:+ (if j <? 0 then "-" else "+")
        +:+ str_of_Z (rne_quot (Z.abs j) 2)) /\
  (forall k, j = 2 * k ->
     get_timezone_name c
     = Ok ("UTC" +:+ (if k <? 0 then "-" else "+") +:+ str_of_Z (Z.abs k))) /\
  (forall k, j = 2 * k + 1 -> 0 <= k ->
     get_timezone_name c
     = Ok ("UTC+" +:+ str_of_Z (if Z.even k then k else k + 1))).
Proof.
  intros Hg Htz Hj.
  assert (E : get_timezone_name c
              = Ok ("UTC" +:+ (if j <? 0 then "-" else "+")
                    +:+ str_of_Z (rne_quot (Z.abs j) 2))).
  { unfold get_timezone_name. rewrite Htz, Z.opp_involutive.
    destruct (halves_rendered j Hj) as (x & -> & Ex). cbn [rbind].
    unfold generic_zone_name, zone_name in Hg. rewrite Hg, Ex. reflexivity. }
  split; [exact E|]. split.
  - intros k ->. rewrite E. do 3 f_equal.
    + destruct (Z.ltb_spec (2 * k) 0), (Z.ltb_spec k 0); try reflexivity; lia.
    + f_equal. replace (Z.abs (2 * k)) with (Z.abs k * 2) by lia.
      apply rne_quot_exact. lia.
  - intros k -> Hk. rewrite E.
    destruct (Z.ltb_spec (2 * k + 1) 0); [lia|].
    assert (Er : rne_quot (Z.abs (2 * k + 1)) 2
                 = if Z.even k then k else k + 1).
    { rewrite Z.abs_eq by lia. unfold rne_quot.
      replace ((2 * k + 1) / 2) with k
        by (apply Z.div_unique with 1; lia).
      replace ((2 * k + 1) mod 2) with 1
        by (apply Z.mod_unique with k; lia).
      reflexivity. }
    rewrite Er. reflexivity.
Qed.

(** ** The console table *)

Section LayoutFacts.

Lemma length_repeat_char c n : String.length (repeat_char c n) = n.
Proof. unfold repeat_char. rewrite length_of_chars. apply repeat_length. Qed.

Lemma length_ljust n s :
  String.length (ljust n s) = Nat.max n (String.length s).
Proof.
  unfold ljust, spaces. rewrite length_append, length_repeat_char. lia.
Qed.

Lemma length_zero_pad w n : String.length (zero_pad w n) = w.
Proof.
  revert n. induction w as [|w IH]; intros n; cbn [zero_pad]; [reflexivity|].
  rewrite length_append, IH. cbn. lia.
Qed.

Lemma strftime_seconds d :
  strftime d "%Y-%m-%d %H:%M:%S"
  = zero_pad 4 (year d) +:+ "-" +:+ zero_pad 2 (month d) +:+ "-"
    +:+ zero_pad 2 (day d) +:+ " " +:+ zero_pad 2 (hour d) +:+ ":"
    +:+ zero_pad 2 (minute d) +:+ ":" +:+ zero_pad 2 (second d) +:+ "".
Proof. reflexivity. Qed.

Lemma strftime_utc d :
  strftime d TS_FORMAT
  = zero_pad 4 (year d) +:+ "-" +:+ zero_pad 2 (month d) +:+ "-"
    +:+ zero_pad 2 (day d) +:+ " " +:+ zero_pad 2 (hour d) +:+ ":"
    +:+ zero_pad 2 (minute d) +:+ ":" +:+ zero_pad 2 (second d) +:+ " UTC".
Proof. reflexivity. Qed.

Lemma length_strftime_seconds d :
  String.length (strftime d "%Y-%m-%d %H:%M:%S") = 19%nat.
Proof.
  rewrite strftime_seconds, !length_append, !length_zero_pad. reflexivity.
Qed.

Lemma length_strftime_utc d : String.length (strftime d TS_FORMAT) = 23%nat.
Proof.
  rewrite strftime_utc, !length_append, !length_zero_pad. reflexivity.
Qed.

Lemma length_local_timestamp off f :
  (String.length (local_timestamp off f) <= 19)%nat.
Proof.
  unfold local_timestamp.
  destruct (getitem f "timestamp_dt") as [v|e]; cbn [rbind]; [|cbn; lia].
  destruct v; try (cbn; lia).
  destruct (astimezone off d) as [l|e]; cbn [rbind]; [|cbn; lia].
  rewrite length_strftime_seconds. lia.
Qed.

Lemma field_prefix_text f k n s :
  f !! k = Some (VStr s) ->
  exists s', field_prefix f k n = Ok (VStr s') /\ (String.length s' <= n)%nat.
Proof.
  intros E. unfold field_prefix, getitem. rewrite E. cbn [rbind py_slice].
  eexists. split; [reflexivity|]. rewrite length_of_chars. unfold slice.
  rewrite length_firstn. lia.
Qed.

Lemma text_finding_fields f :
  text_finding f ->
  exists ts a s de det,
    f !! "timestamp" = Some (VStr ts) /\ f !! "artifact_type" = Some (VStr a) /\
    f !! "source" = Some (VStr s) /\ f !! "description" = Some (VStr de) /\
    f !! "details" = Some (VStr det).
Proof.
  unfold text_finding, REPORT_FIELDS. intros H.
  inversion H as [|? ? [ts E1] H1]; subst.
  inversion H1 as [|? ? [a E2] H2]; subst.
  inversion H2 as [|? ? [s E3] H3]; subst.
  inversion H3 as [|? ? [de E4] H4]; subst.
  inversion H4 as [|? ? [det E5] _]; subst.
  exists ts, a, s, de, det. auto.
Qed.

Lemma table_row_text off f ts :
  text_finding f -> f !! "timestamp" = Some (VStr ts) ->
  exists row,
    table_row off f = Ok row /\
    String.length row = (Nat.max 19 (String.length ts) + 162)%nat.
Proof.
  intros Hf Hts.
  destruct (text_finding_fields f Hf) as (ts' & a & s & de & det & E1 & E2 & E3 & E4 & E5).
  assert (ts' = ts) as -> by congruence.
  destruct (field_prefix_text f "artifact_type" 15 a E2) as (a' & Ea & La).
  destruct (field_prefix_text f "source" 18 s E3) as (s' & Es & Ls).
  destruct (field_prefix_text f "description" 45 de E4) as (de' & Ede & Lde).
  destruct (field_prefix_text f "details" 50 det E5) as (det' & Edet & Ldet).
  unfold table_row. unfold getitem at 1. rewrite E1, Ea, Es, Ede, Edet.
  cbn [rbind format_ljust]. eexists. split; [reflexivity|].
  pose proof (length_local_timestamp off f).
  rewrite !length_append, !length_ljust. cbn [String.length]. lia.
Qed.

Lemma length_table_header tz :
  (String.length tz <= 7)%nat -> String.length (table_header tz) = 181%nat.
Proof.
  intros Htz. unfold table_header.
  rewrite !length_append, !length_ljust, !length_append. cbn [String.length].
  lia.
Qed.

Lemma print_rows_text off findings :
  Forall text_finding findings ->
  exists rows,
    print_rows off findings = (rows, Ok tt) /\
    Forall2
      (fun f row =>
         table_row off f = Ok row /\
         forall ts, f !! "timestamp" = Some (VStr ts) ->
           String.length row = (Nat.max 19 (String.length ts) + 162)%nat)
      findings rows.
Proof.
  induction 1 as [|f fs Hf Hfs (rows & E & HF)]; cbn [print_rows].
  - exists []. split; [reflexivity|constructor].
  - destruct (text_finding_fields f Hf) as (ts & _ & _ & _ & _ & Hts & _).
    destruct (table_row_text off f ts Hf Hts) as (row & Hrow & L).
    rewrite Hrow, E. exists (row :: rows). split; [reflexivity|].
    constructor; [|assumption]. split; [exact Hrow|].
    intros ts' Hts'. assert (ts' = ts) as -> by congruence. exact L.
Qed.

End LayoutFacts.

(** X24.  For a non-empty list of findings whose five report fields are
    strings, print_findings_table ends normally and prints ten lines
    plus one row per finding, in order. The header is the fifth line and
    is 181 characters wide for a zone label of at most 7 characters; a
    row is 162 characters plus the width of its timestamp column, hence
    185 characters for the 23-character timestamp of a collector, which
    overflows the 19-character column. *)
Theorem table_prints_every_text_finding (c : clock) (local_off : Z)
    (findings : list finding) (local_tz : string) :
  findings <> [] -> Forall text_finding findings ->
  get_local_timezone_name c = Ok local_tz ->
  exists lines rows,
    print_findings_table c local_off findings = (lines, Ok tt) /\
    length lines = (length findings + 10)%nat /\
    firstn (length findings) (skipn 6 lines) = rows /\
    Forall2
      (fun f row =>
         table_row local_off f = Ok row /\
         forall ts, f !! "timestamp" = Some (VStr ts) ->
           String.length row = (Nat.max 19 (String.length ts) + 162)%nat /\
           (forall d, ts = strftime d TS_FORMAT ->
                      String.length row = 185%nat))
      findings rows /\
    nth_error lines 4 = Some (table_header local_tz) /\
    ((String.length local_tz <= 7)%nat ->
     String.length (table_header local_tz) = 181%nat) /\
    nth_error lines (length findings + 7)
    = Some ("Total Findings: " +:+ str_of_Z (Z.of_nat (length findings))).
Proof.
  intros Hne Hall Htz. unfold print_findings_table.
  destruct findings as [|f0 fs0] eqn:Ef; [congruence|]. rewrite <- Ef in *.
  rewrite Htz. destruct (print_rows_text local_off findings Hall) as (rows & E & HF).
  rewrite E. eexists _, rows. split; [reflexivity|].
  pose proof (Forall2_length _ _ _ HF) as Hlen.
  split; [|split; [|split; [|split; [reflexivity|split]]]].
  - cbn [length app]. rewrite length_app. cbn [length]. lia.
  - cbn [app skipn]. change (drop 0 ?l) with l.
    rewrite Hlen, List.firstn_app, Nat.sub_diag, List.firstn_all.
    cbn [firstn]. apply app_nil_r.
  - eapply Forall2_impl; [exact HF|]. cbv beta.
    intros f row [Hrow L]. split; [exact Hrow|]. intros ts Hts.
    split; [exact (L ts Hts)|]. intros d ->.
    rewrite (L _ Hts), length_strftime_utc. reflexivity.
  - apply length_table_header.
  - cbn [app]. rewrite Hlen.
    replace (length rows + 7)%nat with (6 + (length rows + 1))%nat by lia.
    cbn [Nat.add nth_error]. rewrite nth_error_app2 by lia.
    replace (length rows + 1 - length rows)%nat with 1%nat by lia.
    reflexivity.
Qed.

Section TableTypes.

Variables (local_off : Z) (km : datetime).

Lemma typed_paths_row entry :
  match snd entry with
  | VStr _ => exists row,
      table_row local_off (typed_paths_finding km entry) = Ok row
  | _ => has_data entry = true ->
         table_row local_off (typed_paths_finding km entry) = Raise TypeError
  end.
Proof.
  destruct (dict_fields (VStr (strftime km TS_FORMAT)) (VDatetime km)
              (VStr "Registry") (VStr "TypedPaths") (snd entry)
              (VStr ("Entry: " +:+ fst entry)))
    as (E1 & _ & E2 & E3 & E4 & E5).
  fold (typed_paths_finding km entry) in E1, E2, E3, E4, E5.
  unfold table_row, field_prefix, getitem. rewrite E1, E2, E3, E4, E5.
  cbn [rbind py_slice]. unfold has_data.
  destruct (snd entry) as [|n|s|b|l|d]; cbn [rbind py_slice format_ljust truthy];
    eauto; discriminate.
Qed.

Lemma print_rows_typed_paths entries :
  Exists (fun entry => forall s, snd entry <> VStr s) entries ->
  Forall (fun entry => has_data entry = true) entries ->
  exists rows,
    print_rows local_off (map (typed_paths_finding km) entries)
    = (rows, Raise TypeError).
Proof.
  intros Hex Hall. induction entries as [|entry entries IH]; cbn [map print_rows].
  - inversion Hex.
  - inversion Hall as [|? ? Hd Hall']; subst.
    pose proof (typed_paths_row entry) as Hrow.
    destruct (snd entry) as [|n|s|b|l|d] eqn:Es;
      try (rewrite (Hrow Hd); eauto; fail).
    destruct Hrow as [row ->].
    inversion Hex as [? ? Hbad|? ? Hex']; subst.
    + exfalso. apply (Hbad s). exact Es.
    + destruct (IH Hex' Hall') as [rows ->]. eauto.
Qed.

End TableTypes.

(** X25.  A TypedPaths value whose data is truthy but not a string (a number
    or binary data) becomes a finding that print_findings_table cannot
    format: the table is cut short by a TypeError. *)
Theorem typed_paths_value_breaks_table (h : host) (w : TriageWindow)
    (key : reg_key) (km : datetime) (c : clock) (local_off : Z)
    (local_tz : string) :
  reg_open h HKEY_CURRENT_USER typed_paths_path = Ok key ->
  filetime_to_datetime (VInt (last_modified key)) = Ok (Some km) ->
  is_within_window w (Some km) = Ok true ->
  Exists (fun entry => has_data entry = true /\ forall s, snd entry <> VStr s)
    (reg_values key) ->
  get_local_timezone_name c = Ok local_tz ->
  exists fs lines,
    parse_typed_paths h w = Ok fs /\
    print_findings_table c local_off fs = (lines, Raise TypeError).
Proof.
  intros Hk Hft Hin Hex Htz.
  exists (map (typed_paths_finding km) (List.filter has_data (reg_values key))).
  assert (Hparse : parse_typed_paths h w
                   = Ok (map (typed_paths_finding km)
                           (List.filter has_data (reg_values key)))).
  { unfold parse_typed_paths, some_within, run, try_except, bind, lift.
    rewrite Hk, Hft, Hin. cbv beta iota. rewrite typed_paths_loop. reflexivity. }
  assert (Hex' : Exists (fun entry => forall s, snd entry <> VStr s)
                   (List.filter has_data (reg_values key))).
  { apply List.Exists_exists in Hex as (entry & Hi & Hd & Hs).
    apply List.Exists_exists. exists entry. split; [|exact Hs].
    apply List.filter_In. auto. }
  assert (Hall : Forall (fun entry => has_data entry = true)
                   (List.filter has_data (reg_values key))).
  { apply List.Forall_forall. intros entry Hi.
    apply List.filter_In in Hi as [_ Hd]. exact Hd. }
  destruct (print_rows_typed_paths local_off km _ Hex' Hall) as [rows Hrows].
  unfold print_findings_table.
  destruct (map _ _) as [|f0 fs0] eqn:Ef.
  { destruct (List.filter has_data (reg_values key)); [inversion Hex'|discriminate]. }
  rewrite Htz, Hrows. eexists. split; [exact Hparse|reflexivity].
Qed.

(** ** The statistics *)

Section KeyEquality.

Lemma byte_val_inj a b : byte_val a = byte_val b -> a = b.
Proof.
  unfold byte_val. intros H. apply N2Z.inj in H.
  pose proof (Strings.Byte.of_to_N a) as Ha. rewrite H in Ha.
  rewrite Strings.Byte.of_to_N in Ha. congruence.
Qed.

Lemma bytes_eqb_eq x y : bytes_eqb x y = true <-> x = y.
Proof.
  revert y. induction x as [|a x IH]; intros [|b y]; cbn [bytes_eqb];
    try (split; [discriminate|congruence]); [tauto|].
  rewrite andb_true_iff, Z.eqb_eq, IH. split.
  - intros [H ->]. f_equal. apply byte_val_inj. exact H.
  - intros [= -> ->]. auto.
Qed.

Lemma py_eqb_spec a b : py_eqb a b = true <-> same_key a b.
Proof.
  destruct a, b; cbn [py_eqb same_key]; try (split; [discriminate|tauto]);
    try tauto.
  - apply Z.eqb_eq.
  - apply String.eqb_eq.
  - apply bytes_eqb_eq.
  - destruct (tzinfo d), (tzinfo d0); try (split; [discriminate|tauto]);
      apply Z.eqb_eq.
Qed.

Lemma same_key_sym a b : same_key a b -> same_key b a.
Proof.
  destruct a, b; cbn [same_key]; try tauto; try congruence.
  destruct (tzinfo d), (tzinfo d0); try tauto; congruence.
Qed.

Lemma same_key_trans a b c : same_key a b -> same_key b c -> same_key a c.
Proof.
  destruct a, b, c; cbn [same_key]; try tauto; try congruence.
  destruct (tzinfo d), (tzinfo d0), (tzinfo d1); try tauto; congruence.
Qed.

Lemma py_eqb_sym a b : py_eqb a b = py_eqb b a.
Proof.
  destruct (py_eqb a b) eqn:E1, (py_eqb b a) eqn:E2; try reflexivity.
  - apply py_eqb_spec, same_key_sym, py_eqb_spec in E1. congruence.
  - apply py_eqb_spec, same_key_sym, py_eqb_spec in E2. congruence.
Qed.

Lemma py_eqb_trans a b c :
  py_eqb a b = true -> py_eqb b c = true -> py_eqb a c = true.
Proof.
  rewrite !py_eqb_spec. apply same_key_trans.
Qed.

End KeyEquality.

Section TallyFacts.

Lemma count_of_bump v k d :
  count_of v (bump_go k d) = count_of v d + hit k v.
Proof.
  unfold hit. induction d as [|[k' n] d IH]; cbn [bump_go].
  - unfold count_of. cbn [find fst snd]. destruct (py_eqb k v); reflexivity.
  - destruct (py_eqb k' k) eqn:E1.
    + unfold count_of. cbn [find fst snd].
      destruct (py_eqb k' v) eqn:E2.
      * rewrite (py_eqb_trans k k' v); [reflexivity| |exact E2].
        rewrite py_eqb_sym. exact E1.
      * destruct (py_eqb k v) eqn:E3; [|lia].
        rewrite (py_eqb_trans k' k v E1 E3) in E2. discriminate.
    + unfold count_of in *. cbn [find fst snd].
      destruct (py_eqb k' v) eqn:E2; [|exact IH].
      destruct (py_eqb k v) eqn:E3; [|lia].
      rewrite py_eqb_sym in E3. rewrite (py_eqb_trans k' v k E2 E3) in E1.
      discriminate.
Qed.

Lemma counts_total_bump k d : counts_total (bump_go k d) = counts_total d + 1.
Proof.
  induction d as [|[k' n] d IH]; cbn [bump_go counts_total fold_right snd];
    [lia|].
  destruct (py_eqb k' k); cbn [counts_total fold_right snd].
  - fold (counts_total d). lia.
  - fold (counts_total d). fold (counts_total (bump_go k d)). lia.
Qed.

Lemma occurrences_cons k v f fs :
  occurrences k v (f :: fs)
  = occurrences k v fs
    + match f !! k with Some v' => hit v' v | None => 0 end.
Proof.
  unfold occurrences, hit. cbn [List.filter].
  destruct (f !! k) as [v'|]; [|lia].
  destruct (py_eqb v' v); cbn [length]; lia.
Qed.

Lemma tally_spec findings : forall tc sc tc' sc',
  tally findings tc sc = Ok (tc', sc') ->
  (forall v, count_of v tc'
             = count_of v tc + occurrences "artifact_type" v findings) /\
  (forall v, count_of v sc' = count_of v sc + occurrences "source" v findings) /\
  counts_total tc' = counts_total tc + Z.of_nat (length findings) /\
  counts_total sc' = counts_total sc + Z.of_nat (length findings).
Proof.
  induction findings as [|f fs IH]; intros tc sc tc' sc'; cbn [tally].
  - intros [= <- <-]. unfold occurrences. cbn. repeat split; intros; lia.
  - unfold getitem, bump.
    destruct (f !! "artifact_type") as [a|] eqn:Ea; cbn [rbind]; [|discriminate].
    destruct (f !! "source") as [s|] eqn:Es; cbn [rbind]; [|discriminate].
    destruct (hashable a); cbn [rbind]; [|discriminate].
    destruct (hashable s); cbn [rbind]; [|discriminate].
    intros E. destruct (IH _ _ _ _ E) as (H1 & H2 & H3 & H4).
    split; [|split; [|split]].
    + intros v. rewrite H1, count_of_bump, occurrences_cons, Ea. lia.
    + intros v. rewrite H2, count_of_bump, occurrences_cons, Es. lia.
    + rewrite H3, counts_total_bump. cbn [length]. lia.
    + rewrite H4, counts_total_bump. cbn [length]. lia.
Qed.

Lemma rank_insert x s :
  exists r, insert_desc (fun item : pyval * Z => VInt (snd item)) x s = Ok r /\
            (StronglySorted by_count s -> StronglySorted by_count r).
Proof.
  induction s as [|y s (r & E & Hs)]; cbn [insert_desc py_lt rbind].
  - eexists. split; [reflexivity|]. intros _. repeat constructor.
  - destruct (Z.ltb_spec (snd x) (snd y)) as [Hlt|Hge].
    + rewrite E. cbn [rbind]. eexists. split; [reflexivity|].
      intros Hss. inversion Hss as [|? ? Hs' Hall]; subst.
      constructor; [auto|].
      pose proof (insert_desc_perm _ _ _ _ E) as Hp.
      rewrite <- Hp. constructor; [unfold by_count; lia|assumption].
    + eexists. split; [reflexivity|].
      intros Hss. constructor; [assumption|].
      inversion Hss as [|? ? Hs' Hall]; subst.
      constructor; [unfold by_count; lia|].
      eapply List.Forall_impl; [|exact Hall]. unfold by_count. intros; lia.
Qed.

Lemma ranked_sorted d :
  exists r, ranked d = Ok r /\ Permutation d r /\ StronglySorted by_count r.
Proof.
  unfold ranked. induction d as [|x d (s & E & Hp & Hs)]; cbn [sorted_desc].
  - exists []. repeat split; constructor.
  - rewrite E. cbn [rbind]. destruct (rank_insert x s) as (r & Er & Hr).
    exists r. split; [exact Er|]. split; [|auto].
    rewrite <- (insert_desc_perm _ _ _ _ Er). constructor. exact Hp.
Qed.

End TallyFacts.

(** X26.  In the statistics, the count kept for each artifact type and for
    each source is the number of findings carrying that value, the
    counts of each table add up to the number of findings, and each
    table is printed as a permutation of its entries in descending order
    of count. *)
Theorem statistics_add_up (findings : list finding)
    (type_counts source_counts : counts) :
  tally findings [] [] = Ok (type_counts, source_counts) ->
  (forall v, count_of v type_counts = occurrences "artifact_type" v findings) /\
  (forall v, count_of v source_counts = occurrences "source" v findings) /\
  counts_total type_counts = Z.of_nat (length findings) /\
  counts_total source_counts = Z.of_nat (length findings) /\
  exists by_type by_source,
    ranked type_counts = Ok by_type /\ ranked source_counts = Ok by_source /\
    Permutation type_counts by_type /\ Permutation source_counts by_source /\
    StronglySorted (fun a b => snd b <= snd a) by_type /\
    StronglySorted (fun a b => snd b <= snd a) by_source.
Proof.
  intros E. destruct (tally_spec _ _ _ _ _ E) as (H1 & H2 & H3 & H4).
  split; [intros v; rewrite H1; reflexivity|].
  split; [intros v; rewrite H2; reflexivity|].
  split; [rewrite H3; reflexivity|]. split; [rewrite H4; reflexivity|].
  destruct (ranked_sorted type_counts) as (bt & Et & Pt & St).
  destruct (ranked_sorted source_counts) as (bs & Es & Ps & Ss).
  exists bt, bs. auto 10.
Qed.

Section StatisticsText.

Lemma bump_go_text k d s :
  k = VStr s -> Forall text_key d -> Forall text_key (bump_go k d).
Proof.
  intros -> Hd. induction Hd as [|[k' n] d Hk Hd IH]; cbn [bump_go].
  - repeat constructor. exists s. reflexivity.
  - destruct (py_eqb k' (VStr s)); constructor; auto.
Qed.

Lemma tally_text findings : forall tc sc,
  Forall text_finding findings -> Forall text_key tc -> Forall text_key sc ->
  exists tc' sc',
    tally findings tc sc = Ok (tc', sc') /\
    Forall text_key tc' /\ Forall text_key sc'.
Proof.
  induction findings as [|f fs IH]; intros tc sc Hf Htc Hsc; cbn [tally].
  - eauto.
  - inversion Hf as [|? ? Hf0 Hfs]; subst.
    destruct (text_finding_fields f Hf0) as (ts & a & s & de & det & _ & Ea & Es & _).
    unfold getitem, bump. rewrite Ea, Es. cbn [rbind hashable].
    apply IH; [exact Hfs| |]; eapply bump_go_text; eauto.
Qed.

Lemma print_counts_text items :
  Forall text_key items ->
  exists lines,
    print_counts items = (lines, Ok tt) /\ length lines = length items.
Proof.
  induction 1 as [|[k n] items [s Hk] Hi (lines & E & L)]; cbn [print_counts].
  - exists []. auto.
  - cbn [fst] in Hk. subst k. unfold count_line. cbn [fst snd format_ljust rbind].
    rewrite E. eexists. split; [reflexivity|]. cbn [length]. lia.
Qed.

End StatisticsText.

(** X27.  For a non-empty list of findings whose report fields are strings,
    print_statistics ends normally and prints ten lines plus one line
    per distinct artifact type and one per distinct source. *)
Theorem print_statistics_text (findings : list finding) :
  findings <> [] -> Forall text_finding findings ->
  exists lines type_counts source_counts,
    tally findings [] [] = Ok (type_counts, source_counts) /\
    print_statistics findings = (lines, Ok tt) /\
    length lines = (length type_counts + length source_counts + 10)%nat.
Proof.
  intros Hne Hall.
  destruct (tally_text findings [] [] Hall (List.Forall_nil _) (List.Forall_nil _))
    as (tc & sc & Et & Htc & Hsc).
  destruct (ranked_sorted tc) as (bt & Ebt & Pt & _).
  destruct (ranked_sorted sc) as (bs & Ebs & Ps & _).
  assert (Hbt : Forall text_key bt).
  { apply List.Forall_forall. intros x Hx. rewrite List.Forall_forall in Htc.
    apply Htc. eapply Permutation_in; [symmetry; exact Pt|exact Hx]. }
  assert (Hbs : Forall text_key bs).
  { apply List.Forall_forall. intros x Hx. rewrite List.Forall_forall in Hsc.
    apply Hsc. eapply Permutation_in; [symmetry; exact Ps|exact Hx]. }
  destruct (print_counts_text bt Hbt) as (lt & Elt & Llt).
  destruct (print_counts_text bs Hbs) as (ls & Els & Lls).
  unfold print_statistics.
  destruct findings as [|f0 fs0] eqn:Ef; [congruence|]. rewrite <- Ef in *.
  rewrite Et, Ebt, Elt, Ebs, Els.
  eexists _, tc, sc. split; [reflexivity|]. split; [reflexivity|].
  rewrite !length_app. cbn [length].
  rewrite Llt, Lls, <- (Permutation_length Pt), <- (Permutation_length Ps). lia.
Qed.

(** ** The command line *)

Section DecimalFacts.

Lemma ord_chr n : 0 <= n < 256 -> ord (chr n) = n.
Proof.
  intros Hn. unfold ord, chr. rewrite N_ascii_embedding; lia.
Qed.

Lemma digit_decimal n : is_decimal_char (digit n) = true.
Proof.
  unfold is_decimal_char, digit.
  pose proof (Z.mod_pos_bound n 10 ltac:(lia)).
  rewrite ord_chr by lia. apply andb_true_intro. split; apply Z.leb_le; lia.
Qed.

Lemma digit_value n : ord (digit n) - 48 = n mod 10.
Proof.
  unfold digit. pose proof (Z.mod_pos_bound n 10 ltac:(lia)).
  rewrite ord_chr by lia. lia.
Qed.

Lemma digits_value_snoc l c :
  digits_value (l ++ [c]) = 10 * digits_value l + (ord c - 48).
Proof. unfold digits_value. rewrite fold_left_app. reflexivity. Qed.

Lemma dec_go_digits fuel : forall n acc,
  0 <= n < 10 ^ Z.of_nat (S fuel) ->
  exists ds, chars (dec_go (S fuel) n acc) = ds ++ chars acc /\
             ds <> [] /\ forallb is_decimal_char ds = true /\
             digits_value ds = n.
Proof.
  assert (Hsmall : forall n acc, 0 <= n < 10 ->
    exists ds, String (digit n) acc = of_chars (ds ++ chars acc) /\
               ds = [digit n] /\ forallb is_decimal_char ds = true /\
               digits_value ds = n).
  { intros n acc Hn. exists [digit n]. cbn [app of_chars].
    rewrite of_chars_chars. split; [reflexivity|]. split; [reflexivity|].
    split; [cbn [forallb]; rewrite digit_decimal; reflexivity|].
    unfold digits_value. cbn [fold_left]. rewrite digit_value.
    rewrite Z.mod_small; lia. }
  induction fuel as [|fuel IH]; intros n acc Hn; cbn [dec_go].
  - change (10 ^ Z.of_nat 1) with 10 in Hn.
    destruct (Z.ltb_spec n 10); [|lia].
    destruct (Hsmall n acc Hn) as (ds & _ & -> & Hd & Hv).
    exists [digit n]. split; [reflexivity|]. split; [discriminate|]. auto.
  - destruct (Z.ltb_spec n 10) as [Hs|Hl].
    + destruct (Hsmall n acc ltac:(lia)) as (ds & _ & -> & Hd & Hv).
      exists [digit n]. split; [reflexivity|]. split; [discriminate|]. auto.
    + rewrite Nat2Z.inj_succ, Z.pow_succ_r in Hn by lia.
      destruct (IH (n / 10) (String (digit n) acc)) as (ds & E & Hne & Hd & Hv).
      { split; [apply Z.div_pos; lia|].
        apply Z.div_lt_upper_bound; lia. }
      exists (ds ++ [digit n]). cbn [dec_go] in E. rewrite E. cbn [chars].
      rewrite <- app_assoc. split; [reflexivity|].
      split; [destruct ds; discriminate|].
      split.
      * rewrite forallb_app, Hd. cbn [forallb]. rewrite digit_decimal. reflexivity.
      * rewrite digits_value_snoc, Hv, digit_value.
        pose proof (Z.div_mod n 10 ltac:(lia)). lia.
Qed.

Lemma str_of_Z_digits n :
  0 <= n ->
  chars (str_of_Z n) <> [] /\
  forallb is_decimal_char (chars (str_of_Z n)) = true /\
  digits_value (chars (str_of_Z n)) = n.
Proof.
  intros Hn. unfold str_of_Z. destruct (Z.ltb_spec n 0); [lia|].
  rewrite Z.abs_eq by lia.
  destruct (dec_go_digits (Z.to_nat (Z.log2 n)) n "") as (ds & E & Hne & Hd & Hv).
  { split; [exact Hn|]. destruct (Z.eq_dec n 0) as [->|Hnz]; [cbn; lia|].
    destruct (Z.log2_spec n ltac:(lia)) as [_ Hu].
    rewrite Nat2Z.inj_succ, Z2Nat.id by apply Z.log2_nonneg.
    eapply Z.lt_le_trans; [exact Hu|].
    apply Z.pow_le_mono_l. lia. }
  cbn [chars] in E. rewrite app_nil_r in E. rewrite E. auto.
Qed.

Lemma digits_value_nonneg l :
  forallb is_decimal_char l = true -> 0 <= digits_value l.
Proof.
  induction l as [|c l IH] using rev_ind; [cbn; lia|].
  rewrite forallb_app, andb_true_iff. cbn [forallb]. rewrite andb_true_r.
  intros [Hl Hc]. rewrite digits_value_snoc. specialize (IH Hl).
  unfold is_decimal_char in Hc. apply andb_true_iff in Hc as [Hc _].
  apply Z.leb_le in Hc. lia.
Qed.

Lemma decimal_isdigit l :
  forallb is_decimal_char l = true -> forallb isdigit_char l = true.
Proof.
  induction l as [|c l IH]; cbn [forallb]; [reflexivity|].
  rewrite !andb_true_iff. intros [Hc Hl]. split; [|auto].
  unfold isdigit_char. rewrite Hc. reflexivity.
Qed.

End DecimalFacts.

(** X28.  The window size main takes from the command line is never
    negative, and reading it can only fail with ValueError (a
    superscript digit passes isdigit but not int). The decimal text of a
    non-negative number of at most 4300 digits is read back as that
    number, and a missing or non-digit argument leaves the default of
    180 minutes. *)
Theorem window_minutes_of_argv :
  (forall argv m, window_minutes_of argv = Ok m -> 0 <= m) /\
  (forall argv e, window_minutes_of argv = Raise e -> e = ValueError) /\
  (forall prog n rest,
     0 <= n -> str_len (str_of_Z n) <= 4300 ->
     window_minutes_of (prog :: str_of_Z n :: rest) = Ok n) /\
  (forall prog arg rest,
     isdigit arg = false -> window_minutes_of (prog :: arg :: rest) = Ok 180) /\
  window_minutes_of [] = Ok 180 /\
  (forall prog, window_minutes_of [prog] = Ok 180).
Proof.
  split; [|split; [|split; [|split; [|split]]]].
  - intros argv m. unfold window_minutes_of.
    destruct argv as [|prog [|arg rest]]; try (intros [= <-]; lia).
    destruct (isdigit arg); [|intros [= <-]; lia].
    unfold int_of_digits. destruct (forallb _ _) eqn:Hd; [|discriminate].
    destruct (_ <? _); [discriminate|]. intros [= <-].
    apply (digits_value_nonneg _ Hd).
  - intros argv e. unfold window_minutes_of.
    destruct argv as [|prog [|arg rest]]; try discriminate.
    destruct (isdigit arg); [|discriminate].
    unfold int_of_digits. destruct (forallb _ _); [|congruence].
    destruct (_ <? _); congruence.
  - intros prog n rest Hn Hlen. unfold window_minutes_of.
    destruct (str_of_Z_digits n Hn) as (Hne & Hd & Hv).
    assert (Hi : isdigit (str_of_Z n) = true).
    { unfold isdigit. rewrite (decimal_isdigit _ Hd), andb_true_r.
      destruct (str_of_Z n); [exfalso; apply Hne; reflexivity|reflexivity]. }
    rewrite Hi. unfold int_of_digits. rewrite Hd.
    destruct (Z.ltb_spec 4300 (str_len (str_of_Z n))); [lia|].
    fold (digits_value (chars (str_of_Z n))). rewrite Hv. reflexivity.
  - intros prog arg rest Hd. unfold window_minutes_of. rewrite Hd. reflexivity.
  - reflexivity.
  - reflexivity.
Qed.

(** ** Timestamp text and report names *)

Section CalendarFacts.

Lemma all_from_spec n : forall z p,
  all_from n z p = true -> forall k, z <= k < z + Z.of_nat n -> p k = true.
Proof.
  induction n as [|n IH]; cbn [all_from]; intros z p H k Hk; [lia|].
  apply andb_true_iff in H as [H1 H2].
  destruct (Z.eq_dec k z) as [->|Hne]; [exact H1|].
  apply (IH (z + 1) p H2). lia.
Qed.

Lemma era_checked : all_from (Z.to_nat 146097) (-306) era_day_ok = true.
Proof. vm_compute. reflexivity. Qed.

Lemma civil_from_days_shift z k :
  civil_from_days (z + k * 146097)
  = (fst (fst (civil_from_days z)) + 400 * k,
     snd (fst (civil_from_days z)), snd (civil_from_days z)).
Proof.
  unfold civil_from_days.
  replace (z + k * 146097 + 306) with (z + 306 + k * 146097) by lia.
  rewrite Z.div_add by lia.
  set (era := (z + 306) / 146097).
  replace (z + 306 + k * 146097 - (era + k) * 146097)
    with (z + 306 - era * 146097) by lia.
  set (doe := z + 306 - era * 146097).
  set (yoe := (doe - doe / 1460 + doe / 36524 - doe / 146096) / 365).
  set (doy := doe - (365 * yoe + yoe / 4 - yoe / 100)).
  set (mp := (5 * doy + 2) / 153).
  cbn [fst snd]. destruct (_ <=? 2); f_equal; f_equal; lia.
Qed.

Lemma days_from_civil_shift y m d k :
  days_from_civil (y + 400 * k) m d = days_from_civil y m d + k * 146097.
Proof.
  unfold days_from_civil.
  assert (E : (if m <=? 2 then y + 400 * k - 1 else y + 400 * k)
              = (if m <=? 2 then y - 1 else y) + k * 400)
    by (destruct (m <=? 2); lia).
  rewrite E. set (y' := if m <=? 2 then y - 1 else y).
  rewrite Z.div_add by lia. set (era := y' / 400).
  replace (y' + k * 400 - (era + k) * 400) with (y' - era * 400) by lia.
  lia.
Qed.

(** The calendar of [strftime] and that of the constructor agree: the
    date of a day number has that day number, its month and day are in
    range, and the days of [datetime] lie in years 1 to 9999. *)
Lemma civil_round_trip z :
  let '(y, m, d) := civil_from_days z in
  days_from_civil y m d = z /\ 1 <= m <= 12 /\ 1 <= d <= 31 /\
  (0 <= z < 3652059 -> 1 <= y <= 9999).
Proof.
  set (k := (z + 306) / 146097). set (z0 := z - k * 146097).
  assert (Hz0 : -306 <= z0 < -306 + Z.of_nat (Z.to_nat 146097)).
  { rewrite Z2Nat.id by lia. unfold z0, k.
    pose proof (Z.div_mod (z + 306) 146097 ltac:(lia)).
    pose proof (Z.mod_pos_bound (z + 306) 146097 ltac:(lia)). lia. }
  pose proof (all_from_spec _ _ _ era_checked z0 Hz0) as Hok.
  replace z with (z0 + k * 146097) by (unfold z0; lia).
  rewrite civil_from_days_shift. unfold era_day_ok in Hok.
  destruct (civil_from_days z0) as [[y m] d]. cbn [fst snd].
  repeat (apply andb_true_iff in Hok as [Hok ?]).
  rewrite days_from_civil_shift.
  repeat match goal with
         | H : (_ <=? _) = true |- _ => apply Z.leb_le in H
         | H : (_ =? _) = true |- _ => apply Z.eqb_eq in H
         | H : (_ || _) = true |- _ => apply orb_true_iff in H
         end.
  split; [lia|]. split; [lia|]. split; [lia|]. intros Hr.
  assert (0 <= k <= 24) by lia.
  repeat match goal with
         | H : _ \/ _ |- _ => destruct H as [H|H]
         | H : (_ <? _) = true |- _ => apply Z.ltb_lt in H
         | H : (_ <=? _) = true |- _ => apply Z.leb_le in H
         end; lia.
Qed.

End CalendarFacts.

Section StampText.

Lemma zero_pad_value w : forall n,
  digits_value (chars (zero_pad w n)) = n mod 10 ^ Z.of_nat w.
Proof.
  induction w as [|w IH]; intros n.
  - cbn. rewrite Z.mod_1_r. reflexivity.
  - cbn [zero_pad]. rewrite chars_append. cbn [chars].
    rewrite digits_value_snoc, IH, digit_value.
    rewrite Nat2Z.inj_succ, Z.pow_succ_r by lia.
    rewrite (Z.rem_mul_r n 10 (10 ^ Z.of_nat w)); [lia|lia|].
    apply Z.pow_pos_nonneg; lia.
Qed.

Lemma zero_pad_inj w a b :
  0 <= a < 10 ^ Z.of_nat w -> 0 <= b < 10 ^ Z.of_nat w ->
  zero_pad w a = zero_pad w b -> a = b.
Proof.
  intros Ha Hb E.
  pose proof (zero_pad_value w a) as Va. rewrite E, zero_pad_value in Va.
  rewrite !Z.mod_small in Va by lia. lia.
Qed.

Lemma append_inj_length a a' b b' :
  String.length a = String.length a' -> a +:+ b = a' +:+ b' ->
  a = a' /\ b = b'.
Proof.
  revert a'. induction a as [|c a IH]; intros [|c' a'] L E;
    try discriminate L.
  - auto.
  - simpl in E. injection E as -> E. injection L as L.
    destruct (IH a' L E) as [-> ->]. auto.
Qed.

Lemma strip_char c s t : String c "" +:+ s = String c "" +:+ t -> s = t.
Proof. simpl. intros [= E]. exact E. Qed.

Lemma zero_pad_split w a b s t :
  zero_pad w a +:+ s = zero_pad w b +:+ t -> zero_pad w a = zero_pad w b /\ s = t.
Proof.
  apply append_inj_length. rewrite !length_zero_pad. reflexivity.
Qed.

(** The six fields [strftime] prints are those of the whole second. *)
Lemma fields_of_second d :
  0 <= us d ->
  let s := us d / US_PER_SECOND in
  us d / US_PER_DAY = s / 86400 /\
  hour d = s mod 86400 / 3600 /\
  minute d = s / 60 mod 60 /\ second d = s mod 60.
Proof.
  intros Hu. cbv zeta. unfold hour, minute, second, US_PER_DAY, US_PER_SECOND.
  set (u := us d) in *.
  assert (E1 : u / (86400 * 1000000) = u / 1000000 / 86400)
    by (rewrite Z.div_div by lia; f_equal; lia).
  assert (E2 : u / (60 * 1000000) = u / 1000000 / 60)
    by (rewrite Z.div_div by lia; f_equal; lia).
  rewrite E1, E2. split; [reflexivity|]. split; [|split; reflexivity].
  replace (86400 * 1000000) with (1000000 * 86400) by lia.
  rewrite Z.rem_mul_r by lia.
  replace (3600 * 1000000) with (1000000 * 3600) by lia.
  rewrite <- Z.div_div by lia. f_equal.
  pose proof (Z.mod_pos_bound u 1000000 ltac:(lia)).
  symmetry. apply Z.div_unique with (u mod 1000000); lia.
Qed.

Lemma second_of_fields s :
  s = 86400 * (s / 86400) + 3600 * (s mod 86400 / 3600)
      + 60 * (s / 60 mod 60) + s mod 60.
Proof.
  pose proof (Z.div_mod s 86400 ltac:(lia)).
  pose proof (Z.mod_pos_bound s 86400 ltac:(lia)).
  pose proof (Z.div_mod (s mod 86400) 3600 ltac:(lia)).
  pose proof (Z.mod_pos_bound (s mod 86400) 3600 ltac:(lia)).
  pose proof (Z.div_mod s 60 ltac:(lia)).
  pose proof (Z.mod_pos_bound s 60 ltac:(lia)).
  pose proof (Z.div_mod (s / 60) 60 ltac:(lia)).
  pose proof (Z.mod_pos_bound (s / 60) 60 ltac:(lia)).
  assert (E : s mod 86400 mod 3600 = 60 * (s / 60 mod 60) + s mod 60).
  { assert (E3600 : s mod 86400 mod 3600 = s mod 3600).
    { apply Z.mod_unique
        with (24 * (s / 86400) + s mod 86400 / 3600); lia. }
    rewrite E3600. symmetry.
    apply Z.mod_unique with (s / 60 / 60); [lia|].
    pose proof (Z.div_mod (s / 60) 60 ltac:(lia)). lia. }
  lia.
Qed.

Lemma fields_determine_second d1 d2 :
  0 <= us d1 < MAX_US -> 0 <= us d2 < MAX_US ->
  year d1 = year d2 -> month d1 = month d2 -> day d1 = day d2 ->
  hour d1 = hour d2 -> minute d1 = minute d2 -> second d1 = second d2 ->
  us d1 / US_PER_SECOND = us d2 / US_PER_SECOND.
Proof.
  intros H1 H2 Hy Hm Hd HH HM HS.
  destruct (fields_of_second d1 ltac:(lia)) as (D1 & Eh1 & Em1 & Es1).
  destruct (fields_of_second d2 ltac:(lia)) as (D2 & Eh2 & Em2 & Es2).
  assert (Hday : us d1 / US_PER_DAY = us d2 / US_PER_DAY).
  { unfold year, month, day in Hy, Hm, Hd.
    pose proof (civil_round_trip (us d1 / US_PER_DAY)) as R1.
    pose proof (civil_round_trip (us d2 / US_PER_DAY)) as R2.
    destruct (civil_from_days (us d1 / US_PER_DAY)) as [[y1 m1] dd1].
    destruct (civil_from_days (us d2 / US_PER_DAY)) as [[y2 m2] dd2].
    cbn [fst snd] in *. destruct R1 as [R1 _], R2 as [R2 _]. congruence. }
  rewrite (second_of_fields (us d1 / US_PER_SECOND)),
          (second_of_fields (us d2 / US_PER_SECOND)).
  congruence.
Qed.

(** Ranges of the printed fields of a datetime in range. *)
Lemma field_ranges d :
  0 <= us d < MAX_US ->
  1 <= year d <= 9999 /\ 1 <= month d <= 12 /\ 1 <= day d <= 31 /\
  0 <= hour d < 24 /\ 0 <= minute d < 60 /\ 0 <= second d < 60.
Proof.
  intros Hr. destruct (fields_of_second d ltac:(lia)) as (_ & Eh & Em & Es).
  rewrite Eh, Em, Es.
  assert (Hz : 0 <= us d / US_PER_DAY < 3652059).
  { unfold MAX_US in Hr. split; [apply Z.div_pos; [lia|reflexivity]|].
    apply Z.div_lt_upper_bound; [reflexivity|lia]. }
  pose proof (civil_round_trip (us d / US_PER_DAY)) as R.
  unfold year, month, day.
  destruct (civil_from_days (us d / US_PER_DAY)) as [[y m] dd].
  cbn [fst snd]. destruct R as (_ & Rm & Rd & Ry). specialize (Ry Hz).
  pose proof (Z.mod_pos_bound (us d / US_PER_SECOND) 86400 ltac:(lia)).
  repeat split; try lia.
  - apply Z.div_pos; lia.
  - apply Z.div_lt_upper_bound; lia.
  - apply Z.mod_pos_bound; lia.
  - apply Z.mod_pos_bound; lia.
  - apply Z.mod_pos_bound; lia.
  - apply Z.mod_pos_bound; lia.
Qed.

Lemma strftime_utc_fields d1 d2 :
  0 <= us d1 < MAX_US -> 0 <= us d2 < MAX_US ->
  strftime d1 TS_FORMAT = strftime d2 TS_FORMAT ->
  year d1 = year d2 /\ month d1 = month d2 /\ day d1 = day d2 /\
  hour d1 = hour d2 /\ minute d1 = minute d2 /\ second d1 = second d2.
Proof.
  intros H1 H2. rewrite !strftime_utc. intros E.
  destruct (field_ranges d1 H1) as (Y1 & M1 & D1 & h1 & m1 & s1).
  destruct (field_ranges d2 H2) as (Y2 & M2 & D2 & h2 & m2 & s2).
  apply zero_pad_split in E as [Ey E]. apply (strip_char "-"%char) in E.
  apply zero_pad_split in E as [Em E]. apply (strip_char "-"%char) in E.
  apply zero_pad_split in E as [Ed E]. apply (strip_char " "%char) in E.
  apply zero_pad_split in E as [Eh E]. apply (strip_char ":"%char) in E.
  apply zero_pad_split in E as [Emi E]. apply (strip_char ":"%char) in E.
  apply zero_pad_split in E as [Es _].
  apply zero_pad_inj in Ey, Em, Ed, Eh, Emi, Es;
    try (change (10 ^ Z.of_nat 4) with 10000);
    try (change (10 ^ Z.of_nat 2) with 100); lia.
Qed.

Lemma strftime_file_fields d1 d2 :
  0 <= us d1 < MAX_US -> 0 <= us d2 < MAX_US ->
  strftime d1 "%Y%m%d_%H%M%S" = strftime d2 "%Y%m%d_%H%M%S" ->
  year d1 = year d2 /\ month d1 = month d2 /\ day d1 = day d2 /\
  hour d1 = hour d2 /\ minute d1 = minute d2 /\ second d1 = second d2.
Proof.
  intros H1 H2.
  change (strftime d1 "%Y%m%d_%H%M%S")
    with (zero_pad 4 (year d1) +:+ zero_pad 2 (month d1) +:+ zero_pad 2 (day d1)
          +:+ "_" +:+ zero_pad 2 (hour d1) +:+ zero_pad 2 (minute d1)
          +:+ zero_pad 2 (second d1) +:+ "").
  change (strftime d2 "%Y%m%d_%H%M%S")
    with (zero_pad 4 (year d2) +:+ zero_pad 2 (month d2) +:+ zero_pad 2 (day d2)
          +:+ "_" +:+ zero_pad 2 (hour d2) +:+ zero_pad 2 (minute d2)
          +:+ zero_pad 2 (second d2) +:+ "").
  intros E.
  destruct (field_ranges d1 H1) as (Y1 & M1 & D1 & h1 & m1 & s1).
  destruct (field_ranges d2 H2) as (Y2 & M2 & D2 & h2 & m2 & s2).
  apply zero_pad_split in E as [Ey E].
  apply zero_pad_split in E as [Em E].
  apply zero_pad_split in E as [Ed E]. apply (strip_char "_"%char) in E.
  apply zero_pad_split in E as [Eh E].
  apply zero_pad_split in E as [Emi E].
  apply zero_pad_split in E as [Es _].
  apply zero_pad_inj in Ey, Em, Ed, Eh, Emi, Es;
    try (change (10 ^ Z.of_nat 4) with 10000);
    try (change (10 ^ Z.of_nat 2) with 100); lia.
Qed.

Lemma second_determines_fields d1 d2 :
  0 <= us d1 -> 0 <= us d2 ->
  us d1 / US_PER_SECOND = us d2 / US_PER_SECOND ->
  year d1 = year d2 /\ month d1 = month d2 /\ day d1 = day d2 /\
  hour d1 = hour d2 /\ minute d1 = minute d2 /\ second d1 = second d2.
Proof.
  intros H1 H2 E.
  destruct (fields_of_second d1 H1) as (D1 & Eh1 & Em1 & Es1).
  destruct (fields_of_second d2 H2) as (D2 & Eh2 & Em2 & Es2).
  unfold year, month, day. rewrite D1, D2, Eh1, Eh2, Em1, Em2, Es1, Es2, E.
  auto 10.
Qed.

End StampText.

(** X29.  The timestamp text of a finding identifies its second: two
    datetimes are printed as the same text exactly when they lie in the
    same second. *)
Theorem timestamp_text_determines_second (d1 d2 : datetime) :
  0 <= us d1 < MAX_US -> 0 <= us d2 < MAX_US ->
  (strftime d1 TS_FORMAT = strftime d2 TS_FORMAT <->
   us d1 / US_PER_SECOND = us d2 / US_PER_SECOND).
Proof.
  intros H1 H2. split.
  - intros E.
    destruct (strftime_utc_fields d1 d2 H1 H2 E) as (Ey & Em & Ed & Eh & Emi & Es).
    apply fields_determine_second; assumption.
  - intros E.
    destruct (second_determines_fields d1 d2 ltac:(lia) ltac:(lia) E)
      as (Ey & Em & Ed & Eh & Emi & Es).
    rewrite !strftime_utc. congruence.
Qed.

(** X30.  Two report names generated for the same base name and extension
    coincide exactly when the two clock readings fall in the same
    second: exports started in different seconds never share a file,
    exports within one second do. *)
Theorem report_name_unique_per_second (now1 now2 : datetime)
    (base_name extension : string) :
  0 <= us now1 < MAX_US -> 0 <= us now2 < MAX_US ->
  (generate_unique_filename now1 base_name extension
   = generate_unique_filename now2 base_name extension <->
   us now1 / US_PER_SECOND = us now2 / US_PER_SECOND).
Proof.
  intros H1 H2. unfold generate_unique_filename. split.
  - intros E.
    apply append_inj_length in E as [_ E]; [|reflexivity].
    apply (strip_char "_"%char) in E.
    apply append_inj_length in E as [E _].
    2:{ change (strftime now1 "%Y%m%d_%H%M%S")
          with (zero_pad 4 (year now1) +:+ zero_pad 2 (month now1)
                +:+ zero_pad 2 (day now1) +:+ "_" +:+ zero_pad 2 (hour now1)
                +:+ zero_pad 2 (minute now1) +:+ zero_pad 2 (second now1) +:+ "").
        change (strftime now2 "%Y%m%d_%H%M%S")
          with (zero_pad 4 (year now2) +:+ zero_pad 2 (month now2)
                +:+ zero_pad 2 (day now2) +:+ "_" +:+ zero_pad 2 (hour now2)
                +:+ zero_pad 2 (minute now2) +:+ zero_pad 2 (second now2) +:+ "").
        rewrite !length_append, !length_zero_pad. reflexivity. }
    destruct (strftime_file_fields now1 now2 H1 H2 E)
      as (Ey & Em & Ed & Eh & Emi & Es).
    apply fields_determine_second; assumption.
  - intros E.
    destruct (second_determines_fields now1 now2 ltac:(lia) ltac:(lia) E)
      as (Ey & Em & Ed & Eh & Emi & Es).
    do 2 f_equal.
    change (strftime now1 "%Y%m%d_%H%M%S")
      with (zero_pad 4 (year now1) +:+ zero_pad 2 (month now1)
            +:+ zero_pad 2 (day now1) +:+ "_" +:+ zero_pad 2 (hour now1)
            +:+ zero_pad 2 (minute now1) +:+ zero_pad 2 (second now1) +:+ "").
    change (strftime now2 "%Y%m%d_%H%M%S")
      with (zero_pad 4 (year now2) +:+ zero_pad 2 (month now2)
            +:+ zero_pad 2 (day now2) +:+ "_" +:+ zero_pad 2 (hour now2)
            +:+ zero_pad 2 (minute now2) +:+ zero_pad 2 (second now2) +:+ "").
    congruence.
Qed.

(** ** Scenarios *)

Section ScenarioFacts.

Lemma naive_stamped_key label u :
  sort_key (Examples.naive_stamped label u) = VDatetime (mkdt u None).
Proof.
  unfold sort_key, Examples.naive_stamped, mkdict.
  cbn [list_to_map foldr uncurry fst snd]. rewrite lookup_insert_eq. reflexivity.
Qed.

Lemma stamped_key label u :
  sort_key (Examples.stamped label u) = VDatetime (mkdt u utc).
Proof. unfold sort_key. rewrite stamped_timestamp_dt. reflexivity. Qed.

Lemma text_dict ts d a s de det :
  text_finding
    (mkdict [ ("timestamp", VStr ts); ("timestamp_dt", d);
              ("artifact_type", VStr a); ("source", VStr s);
              ("description", VStr de); ("details", VStr det) ]).
Proof.
  destruct (dict_fields (VStr ts) d (VStr a) (VStr s) (VStr de) (VStr det))
    as (H1 & _ & H2 & H3 & H4 & H5).
  unfold text_finding, REPORT_FIELDS. repeat constructor; eauto.
Qed.

Lemma text_reportable f : text_finding f -> reportable f.
Proof.
  apply List.Forall_impl. intros k [s Hs]. rewrite Hs. eauto.
Qed.

Lemma tool_finding_text : text_finding Examples.tool_finding.
Proof. apply text_dict. Qed.

Lemma torn_finding_unreportable : ~ reportable Examples.torn_finding.
Proof.
  unfold reportable, REPORT_FIELDS. intros H.
  inversion H as [|? ? _ H1]; subst. inversion H1 as [|? ? _ H2]; subst.
  inversion H2 as [|? ? _ H3]; subst. inversion H3 as [|? ? _ H4]; subst.
  inversion H4 as [|? ? [v Hv] _]; subst. revert Hv.
  unfold Examples.torn_finding, mkdict. cbn [list_to_map foldr uncurry fst snd].
  rewrite !lookup_insert_ne by discriminate. rewrite lookup_empty. discriminate.
Qed.

End ScenarioFacts.

Lemma sort_findings_idempotent_witness :
  exists out,
    sort_findings_by_timestamp
      [ Examples.stamped "a" 10; Examples.stamped "b" 20 ] = Ok out /\
    sort_findings_by_timestamp out = Ok out.
Proof.
  apply sort_findings_idempotent. repeat constructor; apply stamped_aware.
Defined.

Lemma sort_findings_mixed_unsorted_witness :
  sort_findings_by_timestamp
    [ Examples.naive_stamped "n" 10; Examples.stamped "a" 20 ]
  = Ok [ Examples.naive_stamped "n" 10; Examples.stamped "a" 20 ].
Proof.
  apply sort_findings_mixed_unsorted.
  - repeat constructor; eexists;
      [apply naive_stamped_key | apply stamped_key].
  - left. eexists. split; [apply naive_stamped_key|reflexivity].
  - right. left. apply stamped_aware.
Defined.

Lemma parse_typed_paths_spec_witness :
  exists fs,
    parse_typed_paths Examples.typed_paths_host Examples.window = Ok fs /\
    length fs = 2%nat.
Proof.
  destruct (parse_typed_paths_spec Examples.typed_paths_host Examples.window
              Examples.typed_paths_key Examples.eleven)
    as (fs & E & HF);
    [reflexivity | vm_compute; reflexivity | vm_compute; reflexivity |].
  exists fs. split; [exact E|].
  symmetry. exact (Forall2_length _ _ _ HF).
Defined.

Lemma extract_lnk_target_recovers_witness :
  extract_lnk_target Examples.lnk_host "report.docx.lnk" = "C:\Users\a\report.docx".
Proof.
  apply (extract_lnk_target_recovers Examples.lnk_host "report.docx.lnk"
           Examples.lnk_content [NUL; NUL; NUL] "C"%char
           (chars "Users\a\report.docx") [NUL; "x"%char]).
  - reflexivity.
  - reflexivity.
  - repeat constructor; discriminate.
  - reflexivity.
  - discriminate.
  - repeat constructor.
  - reflexivity.
Defined.

Lemma history_stops_at_bad_row_witness :
  exists f,
    chromium_history Examples.browser_host Examples.window ("Chrome", "History") []
    = (Ok tt, [f]).
Proof.
  eexists.
  apply (history_stops_at_bad_row Examples.browser_host Examples.window
           "Chrome" "History"
           [ [ VStr "https://a.example/"; VStr "A"; VInt 1;
               VInt Examples.chrome_eleven ] ]
           [ VStr "https://b.example/"; VStr "B"; VInt 1; VNone ]
           [ [ VStr "https://c.example/"; VStr "C"; VInt 1; VNone ] ]
           TypeError).
  - reflexivity.
  - reflexivity.
  - cbv -[mkdict]. reflexivity.
  - reflexivity.
Defined.

Lemma get_device_install_time_safe_witness :
  exists r, get_device_install_time Examples.bare_host "USBSTOR\Disk\1" = Ok r.
Proof.
  destruct (get_device_install_time_safe Examples.bare_host "USBSTOR\Disk\1")
    as (r & E & _).
  - intros hv path e [= <-]. reflexivity.
  - exists r. exact E.
Defined.

Lemma csv_header_columns_distinct_witness :
  List.NoDup (fieldnames "UTC+1").
Proof.
  exact (proj1 (proj2 (csv_header_columns_distinct Examples.lagos "UTC+1" eq_refl))).
Defined.

Lemma zone_label_rounds_half_hours_witness :
  get_timezone_name Examples.kolkata = Ok "UTC+6".
Proof.
  exact (proj1 (zone_label_rounds_half_hours Examples.kolkata 11
                  eq_refl eq_refl eq_refl)).
Defined.

Lemma export_writes_every_finding_witness :
  exists warning rows,
    export_to_csv Examples.lagos_env [Examples.tool_finding] None true
    = (Some "C:\cases\tracefinder_report_20240601_130000.csv", warning,
       Some (mkCsv "C:\cases\tracefinder_report_20240601_130000.csv"
               (fieldnames "UTC+1") rows)) /\
    length rows = 1%nat.
Proof.
  destruct (export_writes_every_finding Examples.lagos_env [Examples.tool_finding]
              None true false
              "C:\cases\tracefinder_report_20240601_130000.csv" "UTC+1")
    as (warning & rows & E & HF & _).
  - discriminate.
  - constructor; [apply text_reportable, tool_finding_text|constructor].
  - reflexivity.
  - reflexivity.
  - reflexivity.
  - reflexivity.
  - exists warning, rows. split; [exact E|].
    symmetry. exact (Forall2_length _ _ _ HF).
Defined.

Lemma export_failure_leaves_partial_file_witness :
  exists warning rows,
    export_to_csv Examples.lagos_env
      [Examples.tool_finding; Examples.torn_finding; Examples.tool_finding] None true
    = (None, warning ++ [ExportError KeyError],
       Some (mkCsv "C:\cases\tracefinder_report_20240601_130000.csv"
               (fieldnames "UTC+1") rows)) /\
    length rows = 1%nat.
Proof.
  destruct (export_failure_leaves_partial_file Examples.lagos_env
              [Examples.tool_finding] Examples.torn_finding [Examples.tool_finding]
              None true false
              "C:\cases\tracefinder_report_20240601_130000.csv" "UTC+1")
    as (warning & rows & E & HF).
  - constructor; [apply text_reportable, tool_finding_text|constructor].
  - exact torn_finding_unreportable.
  - reflexivity.
  - reflexivity.
  - reflexivity.
  - reflexivity.
  - exists warning, rows. split; [exact E|].
    symmetry. exact (Forall2_length _ _ _ HF).
Defined.

Lemma table_prints_every_text_finding_witness :
  exists lines,
    print_findings_table Examples.lagos (3600 * US_PER_SECOND) [Examples.tool_finding]
    = (lines, Ok tt) /\
    length lines = 11%nat.
Proof.
  destruct (table_prints_every_text_finding Examples.lagos (3600 * US_PER_SECOND)
              [Examples.tool_finding] "UTC+1")
    as (lines & rows & E & L & _).
  - discriminate.
  - constructor; [exact tool_finding_text|constructor].
  - reflexivity.
  - exists lines. split; [exact E|exact L].
Defined.

Lemma typed_paths_value_breaks_table_witness :
  exists fs lines,
    parse_typed_paths Examples.typed_paths_host Examples.window = Ok fs /\
    print_findings_table Examples.lagos (3600 * US_PER_SECOND) fs
    = (lines, Raise TypeError).
Proof.
  apply (typed_paths_value_breaks_table Examples.typed_paths_host Examples.window
           Examples.typed_paths_key Examples.eleven Examples.lagos
           (3600 * US_PER_SECOND) "UTC+1").
  - reflexivity.
  - vm_compute. reflexivity.
  - vm_compute. reflexivity.
  - right. left. split; [reflexivity|discriminate].
  - reflexivity.
Defined.

Lemma print_statistics_text_witness :
  exists lines,
    print_statistics [Examples.tool_finding; Examples.tool_finding] = (lines, Ok tt).
Proof.
  destruct (print_statistics_text [Examples.tool_finding; Examples.tool_finding])
    as (lines & tc & sc & _ & E & _).
  - discriminate.
  - constructor; [exact tool_finding_text|].
    constructor; [exact tool_finding_text|constructor].
  - exists lines. exact E.
Defined.

Lemma web_activity_titles_truncated_witness :
  exists fs,
    parse_browser_history Examples.browser_host Examples.window = Ok fs /\
    Forall (short_text 100) fs.
Proof.
  eexists. split.
  - cbv -[mkdict]. reflexivity.
  - apply (web_activity_titles_truncated Examples.browser_host Examples.window).
    cbv -[mkdict]. reflexivity.
Defined.

Lemma statistics_add_up_witness :
  occurrences "artifact_type" (VStr "Command Line")
    [Examples.tool_finding; Examples.tool_finding] = 2 /\
  occurrences "source" (VStr "RunMRU") [Examples.tool_finding; Examples.tool_finding]
  = 2.
Proof.
  destruct (statistics_add_up [Examples.tool_finding; Examples.tool_finding]
              [(VStr "Command Line", 2)] [(VStr "RunMRU", 2)])
    as (Ht & Hs & _).
  - unfold Examples.tool_finding, runmru_finding.
    match goal with
    | |- context [mkdict [ (_, ?ts); (_, ?d); (_, ?a); (_, ?s); (_, ?de);
                           (_, ?det) ]] =>
        destruct (dict_fields ts d a s de det) as (_ & _ & H2 & H3 & _)
    end.
    cbn [tally]. unfold getitem. rewrite H2, H3. reflexivity.
  - split; [rewrite <- Ht|rewrite <- Hs]; reflexivity.
Defined.

Lemma timestamp_text_determines_second_witness :
  strftime Examples.eleven TS_FORMAT
  = strftime (mkdt (us Examples.eleven + 999999) utc) TS_FORMAT.
Proof.
  apply (proj2 (timestamp_text_determines_second Examples.eleven
                  (mkdt (us Examples.eleven + 999999) utc)
                  ltac:(vm_compute; split; [discriminate|reflexivity])
                  ltac:(vm_compute; split; [discriminate|reflexivity]))).
  vm_compute. reflexivity.
Defined.

Lemma report_name_unique_per_second_witness :
  generate_unique_filename (env_now Examples.lagos_env) "tracefinder_report" "csv"
  = generate_unique_filename
      (mkdt (us (env_now Examples.lagos_env) + 999999) None)
      "tracefinder_report" "csv".
Proof.
  apply (proj2 (report_name_unique_per_second (env_now Examples.lagos_env)
                  (mkdt (us (env_now Examples.lagos_env) + 999999) None)
                  "tracefinder_report" "csv"
                  ltac:(vm_compute; split; [discriminate|reflexivity])
                  ltac:(vm_compute; split; [discriminate|reflexivity]))).
  vm_compute. reflexivity.
Defined.

Lemma registry_findings_carry_key_time_witness :
  exists fs,
    parse_typed_paths Examples.typed_paths_host Examples.window = Ok fs /\
    Forall (stamped_at Examples.eleven) fs.
Proof.
  eexists. split.
  - cbv -[mkdict]. reflexivity.
  - apply (proj1 (proj2 (registry_findings_carry_key_time
                           Examples.typed_paths_host Examples.window))
             Examples.typed_paths_key Examples.eleven).
    + reflexivity.
    + vm_compute. reflexivity.
    + cbv -[mkdict]. reflexivity.
Defined.
